(** * Token and cost analysis of exported conversations

    A shallow embedding of the analysis core of the repository
    ([config.py], [tokenizers.py], [message_ordering.py], [analyzers.py] and
    the summary part of [reporting.py]) together with the properties the
    specification states about it.

    Conventions of the embedding:
    - a Python [dict] used as a table whose iteration order matters (the cost
      table, a rate entry) is an association list in insertion order; the
      conversation mapping, which the code only looks up by key or turns into
      sets, is a [gmap string _];
    - Python numbers are [pynum]: unbounded [int]s and binary64 [float]s, with
      the coercion [int -> float] that mixed arithmetic performs;
    - an exception raised by the code is the [Raise] result of [pyresult];
    - the external tokenisation library and the iteration order of a Python
      [set] are interfaces ([Tiktoken], [SetOrder]). *)

From Stdlib Require Import ZArith Ascii String List Floats Lia.
From Stdlib Require Import Sorted.
From stdpp Require Import gmap strings list fin_maps fin_sets.

Set Warnings "-inexact-float,-clear-no-such-hyp".
Local Open Scope string_scope.
Local Open Scope list_scope.
Local Open Scope Z_scope.

(* ===================================================================== *)
(** * Python numbers *)
(* ===================================================================== *)

Module PyNum.

(** A Python number as the program meets them: an [int] or a [float]. *)
Inductive pynum : Type :=
| PInt (z : Z)
| PFloat (f : float).

(** [float(z)]: the binary64 number nearest to [z], ties to even, as CPython
    converts an int.  (From [2^1024] on CPython raises [OverflowError] where
    this is [infinity]; the ints the program converts are sums of lengths of
    token lists and rates of the cost table, far below that.) *)
Definition float_of_int (z : Z) : float :=
  SF2Prim (binary_normalize prec emax z 0 false).

Definition to_float (a : pynum) : float :=
  match a with
  | PInt z => float_of_int z
  | PFloat f => f
  end.

(** [a + b]: exact on two ints, binary64 addition otherwise. *)
Definition py_add (a b : pynum) : pynum :=
  match a, b with
  | PInt x, PInt y => PInt (x + y)
  | _, _ => PFloat (PrimFloat.add (to_float a) (to_float b))
  end.

(** [a * b]. *)
Definition py_mul (a b : pynum) : pynum :=
  match a, b with
  | PInt x, PInt y => PInt (x * y)
  | _, _ => PFloat (PrimFloat.mul (to_float a) (to_float b))
  end.

(** True division [a / b].  The result is always a float.  Every divisor in
    the program is a non-zero constant ([1_000_000], [2.0]) or a length that
    was tested to be non-zero, so [ZeroDivisionError] cannot occur; on two
    ints up to [2^53] the quotient of the converted operands is the correctly
    rounded quotient CPython returns. *)
Definition py_truediv (a b : pynum) : pynum :=
  PFloat (PrimFloat.div (to_float a) (to_float b)).

(** [a > 0] for an int counter. *)
Definition int_gt0 (z : Z) : bool := 0 <? z.

(** A running total: [acc = init; for x in l: acc += x]. *)
Definition accumulate (init : pynum) (l : list pynum) : pynum :=
  fold_left py_add l init.

(** The builtin [sum] over ints, which starts from the int [0] and adds
    from left to right. *)
Definition py_sum (l : list pynum) : pynum := accumulate (PInt 0) l.

(** ** Signs of binary64 results

    A float is _unsigned_ when its sign bit is clear or it is the NaN; the
    token counts the program computes are unsigned, and adding them to the
    float [0.0] returns them unchanged, which is what fails for [-0.0]. *)

Definition sign_is (sx : bool) (x : spec_float) : Prop :=
  match x with
  | S754_zero s | S754_infinity s | S754_finite s _ _ => s = sx
  | S754_nan => True
  end.

Definition unsigned_float (f : float) : Prop := sign_is false (Prim2SF f).

(** A number "counts" when it is a natural number or an unsigned float. *)
Definition counts (a : pynum) : Prop :=
  match a with
  | PInt z => 0 <= z
  | PFloat f => unsigned_float f
  end.

End PyNum.
Export PyNum.

(* ===================================================================== *)
(** * Python dictionaries in insertion order, and exceptions *)
(* ===================================================================== *)

Module PyDict.

(** [d.get(k)] on an association list: the entry of the key, if any. *)
Fixpoint dict_get {V : Type} (d : list (string * V)) (k : string) : option V :=
  match d with
  | [] => None
  | (k', v) :: rest => if String.eqb k' k then Some v else dict_get rest k
  end.

(** The exceptions the analysis can raise. *)
Inductive pyexn : Type :=
| KeyError (key : string).

Inductive pyresult (A : Type) : Type :=
| Ok (a : A)
| Raise (e : pyexn).
Arguments Ok {A} a.
Arguments Raise {A} e.

(** Sequencing: an exception of the first computation propagates. *)
#[export] Instance pyresult_bind : MBind pyresult :=
  fun A B (k : A -> pyresult B) (c : pyresult A) =>
    match c with
    | Ok a => k a
    | Raise e => Raise e
    end.
#[export] Instance pyresult_ret : MRet pyresult := fun A a => Ok a.

(** [d[k]], which raises [KeyError] on a missing key. *)
Definition dict_index {V : Type} (d : list (string * V)) (k : string) : pyresult V :=
  match dict_get d k with
  | Some v => Ok v
  | None => Raise (KeyError k)
  end.

End PyDict.
Export PyDict.

(* ===================================================================== *)
(** * config.py *)
(* ===================================================================== *)

Module Config.

(** One entry of a cost table: a dict from rate name to rate. *)
Definition rates : Type := list (string * pynum).
(** The cost table, in insertion order. *)
Definition cost_table : Type := list (string * rates).

Definition mk_rates (i o : float) : rates :=
  [("input_cost_per_million_tokens", PFloat i);
   ("output_cost_per_million_tokens", PFloat o)].

Definition DEFAULT_MODEL_COSTS : cost_table :=
  [("gpt-4o", mk_rates 2.5 10.0);
   ("research", mk_rates 10.0 40.0);
   ("o3", mk_rates 10.0 40.0);
   ("o1-pro", mk_rates 150.0 600.0);
   ("gpt-4-5", mk_rates 75.0 150.0);
   ("o1", mk_rates 15.0 60.0);
   ("o1-preview", mk_rates 15.0 60.0)].

Definition THOUGHT_CONTENT_MULTIPLIER : pynum := PFloat 1.2.

End Config.
Export Config.

(* ===================================================================== *)
(** * The conversation export *)
(* ===================================================================== *)

Module Export_.

(** One entry of [content["thoughts"]]; a missing key reads as [""]
    ([thought.get("summary", "")]). *)
Record Thought : Type := {
  summary : string;
  thought_content : string;
}.

(** An element of [content["parts"]]: a string, or something else (an image
    pointer, say) that [isinstance(p, str)] filters out. *)
Inductive part : Type :=
| PartStr (s : string)
| PartOther.

Inductive ContentBlock : Type :=
| Text (parts : list part)
| Thoughts (thoughts : list Thought)
| UserEditableContext (user_profile user_instructions : string)
| OtherContent.

(** A message object.  [None] in an optional field stands for a missing key;
    [finish_details] records whether that key is in the metadata. *)
Record Message : Type := {
  author_role : option string;
  content : ContentBlock;
  model_slug : option string;
  default_model_slug : option string;
  finish_details : bool;
  recipient : option string;
  end_turn : option bool;
}.

(** A node of the mapping.  [message = None] stands for a missing, null or
    empty message object, all of which the code treats as "no message". *)
Record MessageNode : Type := {
  parent : option string;
  children : list string;
  message : option Message;
}.

Record Conversation : Type := {
  title : option string;
  create_time : option pynum;
  update_time : option pynum;
  mapping : option (gmap string MessageNode);
}.

(** Truth value of a string: non-empty. *)
Definition truthy (s : string) : bool := negb (String.eqb s "").

(** Truth value of an optional string: present and non-empty. *)
Definition truthy_opt (s : option string) : bool :=
  match s with Some s => truthy s | None => false end.

End Export_.
Export Export_.

(* ===================================================================== *)
(** * tokenizers.py *)
(* ===================================================================== *)

Module Tokenizers.

(** An encoding of the tokenisation library, seen through the one use the
    code makes of it: [len(tokenizer.encode(text, disallowed_special=...))],
    or [None] when [encode] raises [ValueError]. *)
Definition Encoding : Type := string -> option nat.

(** The tokenisation library: [encoding_for_model] fails on a model name it
    does not know; [get_encoding("cl100k_base")] always succeeds. *)
Class Tiktoken : Type := {
  encoding_for_model : string -> option Encoding;
  cl100k_base : Encoding;
}.

Section WithTiktoken.
Context {tk : Tiktoken}.

Definition get_tokenizer (slug : option string) : Encoding :=
  match slug with
  | Some s =>
      if String.eqb s "o3" then
        match encoding_for_model "gpt-4o" with
        | Some e => e
        | None => cl100k_base
        end
      else if truthy s then
        match encoding_for_model s with
        | Some e => e
        | None => cl100k_base
        end
      else cl100k_base
  | None => cl100k_base
  end.

Definition count_tokens (text : string) (tokenizer : Encoding) : Z :=
  if negb (truthy text) then 0
  else match tokenizer text with
       | Some n => Z.of_nat n
       | None => 0
       end.

(** ["".join(p for p in parts if isinstance(p, str))] *)
Fixpoint join_str_parts (ps : list part) : string :=
  match ps with
  | [] => ""
  | PartStr s :: rest => s +:+ join_str_parts rest
  | PartOther :: rest => join_str_parts rest
  end.

(** One iteration of [for thought in thoughts], on the pair
    [(text_parts, total_tokens)]. *)
Definition thought_step (tokenizer : Encoding)
    (st : list string * pynum) (thought : Thought) : list string * pynum :=
  let st1 :=
    if truthy (summary thought) then
      (fst st ++ ["[Thought Label]: " +:+ summary thought],
       py_add (snd st) (PInt (count_tokens (summary thought) tokenizer)))
    else st in
  if truthy (thought_content thought) then
    let content_tokens := count_tokens (thought_content thought) tokenizer in
    (fst st1 ++ ["[Thought Content (x1.2)]: " +:+ thought_content thought],
     py_add (snd st1) (py_mul (PInt content_tokens) THOUGHT_CONTENT_MULTIPLIER))
  else st1.

Definition extract_text_from_message (message_data : MessageNode)
    (count_thoughts : bool) : list string * pynum :=
  match message message_data with
  | None => ([], PInt 0)
  | Some message =>
      let tokenizer := get_tokenizer (model_slug message) in
      match content message with
      | Text parts =>
          match parts with
          | [] => ([], PInt 0)
          | _ =>
              let full_text := join_str_parts parts in
              ([full_text], py_add (PInt 0) (PInt (count_tokens full_text tokenizer)))
          end
      | Thoughts thoughts =>
          if count_thoughts then
            fold_left (thought_step tokenizer) thoughts ([], PInt 0)
          else ([], PInt 0)
      | UserEditableContext user_profile user_instructions =>
          let st1 :=
            if truthy user_profile then
              (["[User Profile]: " +:+ user_profile],
               py_add (PInt 0) (PInt (count_tokens user_profile tokenizer)))
            else ([], PInt 0) in
          if truthy user_instructions then
            (fst st1 ++ ["[User Instructions]: " +:+ user_instructions],
             py_add (snd st1) (PInt (count_tokens user_instructions tokenizer)))
          else st1
      | OtherContent => ([], PInt 0)
      end
  end.

(** The token count alone, as every caller uses it
    ([_, tokens = extract_text_from_message(...)]). *)
Definition message_tokens (message_data : MessageNode) (count_thoughts : bool) : pynum :=
  snd (extract_text_from_message message_data count_thoughts).

End WithTiktoken.

End Tokenizers.
Export Tokenizers.

(* ===================================================================== *)
(** * message_ordering.py *)
(* ===================================================================== *)

Module MessageOrdering.

(** The order in which Python iterates over a [set] of strings: each element
    once, in an order the language does not fix. *)
Class SetOrder : Type := {
  set_to_list : gset string -> list string;
  set_to_list_perm : forall s, set_to_list s ≡ₚ elements s;
}.

(** [r.count("-")] *)
Fixpoint count_dashes (r : string) : nat :=
  match r with
  | EmptyString => 0%nat
  | String c rest =>
      ((if Ascii.eqb c "-"%char then 1 else 0) + count_dashes rest)%nat
  end.

(** A byte of the form [10xxxxxx], which continues a character of several
    bytes in UTF-8. *)
Definition continuation_byte (c : ascii) : bool :=
  match c with
  | Ascii _ _ _ _ _ _ b6 b7 => b7 && negb b6
  end.

(** [len(r)]: Python counts the characters (code points) of a string.  An id
    is held here as the bytes of its UTF-8 form, in which every character
    has exactly one byte that is not a continuation byte. *)
Fixpoint code_points (r : string) : nat :=
  match r with
  | EmptyString => 0%nat
  | String c rest =>
      ((if continuation_byte c then 0 else 1) + code_points rest)%nat
  end.

(** [len(r) == 36 and r.count("-") == 4] *)
Definition guid_like (r : string) : bool :=
  Nat.eqb (code_points r) 36 && Nat.eqb (count_dashes r) 4.

Section Linearizer.
Context {so : SetOrder}.
Implicit Types conversation_mapping : gmap string MessageNode.

(** [conversation_mapping.get(i, {}).get("message")] as a truth value. *)
Definition has_message conversation_mapping (i : string) : bool :=
  match conversation_mapping !! i with
  | Some msg_data => bool_decide (is_Some (message msg_data))
  | None => false
  end.

(** [conversation_mapping.get(i, {}).get("children", [])] *)
Definition children_of conversation_mapping (i : string) : list string :=
  match conversation_mapping !! i with
  | Some msg_data => children msg_data
  | None => []
  end.

(** [parent_id and parent_id in all_ids] *)
Definition has_valid_parent (all_ids : gset string) (msg_data : MessageNode) : bool :=
  match parent msg_data with
  | Some parent_id => truthy parent_id && bool_decide (parent_id ∈ all_ids)
  | None => false
  end.

(** The first part of the function: the choice of [root_id];
    [None] where the code returns the empty list. *)
Definition find_root conversation_mapping : option string :=
  if bool_decide ("client-created-root" ∈ dom conversation_mapping) then
    Some "client-created-root"
  else
    let all_ids := dom conversation_mapping in
    let child_ids_with_valid_parents : gset string :=
      dom (filter (fun kv => Is_true (has_valid_parent all_ids kv.2))
                  conversation_mapping) in
    let possible_roots := set_to_list (all_ids ∖ child_ids_with_valid_parents) in
    match possible_roots with
    | [] => None
    | first_root :: _ =>
        let non_guid_roots :=
          List.filter (fun r => negb (guid_like r)) possible_roots in
        match non_guid_roots with
        | r :: _ => Some r
        | [] => Some first_root
        end
    end.

(** The [while current_id:] loop.  One unit of fuel is one evaluation of
    the loop condition; [None] means the fuel ran out.  A node that is an
    empty dict has no children, so the [break] on a falsy node and the end
    of the branch return the same list. *)
Fixpoint follow_first_children (fuel : nat) conversation_mapping
    (visited_ids : gset string) (ordered_message_ids : list string)
    (current_id : string) : option (list string) :=
  match fuel with
  | O => None
  | S fuel' =>
      if negb (truthy current_id) then Some ordered_message_ids
      else
        match conversation_mapping !! current_id with
        | None => Some ordered_message_ids
        | Some msg_node =>
            match children msg_node with
            | [] => Some ordered_message_ids
            | next_id :: _ =>
                if bool_decide (next_id ∈ visited_ids) then Some ordered_message_ids
                else
                  follow_first_children fuel' conversation_mapping
                    ({[next_id]} ∪ visited_ids)
                    (if has_message conversation_mapping next_id
                     then ordered_message_ids ++ [next_id]
                     else ordered_message_ids)
                    next_id
            end
        end
  end.

(** From [visited_ids = set()] to the end of the function. *)
Definition walk_from (fuel : nat) conversation_mapping
    (ordered_message_ids : list string) (current_id : string) : option (list string) :=
  if negb (bool_decide (current_id ∈ ordered_message_ids))
     && has_message conversation_mapping current_id
  then follow_first_children fuel conversation_mapping {[current_id]}
         (ordered_message_ids ++ [current_id]) current_id
  else follow_first_children fuel conversation_mapping ∅
         ordered_message_ids current_id.

(** The node the walk starts from ([current_id] when the loop is reached):
    the first child of the synthetic root, or the root that was found. *)
Definition start_node conversation_mapping : option string :=
  if bool_decide (conversation_mapping = ∅) then None
  else
    match find_root conversation_mapping with
    | None => None
    | Some root_id =>
        if String.eqb root_id "client-created-root" then
          head (children_of conversation_mapping root_id)
        else Some root_id
    end.

Definition get_message_chronological_order_fuel (fuel : nat)
    conversation_mapping : option (list string) :=
  if bool_decide (conversation_mapping = ∅) then Some []
  else
    match find_root conversation_mapping with
    | None => Some []
    | Some root_id =>
        let current_id := root_id in
        let current_id :=
          if String.eqb root_id "client-created-root" then
            match children_of conversation_mapping root_id with
            | c :: _ => c
            | [] => current_id
            end
          else current_id in
        if String.eqb root_id "client-created-root" then
          match children_of conversation_mapping root_id with
          | [] => Some []
          | c :: _ => walk_from fuel conversation_mapping [] c
          end
        else
          walk_from fuel conversation_mapping
            (if has_message conversation_mapping current_id then [current_id] else [])
            current_id
    end.

(** The function itself.  The loop is given [size mapping + 2] units of
    fuel, which [follow_first_children_fuel] below shows is never used
    up. *)
Definition get_message_chronological_order conversation_mapping : list string :=
  default [] (get_message_chronological_order_fuel
                (size conversation_mapping + 2) conversation_mapping).

(** The walk of the specification: [current_id], then [children[0]] of
    each node in turn, for at most [n] nodes. *)
Fixpoint first_child_walk conversation_mapping (n : nat) (current_id : string)
    : list string :=
  match n with
  | O => []
  | S n' =>
      current_id ::
        match children_of conversation_mapping current_id with
        | next_id :: _ => first_child_walk conversation_mapping n' next_id
        | [] => []
        end
  end.

End Linearizer.

End MessageOrdering.
Export MessageOrdering.

(* ===================================================================== *)
(** * analyzers.py *)
(* ===================================================================== *)

Module Analyzers.

(** One element of ["turns_details"]; [model_label] is the ["model_slug"]
    key of the record, the display label of the message's model. *)
Record TurnRecord : Type := {
  assistant_message_id : string;
  turn_index : Z;
  input_tokens : pynum;
  output_tokens : pynum;
  input_cost : pynum;
  output_cost : pynum;
  turn_total_cost : pynum;
  model_label : string;
  input_discounted : bool;
  is_turn_end : bool;
}.

(** The keys of a simple-mode result. *)
Module Simple.
Record t : Type := {
  real_turns_count : Z;
  message_count : Z;
  simple_total_user_tokens : pynum;
  simple_total_assistant_tokens : pynum;
  simple_total_system_tokens : pynum;
  simple_total_input_tokens : pynum;
  simple_total_output_tokens : pynum;
  simple_input_cost : pynum;
  simple_output_cost : pynum;
  simple_total_cost : pynum;
  simple_cost_model_key : string;
}.
End Simple.

(** The keys of a detailed-mode result. *)
Module Detailed.
Record t : Type := {
  total_input_tokens_across_turns : pynum;
  total_output_tokens_for_all_assistant_msgs : pynum;
  total_cost : pynum;
  real_turns_count : Z;
  assistant_messages_count : Z;
  turns_details : list TurnRecord;
  message_count : Z;
}.
End Detailed.

(** What a result holds besides title and time stamps: an ["error"] key with
    the mode that was asked for, or the totals of one of the two modes. *)
Inductive ResultBody : Type :=
| ErrorBody (error : string) (mode : string)
| SimpleBody (s : Simple.t)
| DetailedBody (d : Detailed.t).

Record AnalysisResult : Type := {
  result_title : string;
  create_time_ts : option pynum;
  update_time_ts : option pynum;
  body : ResultBody;
}.

Definition identify_model_from_metadata (message : Message) : string :=
  if truthy_opt (model_slug message) then default "" (model_slug message)
  else if truthy_opt (default_model_slug message) then
    default "" (default_model_slug message) +:+ " (default)"
  else if finish_details message then "Unknown API Model"
  else
    match recipient message with
    | Some r =>
        if truthy r && negb (String.eqb r "all") then "Tool: " +:+ r
        else "N/A"
    | None => "N/A"
    end.

(** [message.get("end_turn") is True] *)
Definition ends_turn (message : Message) : bool :=
  match end_turn message with
  | Some true => true
  | _ => false
  end.

(** [message.get("author", {}).get("role", "unknown")] *)
Definition role_of (message : Message) : string :=
  default "unknown" (author_role message).

Definition count_real_turns (mapping : gmap string MessageNode)
    (ordered_message_ids : list string) : Z :=
  fold_left
    (fun turn_count msg_id =>
       match mapping !! msg_id with
       | None => turn_count
       | Some msg_data =>
           match message msg_data with
           | None => turn_count
           | Some message =>
               if ends_turn message then turn_count + 1 else turn_count
           end
       end)
    ordered_message_ids 0.

(** Truth value of an optional rate entry: present and not the empty dict. *)
Definition usable (r : option rates) : bool :=
  match r with
  | Some (_ :: _) => true
  | _ => false
  end.

Definition input_key : string := "input_cost_per_million_tokens".
Definition output_key : string := "output_cost_per_million_tokens".

(** [tokens / 1_000_000 * rate] *)
Definition cost_of (tokens rate : pynum) : pynum :=
  py_mul (py_truediv tokens (PInt 1000000)) rate.

Section WithTiktoken.
Context {tk : Tiktoken}.
Implicit Types mapping : gmap string MessageNode.

(* ----------------------------------------------------------------- *)
(** ** Simple mode *)

(** One iteration of the simple-mode loop on
    [(simple_user_tokens, simple_assistant_tokens, simple_system_tokens)]. *)
Definition simple_step mapping (st : pynum * pynum * pynum) (msg_id : string)
    : pynum * pynum * pynum :=
  let '(simple_user_tokens, simple_assistant_tokens, simple_system_tokens) := st in
  match mapping !! msg_id with
  | None => st
  | Some msg_data =>
      match message msg_data with
      | None => st
      | Some message =>
          let author_role := role_of message in
          if String.eqb author_role "user" then
            (py_add simple_user_tokens (message_tokens msg_data false),
             simple_assistant_tokens, simple_system_tokens)
          else if String.eqb author_role "assistant" then
            (simple_user_tokens,
             py_add simple_assistant_tokens (message_tokens msg_data true),
             simple_system_tokens)
          else if String.eqb author_role "system" then
            (simple_user_tokens, simple_assistant_tokens,
             py_add simple_system_tokens (message_tokens msg_data false))
          else st
      end
  end.

(** The choice of the rate entry of simple mode: the key that was tried
    and the entry found for it. *)
Definition simple_rates (costs_config : cost_table) : string * option rates :=
  let cost_model_key_for_simple := "o3" in
  let simple_calc_model_rates := dict_get costs_config cost_model_key_for_simple in
  if usable simple_calc_model_rates then
    (cost_model_key_for_simple, simple_calc_model_rates)
  else
    let '(cost_model_key_for_simple, simple_calc_model_rates) :=
      match costs_config with
      | (k, _) :: _ => (k, dict_get costs_config k)
      | [] => (cost_model_key_for_simple, simple_calc_model_rates)
      end in
    if usable simple_calc_model_rates then
      (cost_model_key_for_simple, simple_calc_model_rates)
    else ("o3", dict_get DEFAULT_MODEL_COSTS "o3").

(** The two rates of an entry when it is non-empty and has both keys
    ([rates and "input_..." in rates and "output_..." in rates]; an entry
    with both keys is not empty). *)
Definition complete_rates (r : option rates) : option (pynum * pynum) :=
  match r with
  | Some r =>
      match dict_get r input_key, dict_get r output_key with
      | Some i, Some o => Some (i, o)
      | _, _ => None
      end
  | None => None
  end.

Definition analyze_simple mapping (ordered_message_ids : list string)
    (costs_config : cost_table) (real_turns_count : Z) : Simple.t :=
  let '(simple_user_tokens, simple_assistant_tokens, simple_system_tokens) :=
    fold_left (simple_step mapping) ordered_message_ids (PInt 0, PInt 0, PInt 0) in
  let simple_total_input_tokens_val := py_add simple_user_tokens simple_system_tokens in
  let simple_total_output_tokens_val := simple_assistant_tokens in
  let '(cost_model_key_for_simple, simple_calc_model_rates) :=
    simple_rates costs_config in
  let '(simple_input_cost, simple_output_cost, simple_total_cost,
        cost_model_key_for_simple) :=
    match complete_rates simple_calc_model_rates with
    | Some (input_rate, output_rate) =>
        let simple_input_cost := cost_of simple_total_input_tokens_val input_rate in
        let simple_output_cost := cost_of simple_total_output_tokens_val output_rate in
        (simple_input_cost, simple_output_cost,
         py_add simple_input_cost simple_output_cost, cost_model_key_for_simple)
    | None =>
        (PFloat 0, PFloat 0, PFloat 0,
         cost_model_key_for_simple +:+ " (rates not found/incomplete)")
    end in
  {| Simple.real_turns_count := real_turns_count;
     Simple.message_count := Z.of_nat (length ordered_message_ids);
     Simple.simple_total_user_tokens := simple_user_tokens;
     Simple.simple_total_assistant_tokens := simple_assistant_tokens;
     Simple.simple_total_system_tokens := simple_system_tokens;
     Simple.simple_total_input_tokens := simple_total_input_tokens_val;
     Simple.simple_total_output_tokens := simple_total_output_tokens_val;
     Simple.simple_input_cost := simple_input_cost;
     Simple.simple_output_cost := simple_output_cost;
     Simple.simple_total_cost := simple_total_cost;
     Simple.simple_cost_model_key := cost_model_key_for_simple |}.

(* ----------------------------------------------------------------- *)
(** ** Detailed mode *)

(** The variables the detailed-mode loop updates.  ([turn_boundaries] and
    [current_turn_messages] are filled or declared by the code but never
    read, and are not carried.) *)
Record LoopState : Type := {
  conversation_total_input_tokens : pynum;
  conversation_total_output_tokens : pynum;
  conversation_total_cost : pynum;
  processed_turns : list TurnRecord;
  assistant_message_count_in_convo : Z;
  history_for_inputs : list (string * string * pynum);
  current_turn_index : Z;
}.

Definition initial_state : LoopState :=
  {| conversation_total_input_tokens := PInt 0;
     conversation_total_output_tokens := PInt 0;
     conversation_total_cost := PFloat 0;
     processed_turns := [];
     assistant_message_count_in_convo := 0;
     history_for_inputs := [];
     current_turn_index := 0 |}.

(** The rate entry charged for a message:
    [costs_config.get(model_slug, costs_config.get("o3"))], then the first
    entry of the table, then the default table's ["o3"]. *)
Definition resolve_model_costs (costs_config : cost_table)
    (slug : option string) : pyresult rates :=
  let current_model_costs :=
    match slug with
    | Some s =>
        match dict_get costs_config s with
        | Some r => Some r
        | None => dict_get costs_config "o3"
        end
    | None => dict_get costs_config "o3"
    end in
  if usable current_model_costs then Ok (default [] current_model_costs)
  else
    match costs_config with
    | (_, r) :: _ => Ok r
    | [] => dict_index DEFAULT_MODEL_COSTS "o3"
    end.

(** [sum(tok for j, (_, _, tok) in enumerate(history) if j < len(history) - 1)]:
    the counts of all entries but the last one. *)
Definition prior_history_tokens (history : list (string * string * pynum)) : pynum :=
  py_sum (map snd (take (length history - 1) history)).

(** The input rate of an assistant message, halved after the first turn. *)
Definition discounted_input_rate (current_model_costs : rates)
    (turn_index_now : Z) : pyresult pynum :=
  input_cost_rate ← dict_index current_model_costs input_key;
  if int_gt0 turn_index_now
  then Ok (py_truediv input_cost_rate (PFloat 2))
  else Ok input_cost_rate.

(** One iteration of the detailed-mode loop. *)
Definition detailed_step mapping (costs_config : cost_table)
    (st : LoopState) (msg_id : string) : pyresult LoopState :=
  match mapping !! msg_id with
  | None => Ok st
  | Some msg_data =>
      match message msg_data with
      | None => Ok st
      | Some message =>
          let author_role := role_of message in
          current_model_costs ← resolve_model_costs costs_config (model_slug message);
          let current_message_output_tokens := message_tokens msg_data true in
          let current_message_tokens_for_history := message_tokens msg_data false in
          let history :=
            history_for_inputs st
              ++ [(msg_id, author_role, current_message_tokens_for_history)] in
          let is_assistant := String.eqb author_role "assistant" in
          let count :=
            if is_assistant then assistant_message_count_in_convo st + 1
            else assistant_message_count_in_convo st in
          let is_turn_end := ends_turn message in
          let next_turn_index :=
            if is_turn_end then current_turn_index st + 1
            else current_turn_index st in
          if is_assistant then
            let output_tokens := current_message_output_tokens in
            output_rate ← dict_index current_model_costs output_key;
            let output_cost := cost_of output_tokens output_rate in
            let input_tokens_for_this_msg := prior_history_tokens history in
            input_cost_rate ←
              discounted_input_rate current_model_costs (current_turn_index st);
            let input_cost := cost_of input_tokens_for_this_msg input_cost_rate in
            let msg_cost := py_add input_cost output_cost in
            Ok {| conversation_total_input_tokens :=
                    py_add (conversation_total_input_tokens st) input_tokens_for_this_msg;
                  conversation_total_output_tokens :=
                    py_add (conversation_total_output_tokens st) output_tokens;
                  conversation_total_cost :=
                    py_add (conversation_total_cost st) msg_cost;
                  processed_turns :=
                    processed_turns st ++
                      [{| assistant_message_id := msg_id;
                          turn_index := current_turn_index st;
                          input_tokens := input_tokens_for_this_msg;
                          output_tokens := output_tokens;
                          input_cost := input_cost;
                          output_cost := output_cost;
                          turn_total_cost := msg_cost;
                          model_label := identify_model_from_metadata message;
                          input_discounted := int_gt0 (current_turn_index st);
                          is_turn_end := is_turn_end |}];
                  assistant_message_count_in_convo := count;
                  history_for_inputs := history;
                  current_turn_index := next_turn_index |}
          else
            Ok {| conversation_total_input_tokens := conversation_total_input_tokens st;
                  conversation_total_output_tokens := conversation_total_output_tokens st;
                  conversation_total_cost := conversation_total_cost st;
                  processed_turns := processed_turns st;
                  assistant_message_count_in_convo := count;
                  history_for_inputs := history;
                  current_turn_index := next_turn_index |}
      end
  end.

(** The loop: the state is threaded through the ids in order, and the
    first exception ends it. *)
Fixpoint detailed_loop mapping (costs_config : cost_table)
    (ordered_message_ids : list string) (st : LoopState) : pyresult LoopState :=
  match ordered_message_ids with
  | [] => Ok st
  | msg_id :: rest =>
      st' ← detailed_step mapping costs_config st msg_id;
      detailed_loop mapping costs_config rest st'
  end.

Definition analyze_detailed mapping (ordered_message_ids : list string)
    (costs_config : cost_table) (real_turns_count : Z) : pyresult Detailed.t :=
  st ← detailed_loop mapping costs_config ordered_message_ids initial_state;
  Ok {| Detailed.total_input_tokens_across_turns := conversation_total_input_tokens st;
        Detailed.total_output_tokens_for_all_assistant_msgs :=
          conversation_total_output_tokens st;
        Detailed.total_cost := conversation_total_cost st;
        Detailed.real_turns_count := real_turns_count;
        Detailed.assistant_messages_count := assistant_message_count_in_convo st;
        Detailed.turns_details := processed_turns st;
        Detailed.message_count := Z.of_nat (length ordered_message_ids) |}.

(* ----------------------------------------------------------------- *)
(** ** The entry point *)

Context {so : SetOrder}.

Definition analyze_conversation_tokens_and_costs (conversation : Conversation)
    (costs_config : cost_table) (mode : string) : pyresult AnalysisResult :=
  let result b :=
    {| result_title := default "N/A" (title conversation);
       create_time_ts := create_time conversation;
       update_time_ts := update_time conversation;
       body := b |} in
  let mapping := default ∅ (mapping conversation) in
  if bool_decide (mapping = ∅) then
    Ok (result (ErrorBody "No message mapping found" mode))
  else
    let ordered_message_ids := get_message_chronological_order mapping in
    match ordered_message_ids with
    | [] =>
        Ok (result (ErrorBody "Could not determine message order or no messages" mode))
    | _ =>
        let real_turns_count := count_real_turns mapping ordered_message_ids in
        if String.eqb mode "simple" then
          Ok (result (SimpleBody
                (analyze_simple mapping ordered_message_ids costs_config real_turns_count)))
        else
          d ← analyze_detailed mapping ordered_message_ids costs_config real_turns_count;
          Ok (result (DetailedBody d))
    end.

End WithTiktoken.

End Analyzers.
Export Analyzers.

(* ===================================================================== *)
(** * reporting.py: the summary of [generate_comprehensive_report] *)
(* ===================================================================== *)

Module Reporting.

(** The builtin [sum] as the interpreter provides it.  On floats its result
    depends on the interpreter (CPython 3.12 and later compensate the
    rounding errors of the partial sums), so it is an interface here. *)
Class Builtins : Type := {
  builtin_sum : list pynum -> pynum;
}.

(** ["error" in result] *)
Definition has_error (result : AnalysisResult) : bool :=
  match body result with
  | ErrorBody _ _ => true
  | _ => false
  end.

Definition error_conversations (all_analysis_results : list AnalysisResult)
    : list AnalysisResult :=
  List.filter has_error all_analysis_results.

Definition valid_results (all_analysis_results : list AnalysisResult)
    : list AnalysisResult :=
  List.filter (fun result => negb (has_error result)) all_analysis_results.

(** [result.get(key, 0)] for a key of the detailed-mode results. *)
Definition get_detailed (field : Detailed.t -> pynum) (result : AnalysisResult) : pynum :=
  match body result with
  | DetailedBody d => field d
  | _ => PInt 0
  end.

(** [result.get(key, 0)] for a key of the simple-mode results. *)
Definition get_simple (field : Simple.t -> pynum) (result : AnalysisResult) : pynum :=
  match body result with
  | SimpleBody s => field s
  | _ => PInt 0
  end.

(** [result.get("real_turns_count", 0)]; the key is in the results of both
    modes, so the fallback on ["assistant_messages_count"] that the
    detailed-mode summary names is never taken for them. *)
Definition get_real_turns (result : AnalysisResult) : pynum :=
  match body result with
  | DetailedBody d => PInt (Detailed.real_turns_count d)
  | SimpleBody s => PInt (Simple.real_turns_count s)
  | ErrorBody _ _ => PInt 0
  end.

Module DetailedSummary.
Record t : Type := {
  total_input_tokens : pynum;
  total_output_tokens : pynum;
  total_tokens : pynum;
  total_cost : pynum;
  total_turns : pynum;
  total_assistant_messages : pynum;
  avg_tokens_per_conversation : pynum;
  avg_cost_per_conversation : pynum;
  avg_turns_per_conversation : pynum;
  avg_messages_per_conversation : pynum;
}.
End DetailedSummary.

Module SimpleSummary.
Record t : Type := {
  total_user_tokens : pynum;
  total_assistant_tokens : pynum;
  total_system_tokens : pynum;
  total_input_tokens : pynum;
  total_output_tokens : pynum;
  total_tokens : pynum;
  total_input_cost : pynum;
  total_output_cost : pynum;
  total_cost : pynum;
  total_turns : pynum;
  avg_tokens_per_conversation : pynum;
  avg_cost_per_conversation : pynum;
  avg_turns_per_conversation : pynum;
}.
End SimpleSummary.

(** [report["summary"]]: it stays the empty dict for a mode that is neither
    ["detailed"] nor ["simple"]. *)
Inductive Summary : Type :=
| NoSummary
| OfDetailed (s : DetailedSummary.t)
| OfSimple (s : SimpleSummary.t).

(** The part of the report that is modelled: the count in its metadata, the
    summary and the list of failed conversations.  (The breakdowns by model
    and by day are further sums over [valid_results], and over nothing
    else.) *)
Record Report : Type := {
  total_conversations : Z;
  report_summary : Summary;
  errors : list AnalysisResult;
}.

Section WithBuiltins.
Context {bi : Builtins}.

(** [x / len(valid_results) if valid_results else 0] *)
Definition average (x : pynum) (valid : list AnalysisResult) : pynum :=
  match valid with
  | [] => PInt 0
  | _ => py_truediv x (PInt (Z.of_nat (length valid)))
  end.

Definition detailed_summary (valid : list AnalysisResult) : DetailedSummary.t :=
  let total_input_tokens :=
    builtin_sum (map (get_detailed Detailed.total_input_tokens_across_turns) valid) in
  let total_output_tokens :=
    builtin_sum
      (map (get_detailed Detailed.total_output_tokens_for_all_assistant_msgs) valid) in
  let total_cost := builtin_sum (map (get_detailed Detailed.total_cost) valid) in
  let total_turns := builtin_sum (map get_real_turns valid) in
  let total_assistant_messages :=
    builtin_sum
      (map (get_detailed (fun d => PInt (Detailed.assistant_messages_count d))) valid) in
  {| DetailedSummary.total_input_tokens := total_input_tokens;
     DetailedSummary.total_output_tokens := total_output_tokens;
     DetailedSummary.total_tokens := py_add total_input_tokens total_output_tokens;
     DetailedSummary.total_cost := total_cost;
     DetailedSummary.total_turns := total_turns;
     DetailedSummary.total_assistant_messages := total_assistant_messages;
     DetailedSummary.avg_tokens_per_conversation :=
       average (py_add total_input_tokens total_output_tokens) valid;
     DetailedSummary.avg_cost_per_conversation := average total_cost valid;
     DetailedSummary.avg_turns_per_conversation := average total_turns valid;
     DetailedSummary.avg_messages_per_conversation :=
       average total_assistant_messages valid |}.

Definition simple_summary (valid : list AnalysisResult) : SimpleSummary.t :=
  let total_input_tokens :=
    builtin_sum (map (get_simple Simple.simple_total_input_tokens) valid) in
  let total_output_tokens :=
    builtin_sum (map (get_simple Simple.simple_total_output_tokens) valid) in
  let total_cost := builtin_sum (map (get_simple Simple.simple_total_cost) valid) in
  let total_turns := builtin_sum (map get_real_turns valid) in
  {| SimpleSummary.total_user_tokens :=
       builtin_sum (map (get_simple Simple.simple_total_user_tokens) valid);
     SimpleSummary.total_assistant_tokens :=
       builtin_sum (map (get_simple Simple.simple_total_assistant_tokens) valid);
     SimpleSummary.total_system_tokens :=
       builtin_sum (map (get_simple Simple.simple_total_system_tokens) valid);
     SimpleSummary.total_input_tokens := total_input_tokens;
     SimpleSummary.total_output_tokens := total_output_tokens;
     SimpleSummary.total_tokens := py_add total_input_tokens total_output_tokens;
     SimpleSummary.total_input_cost :=
       builtin_sum (map (get_simple Simple.simple_input_cost) valid);
     SimpleSummary.total_output_cost :=
       builtin_sum (map (get_simple Simple.simple_output_cost) valid);
     SimpleSummary.total_cost := total_cost;
     SimpleSummary.total_turns := total_turns;
     SimpleSummary.avg_tokens_per_conversation :=
       average (py_add total_input_tokens total_output_tokens) valid;
     SimpleSummary.avg_cost_per_conversation := average total_cost valid;
     SimpleSummary.avg_turns_per_conversation := average total_turns valid |}.

Definition generate_comprehensive_report
    (all_analysis_results : list AnalysisResult)
    (current_calculation_mode : string) : Report :=
  let valid := valid_results all_analysis_results in
  {| total_conversations := Z.of_nat (length all_analysis_results);
     errors := error_conversations all_analysis_results;
     report_summary :=
       if String.eqb current_calculation_mode "detailed" then
         OfDetailed (detailed_summary valid)
       else if String.eqb current_calculation_mode "simple" then
         OfSimple (simple_summary valid)
       else NoSummary |}.

End WithBuiltins.

End Reporting.
Export Reporting.

(* ===================================================================== *)
(** * Notions of the specification *)
(* ===================================================================== *)

(** Definitions that follow the words of the specification rather than the
    code; the theorems below compare the code with them. *)
Module Stated.

Section WithTiktoken.
Context {tk : Tiktoken}.
Implicit Types mapping : gmap string MessageNode.

(** What one thought entry adds: its summary's token count as it is when
    the summary is not empty, and its content's token count times the
    multiplier when the content is not empty. *)
Definition thought_terms (tokenizer : Encoding) (thought : Thought) : list pynum :=
  (if truthy (Export_.summary thought)
   then [PInt (count_tokens (Export_.summary thought) tokenizer)] else [])
  ++
  (if truthy (thought_content thought)
   then [py_mul (PInt (count_tokens (thought_content thought) tokenizer))
                THOUGHT_CONTENT_MULTIPLIER]
   else []).

(** The message of a node id, when the id is in the mapping and its node
    carries a message. *)
Definition message_at mapping (i : string) : option (MessageNode * Message) :=
  match mapping !! i with
  | Some msg_data =>
      match message msg_data with
      | Some message => Some (msg_data, message)
      | None => None
      end
  | None => None
  end.

(** An id of an assistant message. *)
Definition is_assistant mapping (i : string) : bool :=
  match message_at mapping i with
  | Some (_, message) => String.eqb (role_of message) "assistant"
  | None => false
  end.

(** The history token counts ([count_thoughts = False]) of the messages
    among [ids], in order. *)
Definition history_counts mapping (ids : list string) : list pynum :=
  flat_map
    (fun i =>
       match message_at mapping i with
       | Some (msg_data, _) => [message_tokens msg_data false]
       | None => []
       end)
    ids.

(** The output token counts ([count_thoughts = True]) of the assistant
    messages among [ids], in order. *)
Definition assistant_outputs mapping (ids : list string) : list pynum :=
  flat_map
    (fun i =>
       match message_at mapping i with
       | Some (msg_data, message) =>
           if String.eqb (role_of message) "assistant"
           then [message_tokens msg_data true] else []
       | None => []
       end)
    ids.

(** The number of assistant messages among [ids]. *)
Definition assistant_count mapping (ids : list string) : nat :=
  length (List.filter (is_assistant mapping) ids).

(** The input rate the specification charges: the model's input rate, halved
    when the turn index is above 0. *)
Definition stated_input_rate (input_rate : pynum) (turn_index_now : Z) : pynum :=
  if 0 <? turn_index_now then py_truediv input_rate (PFloat 2) else input_rate.

(** The record of an assistant message as the specification describes it,
    from the tokens of the context before the message, the turn index at the
    message and the two rates of its model. *)
Definition stated_turn_record (i : string) (msg_data : MessageNode) (message : Message)
    (prior_tokens : pynum) (turn_index_now : Z) (input_rate output_rate : pynum)
    : TurnRecord :=
  let output_tokens := message_tokens msg_data true in
  let output_cost := cost_of output_tokens output_rate in
  let input_cost := cost_of prior_tokens (stated_input_rate input_rate turn_index_now) in
  {| assistant_message_id := i;
     turn_index := turn_index_now;
     input_tokens := prior_tokens;
     output_tokens := output_tokens;
     input_cost := input_cost;
     output_cost := output_cost;
     turn_total_cost := py_add input_cost output_cost;
     model_label := identify_model_from_metadata message;
     input_discounted := 0 <? turn_index_now;
     is_turn_end := ends_turn message |}.

(** A cost table whose entries all hold both rates. *)
Definition complete_table (costs_config : cost_table) : Prop :=
  Forall (fun entry => is_Some (complete_rates (Some (snd entry)))) costs_config.

End WithTiktoken.

End Stated.
Export Stated.

(* ===================================================================== *)
(** * Sample data *)
(* ===================================================================== *)

Module Samples.

(** A tokenisation library that counts one token per character and knows
    the model ["gpt-4o"] only. *)
Definition one_token_per_char : Tiktoken :=
  {| encoding_for_model :=
       fun name =>
         if String.eqb name "gpt-4o" then Some (fun text => Some (String.length text))
         else None;
     cl100k_base := fun text => Some (String.length text) |}.

(** Sets iterated in the order of [elements]. *)
Definition elements_order : SetOrder :=
  {| set_to_list := elements;
     set_to_list_perm := fun s => reflexivity (elements s) |}.

(** [sum] as the plain left-to-right sum. *)
Definition plain_sum : Builtins := {| builtin_sum := py_sum |}.

Definition text_message (role : string) (slug : option string) (text : string)
    (ends : option bool) : Message :=
  {| author_role := Some role;
     content := Text [PartStr text];
     model_slug := slug;
     default_model_slug := None;
     finish_details := false;
     recipient := None;
     end_turn := ends |}.

Definition thinking : list Thought :=
  [ {| Export_.summary := "plan"; thought_content := "thinking..." |};
    {| Export_.summary := ""; thought_content := "more" |} ].

Definition thoughts_message : Message :=
  {| author_role := Some "assistant";
     content := Thoughts thinking;
     model_slug := Some "o3";
     default_model_slug := None;
     finish_details := false;
     recipient := None;
     end_turn := Some true |}.

Definition node (p : option string) (cs : list string) (m : option Message)
    : MessageNode :=
  {| parent := p; children := cs; message := m |}.

Definition thoughts_node : MessageNode := node (Some "A") [] (Some thoughts_message).

(** The scenario of the specification:
    synthetic root -> A (user, "Hi") -> B (assistant, "Hello", end of turn). *)
Definition hi_hello : gmap string MessageNode :=
  <["client-created-root" := node None ["A"] None]>
  (<["A" := node (Some "client-created-root") ["B"]
              (Some (text_message "user" None "Hi" (Some false)))]>
  (<["B" := node (Some "A") []
              (Some (text_message "assistant" (Some "o3") "Hello" (Some true)))]> ∅)).

(** Two turns, one assistant message each. *)
Definition two_turns : gmap string MessageNode :=
  <["client-created-root" := node None ["A"] None]>
  (<["A" := node (Some "client-created-root") ["B"]
              (Some (text_message "user" None "Hi" None))]>
  (<["B" := node (Some "A") ["C"]
              (Some (text_message "assistant" (Some "o3") "Hello" (Some true)))]>
  (<["C" := node (Some "B") ["D"]
              (Some (text_message "user" None "Again" None))]>
  (<["D" := node (Some "C") []
              (Some (text_message "assistant" (Some "o3") "Sure" (Some true)))]> ∅)))).

(** One turn whose only assistant message is the thoughts message:
    synthetic root -> A (user, "Hi") -> B (assistant, thoughts, end of turn). *)
Definition hi_thoughts : gmap string MessageNode :=
  <["client-created-root" := node None ["A"] None]>
  (<["A" := node (Some "client-created-root") ["B"]
              (Some (text_message "user" None "Hi" (Some false)))]>
  (<["B" := thoughts_node]> ∅)).

(** A mapping without synthetic root whose first-child links form a cycle
    through the root: A -> B -> A. *)
Definition cycle_through_root : gmap string MessageNode :=
  <["A" := node None ["B"] (Some (text_message "user" None "Hi" None))]>
  (<["B" := node (Some "A") ["A"]
              (Some (text_message "assistant" None "Hello" (Some true)))]> ∅).

Definition conversation_of (m : option (gmap string MessageNode)) : Conversation :=
  {| title := Some "sample"; create_time := None; update_time := None; mapping := m |}.

Definition o3_only : cost_table := [("o3", mk_rates 10 40)].

(** A cost table whose only entry lacks the output rate. *)
Definition o3_without_output_rate : cost_table :=
  [("o3", [("input_cost_per_million_tokens", PFloat 10)])].

End Samples.

(* ===================================================================== *)
(** * filters.py *)
(* ===================================================================== *)

Module Filters.

(** The test of the inner loop on one node of the mapping: the node holds a
    message of the assistant whose model slug is the filter. *)
Definition uses_model (model_slug_filter : string) (msg_data : MessageNode) : bool :=
  match message msg_data with
  | Some message =>
      match author_role message with
      | Some author_role =>
          String.eqb author_role "assistant"
          && match model_slug message with
             | Some s => String.eqb s model_slug_filter
             | None => false
             end
      | None => false
      end
  | None => false
  end.

(** [assistant_used_model] at the end of the inner loop, which goes through
    [mapping.items()] until a node passes the test: whether some node does.
    ([mapping = None] is a conversation without the key, read as [{}].) *)
Definition assistant_used_model (model_slug_filter : string) (conv : Conversation) : bool :=
  existsb (fun kv => uses_model model_slug_filter kv.2)
    (map_to_list (default ∅ (mapping conv))).

Definition filter_conversations_by_model (conversations : list Conversation)
    (model_slug_filter : option string) : list Conversation :=
  match model_slug_filter with
  | Some f =>
      if truthy f then List.filter (assistant_used_model f) conversations
      else conversations
  | None => conversations
  end.

End Filters.
Export Filters.

(* ===================================================================== *)
(** * analyzer.py: the helpers on conversations and results *)
(* ===================================================================== *)

Module AnalyzerMain.

(** [sorted(l, key=key, reverse=True)]: the stable sort into descending
    order of the keys, elements of equal key staying in the order of the
    input.  [insert_desc] puts an element in front of the first one whose
    key is not above its own. *)
Fixpoint insert_desc {A : Type} (key : A -> Z) (x : A) (l : list A) : list A :=
  match l with
  | [] => [x]
  | y :: rest => if key x <? key y then y :: insert_desc key x rest else x :: l
  end.

Definition sorted_reverse {A : Type} (key : A -> Z) (l : list A) : list A :=
  fold_right (insert_desc key) [] l.

(** The slice [l[:limit]], where a negative [limit] counts from the end. *)
Definition slice_to {A : Type} (l : list A) (limit : Z) : list A :=
  if limit <? 0 then take (Z.to_nat (Z.of_nat (length l) + limit)) l
  else take (Z.to_nat limit) l.

(** [x.get("real_turns_count", 0)] *)
Definition turns_key (x : AnalysisResult) : Z :=
  match body x with
  | DetailedBody d => Detailed.real_turns_count d
  | SimpleBody s => Simple.real_turns_count s
  | ErrorBody _ _ => 0
  end.

(** Every result without error holds ["real_turns_count"], so the first of
    the three sort keys of the code is the one that is used whenever there is
    a result to sort; without any, the list is empty under each of them. *)
Definition find_conversations_with_most_turns
    (analysis_results : list AnalysisResult) (limit : Z) : list AnalysisResult :=
  let valid_results := valid_results analysis_results in
  let sorted_convs := sorted_reverse turns_key valid_results in
  slice_to sorted_convs limit.

Section WithOrder.
Context {so : SetOrder}.

Definition count_real_turns_in_conversation (original_conv : Conversation) : Z :=
  let mapping := default ∅ (mapping original_conv) in
  if bool_decide (mapping = ∅) then 0
  else
    let ordered_message_ids := get_message_chronological_order mapping in
    match ordered_message_ids with
    | [] => 0
    | _ =>
        fold_left
          (fun turn_count msg_id =>
             match mapping !! msg_id with
             | None => turn_count
             | Some msg_data =>
                 match message msg_data with
                 | None => turn_count
                 | Some message =>
                     match end_turn message with
                     | Some true => turn_count + 1
                     | _ => turn_count
                     end
                 end
             end)
          ordered_message_ids 0
    end.

(** The loop of [get_first_model_used]: the model slug of the first
    assistant message that has a non-empty one, ["unknown"] without any. *)
Fixpoint first_model_among (mapping : gmap string MessageNode)
    (ordered_message_ids : list string) : string :=
  match ordered_message_ids with
  | [] => "unknown"
  | msg_id :: rest =>
      match mapping !! msg_id with
      | None => first_model_among mapping rest
      | Some msg_data =>
          match message msg_data with
          | None => first_model_among mapping rest
          | Some message =>
              if negb (bool_decide (author_role message = Some "assistant")) then
                first_model_among mapping rest
              else
                let model := default "" (model_slug message) in
                if truthy model then model else first_model_among mapping rest
          end
      end
  end.

Definition get_first_model_used (conversation : Conversation) : string :=
  let mapping := default ∅ (mapping conversation) in
  if bool_decide (mapping = ∅) then "unknown"
  else
    let ordered_message_ids := get_message_chronological_order mapping in
    match ordered_message_ids with
    | [] => "unknown"
    | _ => first_model_among mapping ordered_message_ids
    end.

End WithOrder.

End AnalyzerMain.
Export AnalyzerMain.

(* ===================================================================== *)
(** * More sample data *)
(* ===================================================================== *)

Module MoreSamples.

(** A simple-mode result with the given title and number of real turns. *)
Definition simple_result (name : string) (turns : Z) : AnalysisResult :=
  {| result_title := name;
     create_time_ts := None;
     update_time_ts := None;
     body :=
       SimpleBody
         {| Simple.real_turns_count := turns;
            Simple.message_count := 2 * turns;
            Simple.simple_total_user_tokens := PInt 0;
            Simple.simple_total_assistant_tokens := PInt 0;
            Simple.simple_total_system_tokens := PInt 0;
            Simple.simple_total_input_tokens := PInt 0;
            Simple.simple_total_output_tokens := PInt 0;
            Simple.simple_input_cost := PFloat 0;
            Simple.simple_output_cost := PFloat 0;
            Simple.simple_total_cost := PFloat 0;
            Simple.simple_cost_model_key := "o3" |} |}.

Definition failed_result (name : string) : AnalysisResult :=
  {| result_title := name;
     create_time_ts := None;
     update_time_ts := None;
     body := ErrorBody "No message mapping found" "simple" |}.

(** Four results: two of them with 3 turns, one failed. *)
Definition batch : list AnalysisResult :=
  [simple_result "a" 3; failed_result "b"; simple_result "c" 5; simple_result "d" 3].

(** A mapping whose synthetic root has no children, beside a message. *)
Definition childless_root : gmap string MessageNode :=
  <["client-created-root" := Samples.node None [] None]>
  (<["A" := Samples.node None []
              (Some (Samples.text_message "user" None "Hi" None))]> ∅).

(** A conversation of users only. *)
Definition users_only : gmap string MessageNode :=
  <["client-created-root" := Samples.node None ["A"] None]>
  (<["A" := Samples.node (Some "client-created-root") ["B"]
              (Some (Samples.text_message "user" None "Hi" None))]>
  (<["B" := Samples.node (Some "A") []
              (Some (Samples.text_message "user" None "Anyone?" (Some true)))]> ∅)).

(** A cost table whose only entry is empty. *)
Definition empty_entry : cost_table := [("o3", [])].

(** Sets iterated in the reverse of the order of [elements]. *)
Definition reversed_order : SetOrder :=
  {| set_to_list := fun s => reverse (elements s);
     set_to_list_perm := fun s => reverse_Permutation (elements s) |}.

End MoreSamples.

(* ===================================================================== *)
(** * Notions for the further properties *)
(* ===================================================================== *)

Module MoreStated.

(** The value of a number that is an int (and 0 for a float). *)
Definition int_value (a : pynum) : Z :=
  match a with
  | PInt z => z
  | PFloat _ => 0
  end.

(** A number that is a natural int. *)
Definition natural (a : pynum) : Prop := exists n, a = PInt n /\ 0 <= n.

(** The keys of a list of results come in descending order. *)
Definition descending {A : Type} (key : A -> Z) (l : list A) : Prop :=
  StronglySorted (fun x y => key y <= key x) l.

(** A record that adds up: its total cost is the sum of its two costs, which
    are floats, and it is marked as discounted exactly when its turn index is
    above 0. *)
Definition record_consistent (r : TurnRecord) : Prop :=
  turn_total_cost r = py_add (input_cost r) (output_cost r)
  /\ input_discounted r = (0 <? turn_index r)
  /\ (exists f, input_cost r = PFloat f)
  /\ (exists f, output_cost r = PFloat f).

(** A record that comes no later than another: neither its turn index nor
    its input tokens are above the other's. *)
Definition record_le (a b : TurnRecord) : Prop :=
  turn_index a <= turn_index b
  /\ int_value (input_tokens a) <= int_value (input_tokens b).

End MoreStated.
Export MoreStated.

(* ===================================================================== *)
(** * Facts about Python numbers *)
(* ===================================================================== *)

Module PyNumFacts.

Lemma accumulate_app init l1 l2 :
  accumulate init (l1 ++ l2) = accumulate (accumulate init l1) l2.
Proof. unfold accumulate. apply fold_left_app. Qed.

(** Summing floats from the int [0] or from the float [0.0] is the same as
    soon as there is something to add. *)
Lemma accumulate_float_start f l :
  accumulate (PInt 0) (PFloat f :: l) = accumulate (PFloat 0) (PFloat f :: l).
Proof. reflexivity. Qed.

Lemma binary_round_aux_sign sx mx ex lx :
  sign_is sx (binary_round_aux prec emax sx mx ex lx).
Proof.
  unfold binary_round_aux.
  destruct (shr_fexp prec emax mx ex lx) as [mrs' e'].
  destruct (shr_fexp prec emax _ e' loc_Exact) as [mrs'' e''].
  destruct (shr_m mrs''); simpl; auto.
  destruct (e'' <=? emax - prec); simpl; auto.
Qed.

Lemma binary_round_sign sx mx ex :
  sign_is sx (binary_round prec emax sx mx ex).
Proof.
  unfold binary_round.
  destruct (shl_align mx ex _) as [mz ez]. apply binary_round_aux_sign.
Qed.

Lemma binary_normalize_sign m e :
  0 <= m -> sign_is false (binary_normalize prec emax m e false).
Proof.
  intros Hm. destruct m; simpl; auto; [apply binary_round_sign | lia].
Qed.

Lemma of_uint63_unsigned n : unsigned_float (PrimFloat.of_uint63 n).
Proof.
  unfold unsigned_float. rewrite of_uint63_spec.
  apply binary_normalize_sign. apply Uint63.to_Z_bounded.
Qed.

Lemma SF2Prim_unsigned x : sign_is false x -> unsigned_float (SF2Prim x).
Proof.
  destruct x as [s|s| |s m e]; cbn [sign_is]; intros H; subst;
    try (vm_compute; reflexivity).
  cbn [SF2Prim]. unfold unsigned_float. rewrite Z_ldexp_spec.
  generalize (of_uint63_unsigned (Uint63.of_Z (Z.pos m))).
  unfold unsigned_float, SFldexp.
  destruct (Prim2SF _) as [s|s| |s m' e']; cbn [sign_is]; auto.
  intros ->. apply binary_round_sign.
Qed.

Lemma float_of_int_unsigned z : 0 <= z -> unsigned_float (float_of_int z).
Proof. intros Hz. by apply SF2Prim_unsigned, binary_normalize_sign. Qed.

Lemma add_unsigned x y :
  unsigned_float x -> unsigned_float y -> unsigned_float (x + y).
Proof.
  unfold unsigned_float. rewrite FloatAxioms.add_spec. unfold SF64add, SFadd.
  destruct (Prim2SF x) as [sx|sx| |sx mx ex], (Prim2SF y) as [sy|sy| |sy my ey];
    simpl; intros Hx Hy; subst; simpl; auto.
  apply binary_round_sign.
Qed.

Lemma mul_unsigned x y :
  unsigned_float x -> unsigned_float y -> unsigned_float (x * y).
Proof.
  unfold unsigned_float. rewrite FloatAxioms.mul_spec. unfold SF64mul, SFmul.
  destruct (Prim2SF x) as [sx|sx| |sx mx ex], (Prim2SF y) as [sy|sy| |sy my ey];
    simpl; intros Hx Hy; subst; simpl; auto.
  apply (binary_round_aux_sign false).
Qed.

Lemma add_zero_l f : unsigned_float f -> (0 + f)%float = f.
Proof.
  unfold unsigned_float. intros H. apply Prim2SF_inj.
  rewrite FloatAxioms.add_spec.
  change (Prim2SF 0) with (S754_zero false). unfold SF64add.
  destruct (Prim2SF f) as [[]| | |]; simpl in *; try reflexivity. discriminate.
Qed.

Lemma py_add_counts a b : counts a -> counts b -> counts (py_add a b).
Proof.
  intros Ha Hb.
  destruct a as [x|x], b as [y|y]; simpl in *;
    try lia; apply add_unsigned; auto using float_of_int_unsigned.
Qed.

Lemma py_mul_counts a b : counts a -> counts b -> counts (py_mul a b).
Proof.
  intros Ha Hb.
  destruct a as [x|x], b as [y|y]; simpl in *;
    try nia; apply mul_unsigned; auto using float_of_int_unsigned.
Qed.

(** [0 + a] is [a] itself for every number that counts. *)
Lemma py_add_0_l a : counts a -> py_add (PInt 0) a = a.
Proof.
  destruct a as [z|f]; simpl; intros H; [reflexivity |].
  f_equal. apply add_zero_l, H.
Qed.

Lemma multiplier_counts : counts THOUGHT_CONTENT_MULTIPLIER.
Proof. vm_compute. reflexivity. Qed.

End PyNumFacts.
Import PyNumFacts.

(* ===================================================================== *)
(** * The message content extractor *)
(* ===================================================================== *)

Module TokenizerFacts.

Section WithTiktoken.
Context {tk : Tiktoken}.

Lemma count_tokens_nonneg text tokenizer : 0 <= count_tokens text tokenizer.
Proof.
  unfold count_tokens.
  destruct (negb (truthy text)); [lia |].
  destruct (tokenizer text); lia.
Qed.

(** The loop over the thoughts adds the terms of each entry, in order, to
    the running total. *)
Lemma thought_loop_total tokenizer thoughts st :
  snd (fold_left (thought_step tokenizer) thoughts st) =
  accumulate (snd st) (flat_map (thought_terms tokenizer) thoughts).
Proof.
  revert st. induction thoughts as [|thought rest IH]; intros st; [reflexivity |].
  cbn [fold_left flat_map]. rewrite IH, accumulate_app. f_equal.
  unfold thought_step, thought_terms.
  destruct (truthy (Export_.summary thought)), (truthy (thought_content thought));
    reflexivity.
Qed.

Lemma thought_terms_count tokenizer thought :
  Forall counts (thought_terms tokenizer thought).
Proof.
  unfold thought_terms. apply Forall_app. split.
  - destruct (truthy _); constructor; [apply count_tokens_nonneg | constructor].
  - destruct (truthy _); constructor; [| constructor].
    apply py_mul_counts; [apply count_tokens_nonneg | apply multiplier_counts].
Qed.

Lemma accumulate_counts init l :
  counts init -> Forall counts l -> counts (accumulate init l).
Proof.
  revert init. induction l as [|x l IH]; intros init Hi Hl; [exact Hi |].
  inversion Hl; subst. apply IH; [apply py_add_counts |]; assumption.
Qed.

(** Every token count of the extractor is a natural number or an unsigned
    float. *)
Lemma message_tokens_counts message_data count_thoughts :
  counts (message_tokens message_data count_thoughts).
Proof.
  unfold message_tokens, extract_text_from_message.
  destruct (message message_data) as [msg|]; [| simpl; lia].
  destruct (content msg) as [ps|ths|up ui|].
  - destruct ps; simpl; [lia | apply count_tokens_nonneg].
  - destruct count_thoughts; [| simpl; lia].
    rewrite thought_loop_total. apply accumulate_counts; [simpl; lia |].
    apply Forall_flat_map, Forall_forall. intros; apply thought_terms_count.
  - destruct (truthy up), (truthy ui); simpl;
      pose proof (count_tokens_nonneg up (get_tokenizer (model_slug msg)));
      pose proof (count_tokens_nonneg ui (get_tokenizer (model_slug msg)));
      lia.
  - simpl; lia.
Qed.

(** With [count_thoughts = False] the count is an int: no float is ever
    produced, and a thoughts message counts for nothing. *)
Lemma history_tokens_int message_data :
  exists n, message_tokens message_data false = PInt n /\ 0 <= n.
Proof.
  pose proof (message_tokens_counts message_data false) as Hc.
  revert Hc. unfold message_tokens, extract_text_from_message.
  destruct (message message_data) as [msg|]; [| simpl; eauto].
  destruct (content msg) as [ps|ths|up ui|]; simpl.
  - destruct ps; simpl; eauto.
  - eauto.
  - destruct (truthy up), (truthy ui); simpl; eauto.
  - eauto.
Qed.

(** C3.  For a message whose content type is "thoughts": with
    [count_thoughts] the extractor's total is the sum, taken from left to
    right over the thought entries in order, of the summary's token count
    as it is (when the summary is not empty) and of the content's token
    count times [THOUGHT_CONTENT_MULTIPLIER] (when the content is not
    empty), the multiplier being 1.2; without [count_thoughts] the
    thoughts count for exactly 0 tokens. *)
Theorem thoughts_token_total :
  forall (message_data : MessageNode) (msg : Message) (thoughts : list Thought),
    message message_data = Some msg ->
    content msg = Thoughts thoughts ->
    message_tokens message_data true =
      py_sum (flat_map (thought_terms (get_tokenizer (model_slug msg))) thoughts)
    /\ message_tokens message_data false = PInt 0
    /\ THOUGHT_CONTENT_MULTIPLIER = PFloat 1.2.
Proof.
  intros message_data msg thoughts Hm Hc.
  unfold message_tokens, extract_text_from_message. rewrite Hm, Hc.
  split; [apply thought_loop_total | split; reflexivity].
Qed.

End WithTiktoken.

(** A thoughts message with a summary of 4 tokens and contents of 11 and 4
    tokens: [4 + 11 * 1.2 + 4 * 1.2], which the floats round to 22. *)
Lemma thoughts_token_total_witness :
  message Samples.thoughts_node = Some Samples.thoughts_message
  /\ content Samples.thoughts_message = Thoughts Samples.thinking
  /\ @message_tokens Samples.one_token_per_char Samples.thoughts_node true = PFloat 22
  /\ @message_tokens Samples.one_token_per_char Samples.thoughts_node false = PInt 0.
Proof.
  pose proof (@thoughts_token_total Samples.one_token_per_char
                Samples.thoughts_node Samples.thoughts_message Samples.thinking
                eq_refl eq_refl) as (Ht & Hf & _).
  split; [reflexivity |]. split; [reflexivity |].
  split; [rewrite Ht; vm_compute; reflexivity | exact Hf].
Defined.

End TokenizerFacts.

(* ===================================================================== *)
(** * The thread linearizer *)
(* ===================================================================== *)

Module LinearizerFacts.

Section Walk.
Context {so : SetOrder}.
Implicit Types conversation_mapping : gmap string MessageNode.

(** More fuel does not change a result. *)
Lemma follow_first_children_more_fuel conversation_mapping fuel :
  forall visited_ids ordered current_id r fuel',
    follow_first_children fuel conversation_mapping visited_ids ordered current_id
      = Some r ->
    (fuel <= fuel')%nat ->
    follow_first_children fuel' conversation_mapping visited_ids ordered current_id
      = Some r.
Proof.
  induction fuel as [|fuel IH]; intros V o c r fuel' Hr Hle; [discriminate |].
  destruct fuel' as [|fuel']; [lia |].
  simpl in *.
  destruct (negb (truthy c)); [exact Hr |].
  destruct (conversation_mapping !! c) as [msg_node|]; [| exact Hr].
  destruct (children msg_node) as [|next_id rest]; [exact Hr |].
  destruct (bool_decide (next_id ∈ V)); [exact Hr |].
  apply IH with (fuel' := fuel') in Hr; [exact Hr | lia].
Qed.

(** The loop ends: every pass that goes on puts a new id into [visited_ids],
    and all ids in it but the current one are keys of the mapping. *)
Lemma follow_first_children_fuel conversation_mapping fuel :
  forall visited_ids ordered current_id,
    visited_ids ∖ {[current_id]} ⊆ dom conversation_mapping ->
    (size (dom conversation_mapping ∖ visited_ids)
       + (if bool_decide (current_id ∈ dom conversation_mapping) then 2 else 1)
     <= fuel)%nat ->
    is_Some (follow_first_children fuel conversation_mapping visited_ids ordered
               current_id).
Proof.
  induction fuel as [|fuel IH]; intros V o c Hsub Hfuel.
  - destruct (bool_decide _); lia.
  - simpl.
    destruct (negb (truthy c)); [eauto |].
    destruct (conversation_mapping !! c) as [msg_node|] eqn:Hc; [| eauto].
    destruct (children msg_node) as [|next_id rest]; [eauto |].
    destruct (bool_decide (next_id ∈ V)) eqn:Hin; [eauto |].
    apply bool_decide_eq_false in Hin.
    assert (Hcdom : c ∈ dom conversation_mapping) by (apply elem_of_dom; eauto).
    rewrite bool_decide_eq_true_2 in Hfuel by exact Hcdom.
    assert (HV : V ⊆ dom conversation_mapping).
    { intros x Hx. destruct (decide (x = c)) as [->|Hne]; [exact Hcdom |].
      apply Hsub. set_solver. }
    apply IH; [set_solver |].
    destruct (decide (next_id ∈ dom conversation_mapping)) as [Hn|Hn].
    + rewrite bool_decide_eq_true_2 by exact Hn.
      assert (Heq : dom conversation_mapping ∖ V
                    ≡ {[next_id]} ∪ dom conversation_mapping ∖ ({[next_id]} ∪ V)).
      { intros x. destruct (decide (x = next_id)); set_solver. }
      rewrite Heq, size_union, size_singleton in Hfuel by set_solver. lia.
    + rewrite bool_decide_eq_false_2 by exact Hn.
      assert (Heq : dom conversation_mapping ∖ ({[next_id]} ∪ V)
                    ≡ dom conversation_mapping ∖ V) by set_solver.
      rewrite Heq. lia.
Qed.

(** What the loop appends: the message-bearing nodes among the successors of
    [current_id] along the first-child links, up to some length. *)
Lemma follow_first_children_prefix conversation_mapping fuel :
  forall visited_ids ordered current_id r,
    follow_first_children fuel conversation_mapping visited_ids ordered current_id
      = Some r ->
    exists n,
      r = ordered ++
          List.filter (has_message conversation_mapping)
            (tail (first_child_walk conversation_mapping (S n) current_id)).
Proof.
  induction fuel as [|fuel IH]; intros V o c r Hr; [discriminate |].
  assert (Hstop : r = o -> exists n,
             r = o ++ List.filter (has_message conversation_mapping)
                        (tail (first_child_walk conversation_mapping (S n) c))).
  { intros ->. exists 0%nat. simpl.
    destruct (children_of conversation_mapping c); simpl; by rewrite app_nil_r. }
  simpl in Hr.
  destruct (negb (truthy c)); [apply Hstop; congruence |].
  destruct (conversation_mapping !! c) as [msg_node|] eqn:Hc; [| apply Hstop; congruence].
  destruct (children msg_node) as [|next_id rest] eqn:Hch; [apply Hstop; congruence |].
  destruct (bool_decide (next_id ∈ V)); [apply Hstop; congruence |].
  apply IH in Hr as [n ->]. exists (S n).
  assert (Hco : children_of conversation_mapping c = next_id :: rest)
    by (unfold children_of; rewrite Hc; exact Hch).
  change (tail (first_child_walk conversation_mapping (S (S n)) c))
    with (match children_of conversation_mapping c with
          | next_id :: _ => first_child_walk conversation_mapping (S n) next_id
          | [] => []
          end).
  rewrite Hco.
  change (first_child_walk conversation_mapping (S n) next_id)
    with (next_id :: tail (first_child_walk conversation_mapping (S n) next_id)).
  cbn [List.filter].
  destruct (has_message conversation_mapping next_id); [| reflexivity].
  by rewrite <- app_assoc.
Qed.

Lemma walk_from_fuel conversation_mapping fuel ordered current_id :
  (size conversation_mapping + 2 <= fuel)%nat ->
  is_Some (walk_from fuel conversation_mapping ordered current_id).
Proof.
  intros Hfuel. unfold walk_from.
  assert (Hsize : forall V : gset string,
             (size (dom conversation_mapping ∖ V) <= size conversation_mapping)%nat).
  { intros V. rewrite <- size_dom. apply subseteq_size. set_solver. }
  destruct (_ && _); apply follow_first_children_fuel; try set_solver;
    match goal with |- context [dom _ ∖ ?V] => specialize (Hsize V) end;
    destruct (bool_decide _); lia.
Qed.

(** From a start node that is not yet in the list unless it carries a
    message, the walk returns the message-bearing nodes of a prefix of the
    first-child walk. *)
Lemma walk_from_prefix conversation_mapping fuel ordered current_id r :
  ordered = (if has_message conversation_mapping current_id then ordered else []) ->
  ordered = [] \/ ordered = [current_id] ->
  walk_from fuel conversation_mapping ordered current_id = Some r ->
  exists n,
    r = List.filter (has_message conversation_mapping)
          (first_child_walk conversation_mapping n current_id).
Proof.
  intros Hmsg Hord Hr. unfold walk_from in Hr.
  destruct (has_message conversation_mapping current_id) eqn:Hm.
  - destruct Hord as [-> | ->].
    + rewrite bool_decide_eq_false_2 in Hr by set_solver. simpl in Hr.
      apply follow_first_children_prefix in Hr as [n ->]. exists (S n).
      change (first_child_walk conversation_mapping (S n) current_id)
        with (current_id :: tail (first_child_walk conversation_mapping (S n) current_id)).
      cbn [List.filter]. rewrite Hm. reflexivity.
    + rewrite bool_decide_eq_true_2 in Hr by set_solver. simpl in Hr.
      apply follow_first_children_prefix in Hr as [n ->]. exists (S n).
      change (first_child_walk conversation_mapping (S n) current_id)
        with (current_id :: tail (first_child_walk conversation_mapping (S n) current_id)).
      cbn [List.filter]. rewrite Hm. reflexivity.
  - subst ordered. rewrite andb_false_r in Hr.
    apply follow_first_children_prefix in Hr as [n ->]. exists (S n).
    change (first_child_walk conversation_mapping (S n) current_id)
      with (current_id :: tail (first_child_walk conversation_mapping (S n) current_id)).
    cbn [List.filter]. rewrite Hm. reflexivity.
Qed.

Lemma walk_from_more_fuel conversation_mapping fuel fuel' ordered current_id r :
  walk_from fuel conversation_mapping ordered current_id = Some r ->
  (fuel <= fuel')%nat ->
  walk_from fuel' conversation_mapping ordered current_id = Some r.
Proof.
  unfold walk_from. intros Hr Hle.
  destruct (_ && _); eapply follow_first_children_more_fuel; eauto.
Qed.

(** The walk on enough fuel: one result for every amount of fuel from
    [size mapping + 2] on, made of the message-bearing nodes of a prefix of
    the first-child walk. *)
Lemma walk_from_total conversation_mapping ordered current_id :
  ordered = (if has_message conversation_mapping current_id then ordered else []) ->
  ordered = [] \/ ordered = [current_id] ->
  exists r,
    (forall fuel, (size conversation_mapping + 2 <= fuel)%nat ->
       walk_from fuel conversation_mapping ordered current_id = Some r)
    /\ exists n,
         r = List.filter (has_message conversation_mapping)
               (first_child_walk conversation_mapping n current_id).
Proof.
  intros Hmsg Hord.
  destruct (walk_from_fuel conversation_mapping (size conversation_mapping + 2)
              ordered current_id) as [r Hr]; [lia |].
  exists r. split.
  - intros fuel Hfuel. eapply walk_from_more_fuel; eauto.
  - eapply walk_from_prefix; eauto.
Qed.

(** The linearizer on enough fuel, for any mapping. *)
Lemma linearizer_result conversation_mapping :
  exists r,
    (forall fuel, (size conversation_mapping + 2 <= fuel)%nat ->
       get_message_chronological_order_fuel fuel conversation_mapping = Some r)
    /\ match start_node conversation_mapping with
       | None => r = []
       | Some start =>
           exists n,
             r = List.filter (has_message conversation_mapping)
                   (first_child_walk conversation_mapping n start)
       end.
Proof.
  unfold get_message_chronological_order_fuel, start_node.
  destruct (bool_decide (conversation_mapping = ∅)); [by exists [] |].
  destruct (find_root conversation_mapping) as [root_id|]; [| by exists []].
  destruct (String.eqb root_id "client-created-root").
  - destruct (children_of conversation_mapping root_id) as [|c rest];
      [by exists [] |].
    simpl. apply walk_from_total; [by destruct (has_message _ _) | by left].
  - simpl. apply walk_from_total; destruct (has_message _ _); auto.
Qed.

(** Only ids of nodes that carry a message are returned, whatever the
    mapping. *)
Lemma linearizer_only_messages conversation_mapping i :
  In i (get_message_chronological_order conversation_mapping) ->
  has_message conversation_mapping i = true.
Proof.
  destruct (linearizer_result conversation_mapping) as (r & Hfuel & Hprefix).
  unfold get_message_chronological_order. rewrite Hfuel by lia. simpl.
  destruct (start_node conversation_mapping).
  - destruct Hprefix as [n ->]. intros Hin. by apply filter_In in Hin as [_ ?].
  - subst r. intros [].
Qed.

(** ** Where no id is repeated, and the whole path *)

(** The run of the function on a mapping that has a start node: the walk from
    that node, with a list that is empty or, for an inferred root that
    carries a message, holds that root. *)
Lemma linearizer_run conversation_mapping :
  match start_node conversation_mapping with
  | None => get_message_chronological_order conversation_mapping = []
  | Some start =>
      exists ordered,
        walk_from (size conversation_mapping + 2) conversation_mapping ordered start
          = Some (get_message_chronological_order conversation_mapping)
        /\ (ordered = []
            \/ ordered = [start]
               /\ has_message conversation_mapping start = true
               /\ find_root conversation_mapping = Some start
               /\ start <> "client-created-root")
  end.
Proof.
  unfold get_message_chronological_order, get_message_chronological_order_fuel,
    start_node.
  destruct (bool_decide (conversation_mapping = ∅)); [reflexivity |].
  destruct (find_root conversation_mapping) as [root_id|]; [| reflexivity].
  destruct (String.eqb root_id "client-created-root") eqn:Hroot.
  - destruct (children_of conversation_mapping root_id) as [|c rest];
      [reflexivity |].
    cbn [head]. exists [].
    destruct (walk_from_fuel conversation_mapping (size conversation_mapping + 2)
                [] c) as [r ->]; [lia |].
    split; [reflexivity | by left].
  - apply String.eqb_neq in Hroot.
    destruct (has_message conversation_mapping root_id) eqn:Hmsg.
    + exists [root_id].
      destruct (walk_from_fuel conversation_mapping (size conversation_mapping + 2)
                  [root_id] root_id) as [r ->]; [lia |].
      split; [reflexivity | by right].
    + exists [].
      destruct (walk_from_fuel conversation_mapping (size conversation_mapping + 2)
                  [] root_id) as [r ->]; [lia |].
      split; [reflexivity | by left].
Qed.

(** As long as every id of the list is in [visited_ids], the loop appends
    new ids only. *)
Lemma follow_first_children_nodup conversation_mapping fuel :
  forall visited_ids ordered current_id r,
    NoDup ordered ->
    (forall x, x ∈ ordered -> x ∈ visited_ids) ->
    follow_first_children fuel conversation_mapping visited_ids ordered current_id
      = Some r ->
    NoDup r.
Proof.
  induction fuel as [|fuel IH]; intros V o c r Hnd Hsub Hr; [discriminate |].
  simpl in Hr.
  destruct (negb (truthy c)); [by injection Hr as <- |].
  destruct (conversation_mapping !! c) as [msg_node|]; [| by injection Hr as <-].
  destruct (children msg_node) as [|next_id rest]; [by injection Hr as <- |].
  destruct (bool_decide (next_id ∈ V)) eqn:Hin; [by injection Hr as <- |].
  apply bool_decide_eq_false in Hin.
  apply IH in Hr; [exact Hr | |].
  - destruct (has_message conversation_mapping next_id); [| exact Hnd].
    apply NoDup_app. split; [exact Hnd |]. split; [| apply NoDup_singleton].
    intros x Hx Hx'. apply list_elem_of_singleton in Hx' as ->. auto.
  - intros x Hx. destruct (has_message conversation_mapping next_id).
    + apply elem_of_app in Hx as [Hx | Hx]; [set_solver |].
      apply list_elem_of_singleton in Hx. set_solver.
    + set_solver.
Qed.

(** The linearizer repeats no id, unless the root it inferred carries a
    message: that root is the one id that is listed without being marked as
    visited. *)
Lemma linearizer_nodup_unless_root_message conversation_mapping :
  (forall root_id,
     find_root conversation_mapping = Some root_id ->
     root_id = "client-created-root"
     \/ has_message conversation_mapping root_id = false) ->
  NoDup (get_message_chronological_order conversation_mapping).
Proof.
  intros Hroot. pose proof (linearizer_run conversation_mapping) as Hrun.
  destruct (start_node conversation_mapping) as [start|];
    [| rewrite Hrun; constructor].
  destruct Hrun as (o & Hrun & [-> | (-> & Hmsg & Hfind & Hne)]).
  - unfold walk_from in Hrun.
    destruct (_ && _); eapply follow_first_children_nodup in Hrun; try exact Hrun;
      first [apply NoDup_singleton | constructor | set_solver].
  - destruct (Hroot start Hfind); congruence.
Qed.

(** On a path without repetition and without empty id, the loop goes to the
    end of the path. *)
Lemma follow_first_children_whole conversation_mapping fuel :
  forall n visited_ids ordered current_id r,
    follow_first_children fuel conversation_mapping visited_ids ordered current_id
      = Some r ->
    first_child_walk conversation_mapping (S (S n)) current_id
      = first_child_walk conversation_mapping (S n) current_id ->
    NoDup (first_child_walk conversation_mapping (S n) current_id) ->
    (forall x, x ∈ first_child_walk conversation_mapping (S n) current_id ->
               truthy x = true) ->
    (forall x, x ∈ tail (first_child_walk conversation_mapping (S n) current_id) ->
               x ∉ visited_ids) ->
    r = ordered ++
        List.filter (has_message conversation_mapping)
          (tail (first_child_walk conversation_mapping (S n) current_id)).
Proof.
  induction fuel as [|fuel IH]; intros n V o c r Hr Hend Hnd Htruthy Hfresh;
    [discriminate |].
  simpl in Hr. rewrite (Htruthy c) in Hr by (simpl; left). cbn [negb] in Hr.
  change (first_child_walk conversation_mapping (S n) c)
    with (c :: match children_of conversation_mapping c with
               | next_id :: _ => first_child_walk conversation_mapping n next_id
               | [] => []
               end) in *.
  change (first_child_walk conversation_mapping (S (S n)) c)
    with (c :: match children_of conversation_mapping c with
               | next_id :: _ => first_child_walk conversation_mapping (S n) next_id
               | [] => []
               end) in Hend.
  cbn [tail] in *. unfold children_of in *.
  destruct (conversation_mapping !! c) as [msg_node|];
    [| injection Hr as <-; by rewrite app_nil_r].
  destruct (children msg_node) as [|next_id rest];
    [injection Hr as <-; by rewrite app_nil_r |].
  injection Hend as Hend.
  destruct n as [|n]; [discriminate |].
  rewrite bool_decide_eq_false_2 in Hr by (apply Hfresh; simpl; left).
  apply NoDup_cons in Hnd as [_ Hnd].
  change (first_child_walk conversation_mapping (S n) next_id)
    with (next_id :: tail (first_child_walk conversation_mapping (S n) next_id))
    in Hnd, Hfresh |- *.
  apply (IH n) in Hr; [| exact Hend | exact Hnd | |].
  - rewrite Hr. cbn [List.filter].
    destruct (has_message conversation_mapping next_id); [| reflexivity].
    by rewrite <- app_assoc.
  - intros x Hx. apply Htruthy. by right.
  - intros x Hx. apply NoDup_cons in Hnd as [Hnext _].
    assert (x <> next_id) by (intros ->; contradiction).
    assert (x ∉ V) by (apply Hfresh; by right).
    set_solver.
Qed.

(** Well-formed trees.  When the first-child path from the start node ends
    after [n] nodes, repeats no id and holds no empty id, the linearizer
    returns exactly the message-bearing nodes of that path, in order; so its
    length is their number. *)
Lemma linearizer_whole_path conversation_mapping start n :
  start_node conversation_mapping = Some start ->
  first_child_walk conversation_mapping (S n) start
    = first_child_walk conversation_mapping n start ->
  NoDup (first_child_walk conversation_mapping n start) ->
  (forall x, x ∈ first_child_walk conversation_mapping n start -> truthy x = true) ->
  get_message_chronological_order conversation_mapping
  = List.filter (has_message conversation_mapping)
      (first_child_walk conversation_mapping n start).
Proof.
  intros Hstart Hend Hnd Htruthy.
  destruct n as [|n]; [discriminate |].
  pose proof (linearizer_run conversation_mapping) as Hrun. rewrite Hstart in Hrun.
  destruct Hrun as (o & Hrun & Ho).
  set (r := get_message_chronological_order conversation_mapping) in *.
  clearbody r.
  assert (Hfresh : forall x,
             x ∈ tail (first_child_walk conversation_mapping (S n) start) ->
             x <> start).
  { change (first_child_walk conversation_mapping (S n) start)
      with (start :: tail (first_child_walk conversation_mapping (S n) start))
      in Hnd.
    apply NoDup_cons in Hnd as [Hnot _]. intros x Hx ->. contradiction. }
  assert (Hsplit : List.filter (has_message conversation_mapping)
                     (first_child_walk conversation_mapping (S n) start)
                   = (if has_message conversation_mapping start then [start] else [])
                     ++ List.filter (has_message conversation_mapping)
                          (tail (first_child_walk conversation_mapping (S n) start))).
  { change (first_child_walk conversation_mapping (S n) start)
      with (start :: tail (first_child_walk conversation_mapping (S n) start)) at 1.
    cbn [List.filter]. by destruct (has_message conversation_mapping start). }
  rewrite Hsplit. unfold walk_from in Hrun.
  destruct Ho as [-> | (-> & Hmsg & _ & _)].
  - rewrite bool_decide_eq_false_2 in Hrun by set_solver. cbn [negb andb] in Hrun.
    destruct (has_message conversation_mapping start);
      apply (follow_first_children_whole _ _ n) in Hrun; try assumption;
      try exact Hrun; intros x Hx; specialize (Hfresh x Hx); set_solver.
  - rewrite bool_decide_eq_true_2 in Hrun by set_solver. cbn [negb andb] in Hrun.
    rewrite Hmsg.
    apply (follow_first_children_whole _ _ n) in Hrun; try assumption;
      try exact Hrun; intros x Hx; specialize (Hfresh x Hx); set_solver.
Qed.

(** C6.  For every mapping, cyclic or not, the linearizer terminates: on
    [size mapping + 2] passes of its loop or more it returns one and the same
    list, which is the list of the function.  That list is finite and is a
    prefix of the walk from the resolved root: the message-bearing nodes among
    the first [n] nodes of the first-child walk from the start node, for some
    [n] (and the empty list when no start node is found). *)
Theorem linearizer_terminates :
  forall conversation_mapping,
  exists r,
    (forall fuel, (size conversation_mapping + 2 <= fuel)%nat ->
       get_message_chronological_order_fuel fuel conversation_mapping = Some r)
    /\ get_message_chronological_order conversation_mapping = r
    /\ match start_node conversation_mapping with
       | None => r = []
       | Some start =>
           exists n,
             r = List.filter (has_message conversation_mapping)
                   (first_child_walk conversation_mapping n start)
       end.
Proof.
  intros conversation_mapping.
  destruct (linearizer_result conversation_mapping) as (r & Hfuel & Hprefix).
  exists r. split; [exact Hfuel | split; [| exact Hprefix]].
  unfold get_message_chronological_order. rewrite Hfuel by lia. reflexivity.
Qed.

(** The root of a mapping with the two nodes of [cycle_through_root]: "A",
    whatever the order in which sets are iterated, since "A" is the only
    candidate. *)
Lemma find_root_cycle : find_root Samples.cycle_through_root = Some "A".
Proof.
  unfold find_root.
  replace (bool_decide ("client-created-root" ∈ dom Samples.cycle_through_root))
    with false by (vm_compute; reflexivity).
  cbv zeta.
  set (candidates := dom Samples.cycle_through_root ∖ _).
  assert (candidates = {["A"]}) as -> by (subst candidates; vm_compute; reflexivity).
  pose proof (set_to_list_perm {["A"]}) as Hperm.
  rewrite elements_singleton in Hperm.
  apply Permutation_singleton_r in Hperm. rewrite Hperm. reflexivity.
Qed.

(** C5, at the mapping A -> B -> A without synthetic root.  The root "A" is
    put into the list but not into [visited_ids], so the walk comes back to
    it and returns it a second time: the list is ["A"; "B"; "A"], in which
    the id "A" occurs twice. *)
Theorem linearizer_repeats_cycle_root :
  get_message_chronological_order Samples.cycle_through_root = ["A"; "B"; "A"]
  /\ ~ NoDup (get_message_chronological_order Samples.cycle_through_root).
Proof.
  assert (Hrun : get_message_chronological_order Samples.cycle_through_root
                 = ["A"; "B"; "A"]).
  { unfold get_message_chronological_order, get_message_chronological_order_fuel.
    rewrite find_root_cycle. vm_compute. reflexivity. }
  split; [exact Hrun |]. rewrite Hrun. intros Hnd.
  apply NoDup_cons_1_1 in Hnd. apply Hnd. set_solver.
Qed.

End Walk.

End LinearizerFacts.

(* ===================================================================== *)
(** * The turn and cost accrual engine *)
(* ===================================================================== *)

Module AnalyzerFacts.
Import TokenizerFacts.

Section WithTiktoken.
Context {tk : Tiktoken}.
Implicit Types mapping : gmap string MessageNode.

(** ** Counting turns *)

(** What one id adds to the turn count. *)
Lemma count_real_turns_cons mapping i ids :
  count_real_turns mapping (i :: ids)
  = count_real_turns mapping [i] + count_real_turns mapping ids.
Proof.
  unfold count_real_turns. cbn [fold_left].
  set (f := fun (turn_count : Z) (msg_id : string) => _).
  assert (Hshift : forall l a, fold_left f l a = a + fold_left f l 0).
  { induction l as [|x l IH]; intros a; cbn [fold_left]; [lia |].
    rewrite (IH (f a x)), (IH (f 0 x)).
    assert (f a x = a + f 0 x); [| lia].
    subst f. cbv beta.
    destruct (mapping !! x) as [nd|]; [| lia].
    destruct (message nd) as [msg|]; [| lia].
    destruct (ends_turn msg); lia. }
  apply Hshift.
Qed.

Lemma count_real_turns_one mapping i :
  count_real_turns mapping [i]
  = match message_at mapping i with
    | Some (_, message) => if ends_turn message then 1 else 0
    | None => 0
    end.
Proof.
  unfold count_real_turns, message_at. cbn [fold_left].
  destruct (mapping !! i) as [nd|]; [| reflexivity].
  destruct (message nd) as [msg|]; [| reflexivity].
  destruct (ends_turn msg); reflexivity.
Qed.

Lemma count_real_turns_nonneg mapping ids : 0 <= count_real_turns mapping ids.
Proof.
  induction ids as [|i ids IH]; [reflexivity |].
  rewrite count_real_turns_cons, count_real_turns_one.
  destruct (message_at mapping i) as [[? msg]|]; [destruct (ends_turn msg) |]; lia.
Qed.

Lemma history_counts_cons mapping i ids :
  history_counts mapping (i :: ids)
  = match message_at mapping i with
    | Some (msg_data, _) => [message_tokens msg_data false]
    | None => []
    end ++ history_counts mapping ids.
Proof. reflexivity. Qed.

Lemma assistant_count_cons mapping i ids :
  assistant_count mapping (i :: ids)
  = ((if is_assistant mapping i then 1 else 0) + assistant_count mapping ids)%nat.
Proof.
  unfold assistant_count. cbn [List.filter].
  destruct (is_assistant mapping i); reflexivity.
Qed.

(** ** One pass of the detailed-mode loop *)

Lemma prior_history_tokens_snoc history entry :
  prior_history_tokens (history ++ [entry]) = py_sum (map snd history).
Proof.
  unfold prior_history_tokens. rewrite length_app. cbn [length].
  replace (length history + 1 - 1)%nat with (length history) by lia.
  by rewrite take_app_length.
Qed.

Lemma discounted_input_rate_inv current_model_costs turn_index_now rate :
  discounted_input_rate current_model_costs turn_index_now = Ok rate ->
  exists input_rate,
    dict_get current_model_costs input_key = Some input_rate
    /\ rate = stated_input_rate input_rate turn_index_now.
Proof.
  unfold discounted_input_rate, dict_index, stated_input_rate, int_gt0.
  destruct (dict_get current_model_costs input_key) as [input_rate|];
    [| discriminate].
  cbn. destruct (0 <? turn_index_now); intros [= <-]; eauto.
Qed.

(** The state after a pass that did not raise. *)
Lemma detailed_step_inv mapping costs_config st i st' :
  detailed_step mapping costs_config st i = Ok st' ->
  match message_at mapping i with
  | None => st' = st
  | Some (msg_data, message) =>
      let history :=
        history_for_inputs st ++ [(i, role_of message, message_tokens msg_data false)] in
      let next_turn_index :=
        if ends_turn message then current_turn_index st + 1
        else current_turn_index st in
      if String.eqb (role_of message) "assistant" then
        exists current_model_costs input_rate output_rate,
          resolve_model_costs costs_config (model_slug message) = Ok current_model_costs
          /\ dict_get current_model_costs input_key = Some input_rate
          /\ dict_get current_model_costs output_key = Some output_rate
          /\ let r :=
               stated_turn_record i msg_data message
                 (py_sum (map snd (history_for_inputs st)))
                 (current_turn_index st) input_rate output_rate in
             st' = {| conversation_total_input_tokens :=
                        py_add (conversation_total_input_tokens st) (input_tokens r);
                      conversation_total_output_tokens :=
                        py_add (conversation_total_output_tokens st) (output_tokens r);
                      conversation_total_cost :=
                        py_add (conversation_total_cost st) (turn_total_cost r);
                      processed_turns := processed_turns st ++ [r];
                      assistant_message_count_in_convo :=
                        assistant_message_count_in_convo st + 1;
                      history_for_inputs := history;
                      current_turn_index := next_turn_index |}
      else
        st' = {| conversation_total_input_tokens := conversation_total_input_tokens st;
                 conversation_total_output_tokens := conversation_total_output_tokens st;
                 conversation_total_cost := conversation_total_cost st;
                 processed_turns := processed_turns st;
                 assistant_message_count_in_convo := assistant_message_count_in_convo st;
                 history_for_inputs := history;
                 current_turn_index := next_turn_index |}
  end.
Proof.
  unfold detailed_step, message_at.
  destruct (mapping !! i) as [msg_data|]; [| by intros [= <-]].
  destruct (message msg_data) as [message|]; [| by intros [= <-]].
  destruct (resolve_model_costs costs_config (model_slug message))
    as [current_model_costs|e]; [| discriminate].
  cbn [mbind pyresult_bind]. cbv zeta.
  destruct (String.eqb (role_of message) "assistant").
  - unfold dict_index at 1.
    destruct (dict_get current_model_costs output_key) as [output_rate|] eqn:Ho;
      [| discriminate].
    cbn [mbind pyresult_bind].
    destruct (discounted_input_rate current_model_costs (current_turn_index st))
      as [rate|e] eqn:Hrate; [| discriminate].
    cbn [mbind pyresult_bind].
    apply discounted_input_rate_inv in Hrate as (input_rate & Hi & ->).
    intros [= <-]. exists current_model_costs, input_rate, output_rate.
    repeat (split; [done |]).
    rewrite prior_history_tokens_snoc. reflexivity.
  - intros [= <-]. reflexivity.
Qed.

(** ** The whole loop *)

(** What a run of the loop that does not raise adds to the state: one record
    per assistant message, its numbers added to the running totals from left
    to right, one history entry per message and one turn per end of turn. *)
Lemma detailed_loop_totals mapping costs_config ids :
  forall st0 st,
    detailed_loop mapping costs_config ids st0 = Ok st ->
    exists new,
      processed_turns st = processed_turns st0 ++ new
      /\ length new = assistant_count mapping ids
      /\ current_turn_index st
         = current_turn_index st0 + count_real_turns mapping ids
      /\ map snd (history_for_inputs st)
         = map snd (history_for_inputs st0) ++ history_counts mapping ids
      /\ conversation_total_cost st
         = accumulate (conversation_total_cost st0) (map turn_total_cost new)
      /\ conversation_total_input_tokens st
         = accumulate (conversation_total_input_tokens st0) (map input_tokens new)
      /\ conversation_total_output_tokens st
         = accumulate (conversation_total_output_tokens st0) (map output_tokens new)
      /\ assistant_message_count_in_convo st
         = assistant_message_count_in_convo st0 + Z.of_nat (length new).
Proof.
  induction ids as [|i ids IH]; intros st0 st Hrun.
  - injection Hrun as <-. exists []. rewrite !app_nil_r.
    repeat split; try reflexivity; unfold count_real_turns; simpl; lia.
  - cbn [detailed_loop] in Hrun.
    destruct (detailed_step mapping costs_config st0 i) as [st1|e] eqn:Hstep;
      [| discriminate].
    cbn [mbind pyresult_bind] in Hrun.
    apply IH in Hrun as (new & Ht & Hlen & Hidx & Hhist & Hcost & Hin & Hout & Hcnt).
    apply detailed_step_inv in Hstep.
    rewrite count_real_turns_cons, count_real_turns_one, history_counts_cons,
      assistant_count_cons.
    unfold is_assistant.
    destruct (message_at mapping i) as [[msg_data message]|].
    + cbv zeta in Hstep.
      destruct (String.eqb (role_of message) "assistant").
      * destruct Hstep as (rates & irate & orate & _ & _ & _ & ->).
        cbn [processed_turns current_turn_index history_for_inputs
             conversation_total_cost conversation_total_input_tokens
             conversation_total_output_tokens assistant_message_count_in_convo]
          in Ht, Hidx, Hhist, Hcost, Hin, Hout, Hcnt.
        eexists (_ :: new). rewrite Ht, <- app_assoc. split; [reflexivity |].
        rewrite map_app in Hhist. cbn [map snd] in Hhist.
        rewrite Hhist, <- app_assoc. cbn [length map accumulate fold_left].
        repeat split; try assumption; try reflexivity;
          destruct (ends_turn message); lia.
      * subst st1.
        cbn [processed_turns current_turn_index history_for_inputs
             conversation_total_cost conversation_total_input_tokens
             conversation_total_output_tokens assistant_message_count_in_convo]
          in Ht, Hidx, Hhist, Hcost, Hin, Hout, Hcnt.
        exists new. rewrite map_app in Hhist. cbn [map snd] in Hhist.
        rewrite Hhist, <- app_assoc.
        repeat split; try assumption; try reflexivity.
        destruct (ends_turn message); lia.
    + subst st1. exists new. rewrite app_nil_l.
      repeat split; first [assumption | lia].
Qed.

(** The record of each assistant message.  For an assistant message at any
    place of the ids, after [pre], the record at the place of its rank among
    the assistant messages is the one the specification describes: its input
    tokens are the history counts of the messages of [pre], its turn index
    the number of turns ended in [pre], and its rates those of its model. *)
Lemma detailed_loop_records mapping costs_config ids :
  forall st0 st,
    detailed_loop mapping costs_config ids st0 = Ok st ->
    forall pre i post,
      ids = pre ++ i :: post ->
      is_assistant mapping i = true ->
      exists msg_data message current_model_costs input_rate output_rate,
        message_at mapping i = Some (msg_data, message)
        /\ resolve_model_costs costs_config (model_slug message) = Ok current_model_costs
        /\ dict_get current_model_costs input_key = Some input_rate
        /\ dict_get current_model_costs output_key = Some output_rate
        /\ processed_turns st
             !! (length (processed_turns st0) + assistant_count mapping pre)%nat
           = Some (stated_turn_record i msg_data message
                     (py_sum (map snd (history_for_inputs st0)
                              ++ history_counts mapping pre))
                     (current_turn_index st0 + count_real_turns mapping pre)
                     input_rate output_rate).
Proof.
  induction ids as [|i0 ids IH]; intros st0 st Hrun pre i post Hsplit Hi.
  - by destruct pre.
  - cbn [detailed_loop] in Hrun.
    destruct (detailed_step mapping costs_config st0 i0) as [st1|e] eqn:Hstep;
      [| discriminate].
    cbn [mbind pyresult_bind] in Hrun.
    apply detailed_step_inv in Hstep.
    destruct pre as [|p pre].
    + injection Hsplit as -> ->.
      apply detailed_loop_totals in Hrun as (new & Ht & _).
      unfold is_assistant in Hi.
      destruct (message_at mapping i) as [[msg_data message]|]; [| discriminate].
      cbv zeta in Hstep. rewrite Hi in Hstep.
      destruct Hstep as (rates & irate & orate & Hres & Hin & Hout & ->).
      exists msg_data, message, rates, irate, orate.
      repeat (split; [done |]).
      cbn [processed_turns] in Ht. rewrite Ht, <- app_assoc.
      unfold assistant_count, history_counts, count_real_turns.
      cbn [List.filter length flat_map fold_left].
      rewrite app_nil_r, Nat.add_0_r, Z.add_0_r.
      rewrite lookup_app_r by lia. by rewrite Nat.sub_diag.
    + injection Hsplit as <- ->.
      specialize (IH st1 st Hrun pre i post eq_refl Hi)
        as (msg_data & message & rates & irate & orate & Hat & Hres & Hin & Hout & Hrec).
      exists msg_data, message, rates, irate, orate.
      repeat (split; [done |]).
      rewrite count_real_turns_cons, count_real_turns_one, history_counts_cons,
        assistant_count_cons.
      unfold is_assistant.
      destruct (message_at mapping i0) as [[msg_data0 message0]|].
      * cbv zeta in Hstep.
        destruct (String.eqb (role_of message0) "assistant").
        -- destruct Hstep as (? & ? & ? & _ & _ & _ & ->).
           cbn [processed_turns current_turn_index history_for_inputs] in Hrec.
           rewrite length_app, map_app, <- app_assoc in Hrec.
           cbn [length map snd] in Hrec.
           rewrite <- Nat.add_assoc in Hrec. rewrite Hrec. f_equal. f_equal.
           destruct (ends_turn message0); lia.
        -- subst st1.
           cbn [processed_turns current_turn_index history_for_inputs] in Hrec.
           rewrite map_app, <- app_assoc in Hrec. cbn [map snd] in Hrec.
           rewrite Nat.add_0_l, Hrec. f_equal. f_equal.
           destruct (ends_turn message0); lia.
      * subst st1. rewrite Nat.add_0_l, app_nil_l, Z.add_0_l. exact Hrec.
Qed.

(** Every cost of a record is a float. *)
Lemma detailed_loop_costs_float mapping costs_config ids :
  forall st0 st,
    detailed_loop mapping costs_config ids st0 = Ok st ->
    Forall (fun r => exists f, turn_total_cost r = PFloat f) (processed_turns st0) ->
    Forall (fun r => exists f, turn_total_cost r = PFloat f) (processed_turns st).
Proof.
  induction ids as [|i ids IH]; intros st0 st Hrun Hall.
  - by injection Hrun as <-.
  - cbn [detailed_loop] in Hrun.
    destruct (detailed_step mapping costs_config st0 i) as [st1|e] eqn:Hstep;
      [| discriminate].
    cbn [mbind pyresult_bind] in Hrun.
    apply (IH st1 st Hrun). apply detailed_step_inv in Hstep.
    destruct (message_at mapping i) as [[msg_data message]|]; [| by subst].
    cbv zeta in Hstep.
    destruct (String.eqb (role_of message) "assistant"); [| by subst].
    destruct Hstep as (? & ? & ? & _ & _ & _ & ->). cbn [processed_turns].
    apply Forall_app. split; [exact Hall |].
    constructor; [| constructor]. unfold stated_turn_record, cost_of. cbn.
    eauto.
Qed.

(** ** Runs that do not raise *)

Lemma dict_get_In {V : Type} (table : list (string * V)) k v :
  dict_get table k = Some v -> exists k', In (k', v) table.
Proof.
  induction table as [|[k0 v0] table IH]; [discriminate |]. cbn [dict_get].
  destruct (String.eqb k0 k).
  - intros [= ->]. exists k0. by left.
  - intros H. destruct (IH H) as [k' Hin]. exists k'. by right.
Qed.

Lemma complete_rates_inv r :
  is_Some (complete_rates (Some r)) ->
  exists input_rate output_rate,
    dict_get r input_key = Some input_rate
    /\ dict_get r output_key = Some output_rate.
Proof.
  unfold complete_rates.
  destruct (dict_get r input_key) as [i|], (dict_get r output_key) as [o|];
    intros [x Hx]; try discriminate; eauto.
Qed.

(** On a table whose entries are complete, and on the empty table, the entry
    charged for a message holds both rates. *)
Lemma resolve_model_costs_complete costs_config slug :
  complete_table costs_config ->
  exists current_model_costs input_rate output_rate,
    resolve_model_costs costs_config slug = Ok current_model_costs
    /\ dict_get current_model_costs input_key = Some input_rate
    /\ dict_get current_model_costs output_key = Some output_rate.
Proof.
  intros Hall. unfold resolve_model_costs.
  set (found := match slug with
                | Some s0 =>
                    match dict_get costs_config s0 with
                    | Some r => Some r
                    | None => dict_get costs_config "o3"
                    end
                | None => dict_get costs_config "o3"
                end).
  assert (Hfound : forall r, found = Some r -> exists k, In (k, r) costs_config).
  { subst found. intros r.
    destruct slug as [s0|]; [destruct (dict_get costs_config s0) eqn:Hs |];
      first [ intros [= <-]; eapply dict_get_In; eassumption
            | apply dict_get_In ]. }
  unfold complete_table in Hall. rewrite Forall_forall in Hall.
  destruct (usable found) eqn:Hu.
  - destruct found as [r|]; [| discriminate].
    destruct (Hfound r eq_refl) as [k Hin].
    apply list_elem_of_In, Hall in Hin.
    destruct (complete_rates_inv _ Hin) as (i & o & Hi & Ho).
    exists r, i, o. by cbn.
  - destruct costs_config as [|[k r] rest].
    + eexists _, _, _. split; [reflexivity | split; reflexivity].
    + assert (Hin : (k, r) ∈ (k, r) :: rest) by left.
      apply Hall in Hin.
      destruct (complete_rates_inv _ Hin) as (i & o & Hi & Ho).
      by exists r, i, o.
Qed.

Lemma detailed_loop_complete mapping costs_config ids :
  complete_table costs_config ->
  forall st0, exists st, detailed_loop mapping costs_config ids st0 = Ok st.
Proof.
  intros Hall. induction ids as [|i ids IH]; intros st0; [by exists st0 |].
  cbn [detailed_loop].
  assert (Hstep : exists st1, detailed_step mapping costs_config st0 i = Ok st1).
  { unfold detailed_step.
    destruct (mapping !! i) as [msg_data|]; [| eauto].
    destruct (message msg_data) as [message|]; [| eauto].
    destruct (resolve_model_costs_complete costs_config (model_slug message) Hall)
      as (rates & irate & orate & -> & Hi & Ho).
    cbn [mbind pyresult_bind]. cbv zeta.
    destruct (String.eqb (role_of message) "assistant"); [| eauto].
    unfold discounted_input_rate, dict_index. rewrite Hi, Ho.
    cbn [mbind pyresult_bind].
    destruct (int_gt0 (current_turn_index st0)); cbn [mbind pyresult_bind]; eauto. }
  destruct Hstep as [st1 ->]. cbn [mbind pyresult_bind]. apply IH.
Qed.

(** C4.  For every mapping and every sequence of ids (the linearized one
    among them), the number of real turns found by the direct scan is the
    final value of the engine's turn index: whenever the detailed-mode loop
    runs through the sequence, it ends with [current_turn_index] equal to
    [count_real_turns]; and it does run through on every cost table whose
    entries are complete, such as the default one.  ([real_turns_count] of
    the results of both modes is that same scan, see
    [real_turns_count_reported].) *)
Theorem turn_index_replays_real_turns :
  forall mapping costs_config ids,
    (forall st,
       detailed_loop mapping costs_config ids initial_state = Ok st ->
       current_turn_index st = count_real_turns mapping ids)
    /\ (complete_table costs_config ->
        exists st,
          detailed_loop mapping costs_config ids initial_state = Ok st
          /\ current_turn_index st = count_real_turns mapping ids).
Proof.
  intros mapping costs_config ids.
  assert (Hpart : forall st,
             detailed_loop mapping costs_config ids initial_state = Ok st ->
             current_turn_index st = count_real_turns mapping ids).
  { intros st Hrun.
    apply detailed_loop_totals in Hrun as (_ & _ & _ & Hidx & _).
    rewrite Hidx. cbn [initial_state current_turn_index]. lia. }
  split; [exact Hpart |]. intros Hall.
  destruct (detailed_loop_complete mapping costs_config ids Hall initial_state)
    as [st Hrun].
  exists st. split; [exact Hrun | by apply Hpart].
Qed.

(** ** Simple mode *)

(** The assistant total of the simple-mode loop: the output token counts of
    the assistant messages, added from left to right. *)
Lemma simple_loop_assistant mapping ids :
  forall st,
    snd (fst (fold_left (simple_step mapping) ids st))
    = accumulate (snd (fst st)) (assistant_outputs mapping ids).
Proof.
  induction ids as [|i ids IH]; intros st; [reflexivity |].
  cbn [fold_left]. rewrite IH. unfold assistant_outputs. cbn [flat_map].
  rewrite accumulate_app. f_equal.
  destruct st as [[u a] sy]. unfold simple_step, message_at.
  destruct (mapping !! i) as [msg_data|]; [| reflexivity].
  destruct (message msg_data) as [message|]; [| reflexivity].
  destruct (String.eqb (role_of message) "user") eqn:Hu.
  - apply String.eqb_eq in Hu. rewrite Hu. reflexivity.
  - destruct (String.eqb (role_of message) "assistant"); [reflexivity |].
    destruct (String.eqb (role_of message) "system"); reflexivity.
Qed.

Lemma assistant_outputs_app mapping l1 l2 :
  assistant_outputs mapping (l1 ++ l2)
  = assistant_outputs mapping l1 ++ assistant_outputs mapping l2.
Proof. unfold assistant_outputs. apply flat_map_app. Qed.

Lemma assistant_outputs_none mapping ids :
  assistant_count mapping ids = 0%nat -> assistant_outputs mapping ids = [].
Proof.
  induction ids as [|i ids IH]; [reflexivity |].
  rewrite assistant_count_cons. unfold assistant_outputs, is_assistant.
  cbn [flat_map].
  destruct (message_at mapping i) as [[msg_data message]|].
  - destruct (String.eqb (role_of message) "assistant"); [lia |].
    intros H. apply IH. lia.
  - intros H. apply IH. lia.
Qed.

Lemma assistant_count_app mapping l1 l2 :
  assistant_count mapping (l1 ++ l2)
  = (assistant_count mapping l1 + assistant_count mapping l2)%nat.
Proof. unfold assistant_count. by rewrite List.filter_app, length_app. Qed.

(** ** The entry point in detailed mode *)

Context {so : SetOrder}.

(** A result with totals of detailed mode comes out of a run of the loop on
    the linearized ids of the mapping. *)
Lemma analyze_detailed_inv conversation costs_config mode res d :
  analyze_conversation_tokens_and_costs conversation costs_config mode = Ok res ->
  body res = DetailedBody d ->
  exists m st,
    mapping conversation = Some m
    /\ detailed_loop m costs_config (get_message_chronological_order m) initial_state
       = Ok st
    /\ Detailed.turns_details d = processed_turns st
    /\ Detailed.total_cost d = conversation_total_cost st
    /\ Detailed.total_input_tokens_across_turns d = conversation_total_input_tokens st
    /\ Detailed.total_output_tokens_for_all_assistant_msgs d
       = conversation_total_output_tokens st
    /\ Detailed.assistant_messages_count d = assistant_message_count_in_convo st
    /\ Detailed.real_turns_count d
       = count_real_turns m (get_message_chronological_order m).
Proof.
  unfold analyze_conversation_tokens_and_costs. cbv zeta.
  intros Hres Hbody.
  destruct (bool_decide (default ∅ (mapping conversation) = ∅)) eqn:He;
    [injection Hres as <-; discriminate |].
  apply bool_decide_eq_false in He.
  destruct (mapping conversation) as [m|]; [| done].
  cbn [default from_option id] in Hres.
  destruct (get_message_chronological_order m) as [|i0 ids] eqn:Hids;
    [injection Hres as <-; discriminate |].
  destruct (String.eqb mode "simple"); [injection Hres as <-; discriminate |].
  unfold analyze_detailed in Hres.
  destruct (detailed_loop m costs_config (i0 :: ids) initial_state) as [st|e]
    eqn:Hrun; [| discriminate].
  cbn [mbind pyresult_bind] in Hres. injection Hres as <-.
  cbn [body] in Hbody. injection Hbody as <-.
  exists m, st. rewrite Hids. repeat split; try reflexivity. exact Hrun.
Qed.

(** C10.  A detailed-mode result without error marker agrees with its own
    records: the total cost is the sum of their [turn_total_cost], added from
    left to right from [0.0] (which is Python's [sum] of them as soon as
    there is a record), the total input tokens and the total output tokens
    are the sums of their [input_tokens] and [output_tokens], and the count
    of assistant messages is the number of records. *)
Theorem detailed_totals_agree_with_records :
  forall conversation costs_config mode res d,
    analyze_conversation_tokens_and_costs conversation costs_config mode = Ok res ->
    body res = DetailedBody d ->
    Detailed.total_cost d
      = accumulate (PFloat 0) (map turn_total_cost (Detailed.turns_details d))
    /\ (Detailed.turns_details d <> [] ->
        Detailed.total_cost d = py_sum (map turn_total_cost (Detailed.turns_details d)))
    /\ Detailed.total_input_tokens_across_turns d
       = py_sum (map input_tokens (Detailed.turns_details d))
    /\ Detailed.total_output_tokens_for_all_assistant_msgs d
       = py_sum (map output_tokens (Detailed.turns_details d))
    /\ Detailed.assistant_messages_count d
       = Z.of_nat (length (Detailed.turns_details d)).
Proof.
  intros conversation costs_config mode res d Hres Hbody.
  destruct (analyze_detailed_inv _ _ _ _ _ Hres Hbody)
    as (m & st & _ & Hrun & -> & -> & -> & -> & -> & _).
  pose proof (detailed_loop_costs_float _ _ _ _ _ Hrun ltac:(constructor)) as Hfloat.
  apply detailed_loop_totals in Hrun
    as (new & Ht & _ & _ & _ & Hcost & Hin & Hout & Hcnt).
  cbn [initial_state processed_turns conversation_total_cost
       conversation_total_input_tokens conversation_total_output_tokens
       assistant_message_count_in_convo app] in Ht, Hcost, Hin, Hout, Hcnt.
  rewrite Ht in *. repeat split; try assumption.
  intros Hne. rewrite Hcost. destruct new as [|r rest]; [done |].
  inversion Hfloat as [|? ? [f Hf] _]; subst.
  cbn [map]. rewrite Hf. symmetry. apply accumulate_float_start.
Qed.

(** The history counts are ints, so their sum is the exact sum of naturals
    whatever way the builtin [sum] adds floats. *)
Lemma history_counts_int m ids :
  exists n, py_sum (history_counts m ids) = PInt n /\ 0 <= n.
Proof.
  unfold py_sum.
  assert (Hacc : forall l a,
             0 <= a ->
             Forall (fun x => exists k, x = PInt k /\ 0 <= k) l ->
             exists n, accumulate (PInt a) l = PInt n /\ 0 <= n).
  { induction l as [|x l IH]; intros a Ha Hl; [by exists a |].
    inversion Hl as [|? ? (k & -> & Hk) Hl']; subst.
    cbn [accumulate fold_left py_add]. apply IH; [lia | exact Hl']. }
  apply Hacc; [lia |]. unfold history_counts.
  apply Forall_flat_map, Forall_forall. intros i _.
  destruct (message_at m i) as [[msg_data message]|]; [| constructor].
  constructor; [apply history_tokens_int | constructor].
Qed.

(** The record of an assistant message of the linearized ids in a
    detailed-mode result. *)
Lemma analyze_detailed_record conversation costs_config mode res d m pre i post :
  analyze_conversation_tokens_and_costs conversation costs_config mode = Ok res ->
  body res = DetailedBody d ->
  mapping conversation = Some m ->
  get_message_chronological_order m = pre ++ i :: post ->
  is_assistant m i = true ->
  exists msg_data message current_model_costs input_rate output_rate,
    message_at m i = Some (msg_data, message)
    /\ resolve_model_costs costs_config (model_slug message) = Ok current_model_costs
    /\ dict_get current_model_costs input_key = Some input_rate
    /\ dict_get current_model_costs output_key = Some output_rate
    /\ Detailed.turns_details d !! assistant_count m pre
       = Some (stated_turn_record i msg_data message
                 (py_sum (history_counts m pre)) (count_real_turns m pre)
                 input_rate output_rate).
Proof.
  intros Hres Hbody Hm Hids Hi.
  destruct (analyze_detailed_inv _ _ _ _ _ Hres Hbody)
    as (m' & st & Hm' & Hrun & -> & _).
  rewrite Hm in Hm'. injection Hm' as <-.
  exact (detailed_loop_records _ _ _ _ _ Hrun _ _ _ Hids Hi).
Qed.

(** C1.  In detailed mode, for every assistant message of the linearized
    order, the [input_tokens] of its record is the sum of the history token
    counts of the messages before it: every earlier message of any role,
    counted with [count_thoughts = False], and not the message itself; it is
    an int.  The record is found at the rank of the message among the
    assistant messages. *)
Theorem input_tokens_sum_prior_history :
  forall conversation costs_config mode res d m pre i post,
    analyze_conversation_tokens_and_costs conversation costs_config mode = Ok res ->
    body res = DetailedBody d ->
    mapping conversation = Some m ->
    get_message_chronological_order m = pre ++ i :: post ->
    is_assistant m i = true ->
    exists r,
      Detailed.turns_details d !! assistant_count m pre = Some r
      /\ assistant_message_id r = i
      /\ input_tokens r = py_sum (history_counts m pre)
      /\ exists n, input_tokens r = PInt n /\ 0 <= n.
Proof.
  intros conversation costs_config mode res d m pre i post Hres Hbody Hm Hids Hi.
  destruct (analyze_detailed_record _ _ _ _ _ _ _ _ _ Hres Hbody Hm Hids Hi)
    as (msg_data & message & rates & irate & orate & _ & _ & _ & _ & Hrec).
  eexists. split; [exact Hrec |]. split; [reflexivity |]. split; [reflexivity |].
  apply history_counts_int.
Qed.

Lemma stated_input_rate_cases input_rate turn_index_now :
  (turn_index_now = 0 -> stated_input_rate input_rate turn_index_now = input_rate)
  /\ (0 < turn_index_now ->
      stated_input_rate input_rate turn_index_now = py_truediv input_rate (PFloat 2)).
Proof.
  unfold stated_input_rate. split; intros H.
  - subst. reflexivity.
  - apply Z.ltb_lt in H. by rewrite H.
Qed.

(** C2.  In detailed mode, for every assistant message of the linearized
    order, the turn index of its record is the number of turns ended before
    the message, and its input cost is charged at the input rate of the
    resolved model when that turn index is 0 and at that rate divided by
    [2.0] when it is above 0; [input_discounted] tells which.  So with one
    assistant message in each of two turns and the same rates, the rate of
    the second is half that of the first. *)
Theorem input_rate_halved_after_first_turn :
  forall conversation costs_config mode res d m pre i post,
    analyze_conversation_tokens_and_costs conversation costs_config mode = Ok res ->
    body res = DetailedBody d ->
    mapping conversation = Some m ->
    get_message_chronological_order m = pre ++ i :: post ->
    is_assistant m i = true ->
    exists r msg_data message current_model_costs input_rate rate,
      Detailed.turns_details d !! assistant_count m pre = Some r
      /\ message_at m i = Some (msg_data, message)
      /\ resolve_model_costs costs_config (model_slug message) = Ok current_model_costs
      /\ dict_get current_model_costs input_key = Some input_rate
      /\ turn_index r = count_real_turns m pre
      /\ 0 <= turn_index r
      /\ input_cost r = cost_of (input_tokens r) rate
      /\ (turn_index r = 0 -> rate = input_rate /\ input_discounted r = false)
      /\ (0 < turn_index r ->
          rate = py_truediv input_rate (PFloat 2) /\ input_discounted r = true).
Proof.
  intros conversation costs_config mode res d m pre i post Hres Hbody Hm Hids Hi.
  destruct (analyze_detailed_record _ _ _ _ _ _ _ _ _ Hres Hbody Hm Hids Hi)
    as (msg_data & message & rates & irate & orate & Hat & Hresolve & Hin & _ & Hrec).
  eexists _, msg_data, message, rates, irate,
    (stated_input_rate irate (count_real_turns m pre)).
  split; [exact Hrec |]. repeat (split; [done |]).
  cbn [stated_turn_record turn_index input_cost input_tokens input_discounted].
  pose proof (count_real_turns_nonneg m pre) as Hnn.
  pose proof (stated_input_rate_cases irate (count_real_turns m pre)) as [H0 Hpos].
  repeat split; auto.
  - match goal with H : count_real_turns m pre = 0 |- _ => by rewrite H end.
  - by apply Z.ltb_lt.
Qed.

(** ** The entry point in simple mode *)

Lemma analyze_simple_inv conversation costs_config res s :
  analyze_conversation_tokens_and_costs conversation costs_config "simple" = Ok res ->
  body res = SimpleBody s ->
  exists m,
    mapping conversation = Some m
    /\ s = analyze_simple m (get_message_chronological_order m) costs_config
             (count_real_turns m (get_message_chronological_order m)).
Proof.
  unfold analyze_conversation_tokens_and_costs. cbv zeta.
  intros Hres Hbody.
  destruct (bool_decide (default ∅ (mapping conversation) = ∅)) eqn:He;
    [injection Hres as <-; discriminate |].
  apply bool_decide_eq_false in He.
  destruct (mapping conversation) as [m|]; [| done].
  cbn [default from_option id] in Hres.
  destruct (get_message_chronological_order m) as [|i0 ids] eqn:Hids;
    [injection Hres as <-; discriminate |].
  cbn in Hres. injection Hres as <-. cbn [body] in Hbody. injection Hbody as <-.
  exists m. by rewrite Hids.
Qed.

Lemma analyze_simple_assistant_total mapping ids costs_config real_turns_count :
  Simple.simple_total_assistant_tokens
    (analyze_simple mapping ids costs_config real_turns_count)
  = py_sum (assistant_outputs mapping ids).
Proof.
  unfold analyze_simple, py_sum.
  pose proof (simple_loop_assistant mapping ids (PInt 0, PInt 0, PInt 0)) as Hloop.
  cbn [fst snd] in Hloop. rewrite <- Hloop. clear Hloop.
  destruct (fold_left (simple_step mapping) ids (PInt 0, PInt 0, PInt 0))
    as [[u a] sy].
  destruct (simple_rates costs_config) as [key found].
  destruct (complete_rates found) as [[i o]|]; reflexivity.
Qed.

(** The real turn count that either mode reports is the direct scan of the
    linearized ids. *)
Lemma real_turns_count_reported conversation costs_config mode res m :
  analyze_conversation_tokens_and_costs conversation costs_config mode = Ok res ->
  mapping conversation = Some m ->
  match body res with
  | ErrorBody _ _ => True
  | SimpleBody s =>
      Simple.real_turns_count s
      = count_real_turns m (get_message_chronological_order m)
  | DetailedBody d =>
      Detailed.real_turns_count d
      = count_real_turns m (get_message_chronological_order m)
  end.
Proof.
  intros Hres Hm. destruct (body res) as [reason md|s|d] eqn:Hbody; [exact I | |].
  - revert Hres Hbody. unfold analyze_conversation_tokens_and_costs. cbv zeta.
    rewrite Hm. cbn [default from_option id].
    destruct (bool_decide (m = ∅)); [intros [= <-]; discriminate |].
    destruct (get_message_chronological_order m) as [|i0 ids];
      [intros [= <-]; discriminate |].
    destruct (String.eqb mode "simple").
    + intros [= <-]. cbn [body]. intros [= <-].
      unfold analyze_simple.
      destruct (fold_left _ _ _) as [[u a] sy].
      destruct (simple_rates costs_config) as [key found].
      destruct (complete_rates found) as [[i o]|]; reflexivity.
    + destruct (analyze_detailed _ _ _ _); [| discriminate].
      cbn [mbind pyresult_bind]. intros [= <-]. discriminate.
  - destruct (analyze_detailed_inv _ _ _ _ _ Hres Hbody)
      as (m' & st & Hm' & _ & _ & _ & _ & _ & _ & Hreal).
    rewrite Hm in Hm'. by injection Hm' as <-.
Qed.

(** C9.  For a conversation whose linearized order holds exactly one
    assistant message (a single turn with a single assistant message is such
    a one), the assistant total of the simple-mode result is the
    [output_tokens] of the one record of the detailed-mode result, and both
    are the count of that message with [count_thoughts = True]: for a
    thoughts message that is the sum over its thought entries of the
    summary's count and of the content's count times the multiplier. *)
Theorem simple_assistant_total_is_detailed_output :
  forall conversation costs_config res_simple res_detailed s d m pre i post,
    analyze_conversation_tokens_and_costs conversation costs_config "simple"
      = Ok res_simple ->
    body res_simple = SimpleBody s ->
    analyze_conversation_tokens_and_costs conversation costs_config "detailed"
      = Ok res_detailed ->
    body res_detailed = DetailedBody d ->
    mapping conversation = Some m ->
    get_message_chronological_order m = pre ++ i :: post ->
    is_assistant m i = true ->
    assistant_count m pre = 0%nat ->
    assistant_count m post = 0%nat ->
    exists r msg_data message,
      Detailed.turns_details d = [r]
      /\ assistant_message_id r = i
      /\ Simple.simple_total_assistant_tokens s = output_tokens r
      /\ message_at m i = Some (msg_data, message)
      /\ output_tokens r = message_tokens msg_data true
      /\ Simple.simple_total_assistant_tokens s = message_tokens msg_data true
      /\ (forall thoughts,
            content message = Thoughts thoughts ->
            output_tokens r
            = py_sum (flat_map (thought_terms (get_tokenizer (model_slug message)))
                        thoughts)).
Proof.
  intros conversation costs_config res_simple res_detailed s d m pre i post
    Hsimple Hs Hdetailed Hd Hm Hids Hi Hpre Hpost.
  destruct (analyze_detailed_record _ _ _ _ _ _ _ _ _ Hdetailed Hd Hm Hids Hi)
    as (msg_data & message & rates & irate & orate & Hat & _ & _ & _ & Hrec).
  assert (Htotal : Simple.simple_total_assistant_tokens s
                   = message_tokens msg_data true).
  { destruct (analyze_simple_inv _ _ _ _ Hsimple Hs) as (m' & Hm' & ->).
    rewrite Hm in Hm'. injection Hm' as <-.
    rewrite analyze_simple_assistant_total, Hids.
    rewrite assistant_outputs_app, (assistant_outputs_none m pre Hpre).
    change (i :: post) with ([i] ++ post).
    rewrite assistant_outputs_app, (assistant_outputs_none m post Hpost).
    unfold assistant_outputs at 1. cbn [flat_map app]. rewrite Hat.
    unfold is_assistant in Hi. rewrite Hat in Hi. rewrite Hi.
    cbn [app]. unfold py_sum, accumulate.
    cbn [fold_left]. apply py_add_0_l, message_tokens_counts. }
  exists (stated_turn_record i msg_data message (py_sum (history_counts m pre))
            (count_real_turns m pre) irate orate), msg_data, message.
  cbn [stated_turn_record assistant_message_id output_tokens].
  split; [| split; [reflexivity |]].
  - destruct (analyze_detailed_inv _ _ _ _ _ Hdetailed Hd)
      as (m' & st & Hm' & Hrun & Ht & _).
    rewrite Hm in Hm'. injection Hm' as <-.
    apply detailed_loop_totals in Hrun as (new & Hnew & Hlen & _).
    cbn [initial_state processed_turns app] in Hnew.
    rewrite Ht, Hnew in *.
    rewrite Hids, assistant_count_app, assistant_count_cons, Hi, Hpre, Hpost
      in Hlen.
    rewrite Hpre in Hrec.
    destruct new as [|r [|r' new]]; try discriminate.
    injection Hrec as ->. reflexivity.
  - split; [exact Htotal |]. split; [exact Hat |]. split; [reflexivity |].
    split; [exact Htotal |].
    intros thoughts Hc.
    unfold message_at in Hat.
    destruct (m !! i) as [nd|]; [| discriminate].
    destruct (Export_.message nd) as [msg|] eqn:Hmsg; [| discriminate].
    injection Hat as -> ->.
    unfold message_tokens, extract_text_from_message. rewrite Hmsg, Hc.
    apply thought_loop_total.
Qed.

(** ** Failures *)

(** Simple mode returns a result on every conversation and cost table. *)
Lemma simple_mode_returns conversation costs_config :
  exists res,
    analyze_conversation_tokens_and_costs conversation costs_config "simple" = Ok res.
Proof.
  unfold analyze_conversation_tokens_and_costs. cbv zeta.
  destruct (bool_decide _); [eauto |].
  destruct (get_message_chronological_order _); [eauto |].
  cbn. eauto.
Qed.

(** Simple mode on a table in which no usable pair of rates is found: the
    costs are 0 and the model key says so. *)
Lemma analyze_simple_unpriced mapping ids costs_config real_turns_count :
  complete_rates (snd (simple_rates costs_config)) = None ->
  let s := analyze_simple mapping ids costs_config real_turns_count in
  Simple.simple_input_cost s = PFloat 0
  /\ Simple.simple_output_cost s = PFloat 0
  /\ Simple.simple_total_cost s = PFloat 0
  /\ Simple.simple_cost_model_key s
     = fst (simple_rates costs_config) +:+ " (rates not found/incomplete)".
Proof.
  intros Hnone. cbv zeta. unfold analyze_simple.
  destruct (fold_left _ _ _) as [[u a] sy].
  destruct (simple_rates costs_config) as [key found]. cbn [snd fst] in *.
  rewrite Hnone. repeat split; reflexivity.
Qed.

(** C8, at the scenario of the specification with a cost table whose "o3"
    entry has no output rate.  Simple mode recovers: it charges 0 and marks
    the model key.  Detailed mode does not test the entry for its keys and
    raises [KeyError] at the first assistant message. *)
Theorem detailed_mode_raises_on_incomplete_rates :
  analyze_conversation_tokens_and_costs
    (Samples.conversation_of (Some Samples.hi_hello))
    Samples.o3_without_output_rate "detailed"
  = Raise (KeyError "output_cost_per_million_tokens")
  /\ exists res s,
      analyze_conversation_tokens_and_costs
        (Samples.conversation_of (Some Samples.hi_hello))
        Samples.o3_without_output_rate "simple" = Ok res
      /\ body res = SimpleBody s
      /\ Simple.simple_total_cost s = PFloat 0
      /\ Simple.simple_cost_model_key s = "o3 (rates not found/incomplete)".
Proof.
  split; [vm_compute; reflexivity |].
  destruct (simple_mode_returns (Samples.conversation_of (Some Samples.hi_hello))
              Samples.o3_without_output_rate) as [res Hres].
  destruct (body res) as [reason md|s|d] eqn:Hbody.
  - exfalso. revert Hres Hbody. vm_compute. intros [= <-]. discriminate.
  - exists res, s. split; [exact Hres | split; [exact Hbody |]].
    destruct (analyze_simple_inv _ _ _ _ Hres Hbody) as (m & _ & ->).
    destruct (analyze_simple_unpriced m (get_message_chronological_order m)
                Samples.o3_without_output_rate
                (count_real_turns m (get_message_chronological_order m))
                eq_refl) as (_ & _ & Hcost & Hkey).
    split; [exact Hcost | rewrite Hkey; reflexivity].
  - exfalso. revert Hres Hbody. vm_compute. intros [= <-]. discriminate.
Qed.

End WithTiktoken.

(** ** The theorems at the sample conversations *)

Import Samples.
Local Abbreviation tk := one_token_per_char.
Local Abbreviation so := elements_order.

(** The second assistant message "D" of [two_turns], after "A", "B", "C". *)
Lemma input_tokens_sum_prior_history_witness :
  exists res d,
    @analyze_conversation_tokens_and_costs tk so (conversation_of (Some two_turns))
      o3_only "detailed" = Ok res
    /\ body res = DetailedBody d
    /\ exists r,
         Detailed.turns_details d !! @assistant_count two_turns ["A"; "B"; "C"]
           = Some r
         /\ assistant_message_id r = "D"
         /\ input_tokens r = py_sum (@history_counts tk two_turns ["A"; "B"; "C"])
         /\ exists n, input_tokens r = PInt n /\ 0 <= n.
Proof.
  eexists _, _. split; [vm_compute; reflexivity |]. split; [reflexivity |].
  eapply (@input_tokens_sum_prior_history tk so (conversation_of (Some two_turns))
            o3_only "detailed" _ _ two_turns ["A"; "B"; "C"] "D" []);
    [vm_compute; reflexivity | reflexivity | reflexivity
    | vm_compute; reflexivity | vm_compute; reflexivity].
Defined.

(** The two assistant messages of [two_turns]: "B" in turn 0 at the full
    rate, "D" in turn 1 at half of it. *)
Lemma input_rate_halved_after_first_turn_witness :
  exists res d,
    @analyze_conversation_tokens_and_costs tk so (conversation_of (Some two_turns))
      o3_only "detailed" = Ok res
    /\ body res = DetailedBody d
    /\ exists r msg_data message current_model_costs input_rate rate,
         Detailed.turns_details d !! @assistant_count two_turns ["A"; "B"; "C"]
           = Some r
         /\ @message_at two_turns "D" = Some (msg_data, message)
         /\ resolve_model_costs o3_only (model_slug message) = Ok current_model_costs
         /\ dict_get current_model_costs input_key = Some input_rate
         /\ turn_index r = count_real_turns two_turns ["A"; "B"; "C"]
         /\ 0 <= turn_index r
         /\ input_cost r = cost_of (input_tokens r) rate
         /\ (turn_index r = 0 -> rate = input_rate /\ input_discounted r = false)
         /\ (0 < turn_index r ->
             rate = py_truediv input_rate (PFloat 2) /\ input_discounted r = true).
Proof.
  eexists _, _. split; [vm_compute; reflexivity |]. split; [reflexivity |].
  eapply (@input_rate_halved_after_first_turn tk so
            (conversation_of (Some two_turns))
            o3_only "detailed" _ _ two_turns ["A"; "B"; "C"] "D" []);
    [vm_compute; reflexivity | reflexivity | reflexivity
    | vm_compute; reflexivity | vm_compute; reflexivity].
Defined.

(** In [two_turns] the first assistant message is charged the input rate 10
    and the second one the rate 5. *)
Example two_turns_input_costs :
  exists res d r1 r2,
    @analyze_conversation_tokens_and_costs tk so (conversation_of (Some two_turns))
      o3_only "detailed" = Ok res
    /\ body res = DetailedBody d
    /\ Detailed.turns_details d = [r1; r2]
    /\ input_cost r1 = cost_of (input_tokens r1) (PFloat 10)
    /\ input_cost r2 = cost_of (input_tokens r2) (PFloat 5)
    /\ PFloat 5 = py_truediv (PFloat 10) (PFloat 2).
Proof.
  eexists _, _, _, _. split; [vm_compute; reflexivity |].
  split; [reflexivity |]. split; [reflexivity |].
  repeat split; vm_compute; reflexivity.
Qed.

(** The loop on [two_turns] with the default cost table. *)
Lemma turn_index_replays_real_turns_witness :
  complete_table DEFAULT_MODEL_COSTS
  /\ exists st,
       @detailed_loop tk two_turns DEFAULT_MODEL_COSTS ["A"; "B"; "C"; "D"]
         initial_state = Ok st
       /\ current_turn_index st = 2
       /\ count_real_turns two_turns ["A"; "B"; "C"; "D"] = 2.
Proof.
  assert (Hall : complete_table DEFAULT_MODEL_COSTS).
  { repeat constructor; vm_compute; eauto. }
  split; [exact Hall |].
  destruct (@turn_index_replays_real_turns tk two_turns DEFAULT_MODEL_COSTS
              ["A"; "B"; "C"; "D"]) as [Hpart Htotal].
  destruct (Htotal Hall) as (st & Hrun & Hidx).
  exists st. split; [exact Hrun |]. split; [| vm_compute; reflexivity].
  rewrite (Hpart st Hrun). vm_compute. reflexivity.
Defined.

(** [hi_thoughts]: one turn, whose one assistant message "B" after the
    user's "A" is a thoughts message with a summary of 4 tokens and contents
    of 11 and 4 tokens: both modes report [4 + 11 * 1.2 + 4 * 1.2], which the
    floats round to 22, where the thoughts without the multiplier would
    count 19 and the history count of the message is 0. *)
Lemma simple_assistant_total_is_detailed_output_witness :
  exists res_simple res_detailed s d,
    @analyze_conversation_tokens_and_costs tk so
      (conversation_of (Some hi_thoughts)) o3_only "simple" = Ok res_simple
    /\ body res_simple = SimpleBody s
    /\ @analyze_conversation_tokens_and_costs tk so
         (conversation_of (Some hi_thoughts)) o3_only "detailed" = Ok res_detailed
    /\ body res_detailed = DetailedBody d
    /\ content thoughts_message = Thoughts thinking
    /\ exists r msg_data message,
         Detailed.turns_details d = [r]
         /\ assistant_message_id r = "B"
         /\ Simple.simple_total_assistant_tokens s = output_tokens r
         /\ @message_at hi_thoughts "B" = Some (msg_data, message)
         /\ output_tokens r = @message_tokens tk msg_data true
         /\ Simple.simple_total_assistant_tokens s = @message_tokens tk msg_data true
         /\ (forall thoughts,
               content message = Thoughts thoughts ->
               output_tokens r
               = py_sum (flat_map
                           (thought_terms (@get_tokenizer tk (model_slug message)))
                           thoughts))
         /\ output_tokens r = PFloat 22
         /\ Simple.simple_total_assistant_tokens s = PFloat 22
         /\ @message_tokens tk msg_data false = PInt 0.
Proof.
  eexists _, _, _, _. split; [vm_compute; reflexivity |].
  split; [reflexivity |]. split; [vm_compute; reflexivity |].
  split; [reflexivity |]. split; [reflexivity |].
  destruct (@simple_assistant_total_is_detailed_output tk so
              (conversation_of (Some hi_thoughts)) o3_only _ _ _ _ hi_thoughts
              ["A"] "B" []
              ltac:(vm_compute; reflexivity) eq_refl
              ltac:(vm_compute; reflexivity) eq_refl eq_refl
              ltac:(vm_compute; reflexivity) ltac:(vm_compute; reflexivity)
              ltac:(vm_compute; reflexivity) ltac:(vm_compute; reflexivity))
    as (r & msg_data & message & Hd & Hid & Hagree & Hat & Hout & Hsimple & Hth).
  exists r, msg_data, message.
  assert (Hnode : msg_data = thoughts_node /\ message = thoughts_message).
  { assert (Hat' : @message_at hi_thoughts "B"
                   = Some (thoughts_node, thoughts_message))
      by (vm_compute; reflexivity).
    rewrite Hat' in Hat. by injection Hat as <- <-. }
  destruct Hnode as [-> ->].
  split; [exact Hd |]. split; [exact Hid |]. split; [exact Hagree |].
  split; [exact Hat |]. split; [exact Hout |]. split; [exact Hsimple |].
  split; [exact Hth |].
  split; [rewrite Hout; vm_compute; reflexivity |].
  split; [rewrite Hsimple; vm_compute; reflexivity |].
  vm_compute; reflexivity.
Defined.

(** The totals of the detailed-mode result of [two_turns]. *)
Lemma detailed_totals_agree_with_records_witness :
  exists res d,
    @analyze_conversation_tokens_and_costs tk so (conversation_of (Some two_turns))
      o3_only "detailed" = Ok res
    /\ body res = DetailedBody d
    /\ Detailed.total_cost d
       = accumulate (PFloat 0) (map turn_total_cost (Detailed.turns_details d))
    /\ (Detailed.turns_details d <> [] ->
        Detailed.total_cost d = py_sum (map turn_total_cost (Detailed.turns_details d)))
    /\ Detailed.total_input_tokens_across_turns d
       = py_sum (map input_tokens (Detailed.turns_details d))
    /\ Detailed.total_output_tokens_for_all_assistant_msgs d
       = py_sum (map output_tokens (Detailed.turns_details d))
    /\ Detailed.assistant_messages_count d
       = Z.of_nat (length (Detailed.turns_details d)).
Proof.
  eexists _, _. split; [vm_compute; reflexivity |]. split; [reflexivity |].
  eapply (@detailed_totals_agree_with_records tk so
            (conversation_of (Some two_turns)) o3_only "detailed");
    [vm_compute; reflexivity | reflexivity].
Defined.

End AnalyzerFacts.

(* ===================================================================== *)
(** * Failed conversations and the report *)
(* ===================================================================== *)

Module ReportingFacts.

(** A result with the error marker is dropped from the valid results. *)
Lemma valid_results_skip_error before res after :
  has_error res = true ->
  valid_results (before ++ res :: after) = valid_results (before ++ after).
Proof.
  intros Herr. unfold valid_results.
  rewrite !List.filter_app. cbn [List.filter]. by rewrite Herr.
Qed.

(** The count of conversations in the metadata of the report is the number
    of all results, failed ones included; it is no part of the summary. *)
Lemma total_conversations_counts_all {bi : Builtins} before res after report_mode :
  total_conversations
    (generate_comprehensive_report (before ++ res :: after) report_mode)
  = total_conversations
      (generate_comprehensive_report (before ++ after) report_mode) + 1.
Proof.
  unfold generate_comprehensive_report. cbn [total_conversations].
  rewrite !length_app. cbn [length]. lia.
Qed.

Section WithRuntime.
Context {tk : Tiktoken} {so : SetOrder}.

(** C7.  For a conversation whose mapping is missing or empty, or whose
    linearized order is empty, the analysis returns, in either mode, a result
    that carries an error string (and raises nothing); in a report over any
    batch that holds it, such a result is not among the valid results, leaves
    every number of the summary as it is without it, and is kept in the
    list of errors. *)
Theorem structural_errors_are_soft :
  forall conversation costs_config mode,
    (mapping conversation = None
     \/ mapping conversation = Some ∅
     \/ exists m, mapping conversation = Some m
                  /\ get_message_chronological_order m = []) ->
    exists res reason,
      analyze_conversation_tokens_and_costs conversation costs_config mode = Ok res
      /\ body res = ErrorBody reason mode
      /\ forall (bi : Builtins) before after report_mode,
           valid_results (before ++ res :: after) = valid_results (before ++ after)
           /\ report_summary
                (generate_comprehensive_report (before ++ res :: after) report_mode)
              = report_summary
                  (generate_comprehensive_report (before ++ after) report_mode)
           /\ In res (errors (generate_comprehensive_report
                                (before ++ res :: after) report_mode)).
Proof.
  intros conversation costs_config mode Hcase.
  assert (Hres : exists res reason,
             analyze_conversation_tokens_and_costs conversation costs_config mode
               = Ok res
             /\ body res = ErrorBody reason mode).
  { unfold analyze_conversation_tokens_and_costs. cbv zeta.
    destruct (bool_decide (default ∅ (mapping conversation) = ∅)) eqn:He;
      [eexists _, _; split; reflexivity |].
    apply bool_decide_eq_false in He.
    destruct Hcase as [Hm | [Hm | (m & Hm & Hids)]]; rewrite Hm in *; try done.
    cbn [default from_option id]. rewrite Hids.
    eexists _, _; split; reflexivity. }
  destruct Hres as (res & reason & Hres & Hbody).
  exists res, reason. split; [exact Hres | split; [exact Hbody |]].
  intros bi before after report_mode.
  assert (Herr : has_error res = true) by (unfold has_error; by rewrite Hbody).
  split; [by apply valid_results_skip_error |]. split.
  - unfold generate_comprehensive_report. cbn [report_summary].
    by rewrite valid_results_skip_error.
  - unfold generate_comprehensive_report, error_conversations. cbn [errors].
    apply filter_In. split; [| exact Herr].
    apply in_or_app. right. by left.
Qed.

End WithRuntime.

(** A conversation without mapping, in a batch with the result of the
    scenario of the specification. *)
Lemma structural_errors_are_soft_witness :
  exists res,
    @analyze_conversation_tokens_and_costs Samples.one_token_per_char
      Samples.elements_order (Samples.conversation_of None) Samples.o3_only "detailed"
    = Ok res
    /\ body res = ErrorBody "No message mapping found" "detailed"
    /\ @valid_results [res] = [].
Proof.
  destruct (@structural_errors_are_soft Samples.one_token_per_char
              Samples.elements_order (Samples.conversation_of None)
              Samples.o3_only "detailed" (or_introl eq_refl))
    as (res & reason & Hres & Hbody & Hrep).
  exists res. split; [exact Hres |].
  assert (Hreason : reason = "No message mapping found").
  { revert Hres Hbody. vm_compute. intros [= <-]. by intros [= <-]. }
  subst reason. split; [exact Hbody |].
  exact (proj1 (Hrep Samples.plain_sum [] [] "detailed")).
Defined.

End ReportingFacts.

(* ===================================================================== *)
(** * Further properties of the extractor *)
(* ===================================================================== *)

Module ExtractorExtras.
Import TokenizerFacts.

Section WithTiktoken.
Context {tk : Tiktoken}.

(** Unless the content of the message is of type "thoughts", the extractor
    returns the same fragments and the same token count with and without
    [count_thoughts]. *)
Lemma extract_flag_matters_for_thoughts_only :
  forall message_data,
    (forall msg thoughts,
       message message_data = Some msg -> content msg <> Thoughts thoughts) ->
    extract_text_from_message message_data true
    = extract_text_from_message message_data false.
Proof.
  intros message_data Hnot. unfold extract_text_from_message.
  destruct (message message_data) as [msg|] eqn:Hm; [| reflexivity].
  destruct (content msg) as [ps|ths|up ui|] eqn:Hc; try reflexivity.
  by destruct (Hnot msg ths eq_refl).
Qed.

(** A sum of ints is an int. *)
Lemma accumulate_ints init l :
  (exists n, init = PInt n) ->
  Forall (fun x => exists n, x = PInt n) l ->
  exists n, accumulate init l = PInt n.
Proof.
  revert init. induction l as [|x l IH]; intros init Hinit Hl; [exact Hinit |].
  inversion Hl as [|? ? [k ->] Hl']; subst. destruct Hinit as [a ->].
  cbn [accumulate fold_left py_add]. apply IH; eauto.
Qed.

(** X1.  The token count of the extractor is a non-negative int whenever
    thoughts are not counted, and with thoughts counted it is a float only
    for a thoughts message in which some thought has a non-empty content (the
    one place where the multiplier 1.2 comes in). *)
Theorem extractor_float_only_from_thought_content :
  forall message_data,
    (exists n, message_tokens message_data false = PInt n /\ 0 <= n)
    /\ forall f,
         message_tokens message_data true = PFloat f ->
         exists msg thoughts thought,
           message message_data = Some msg
           /\ content msg = Thoughts thoughts
           /\ In thought thoughts
           /\ truthy (thought_content thought) = true.
Proof.
  intros message_data. split; [apply history_tokens_int |].
  intros f Hf.
  destruct (history_tokens_int message_data) as (n & Hn & _).
  destruct (message message_data) as [msg|] eqn:Hm.
  2: { unfold message_tokens, extract_text_from_message in Hf.
       rewrite Hm in Hf. discriminate. }
  destruct (content msg) as [ps|ths|up ui|] eqn:Hc.
  1,3,4: exfalso;
    assert (Heq : extract_text_from_message message_data true
                  = extract_text_from_message message_data false)
      by (apply extract_flag_matters_for_thoughts_only; intros ? ? ? ?; congruence);
    unfold message_tokens in Hf, Hn; rewrite Heq in Hf; congruence.
  destruct (existsb (fun th => truthy (thought_content th)) ths) eqn:Hex.
  - apply existsb_exists in Hex as (thought & Hin & Ht).
    by exists msg, ths, thought.
  - exfalso.
    unfold message_tokens, extract_text_from_message in Hf.
    rewrite Hm, Hc, thought_loop_total in Hf. cbn [snd] in Hf.
    destruct (accumulate_ints (PInt 0)
                (flat_map (thought_terms (get_tokenizer (model_slug msg))) ths))
      as [k Hk]; [by exists 0 | | congruence].
    apply Forall_flat_map, Forall_forall. intros th Hin.
    assert (Hempty : truthy (thought_content th) = false).
    { destruct (truthy (thought_content th)) eqn:Ht; [| reflexivity].
      assert (existsb (fun th => truthy (thought_content th)) ths = true)
        by (apply existsb_exists; exists th; split; [by apply list_elem_of_In |
                                                      exact Ht]).
      congruence. }
    unfold thought_terms. rewrite Hempty, app_nil_r.
    destruct (truthy (Export_.summary th)); repeat constructor. eauto.
Qed.

(** The choice of the encoding: the slug "o3" is tokenised with the
    encoding of "gpt-4o"; a message without slug, or with an empty one, and a
    slug the library does not know are tokenised with the default encoding
    "cl100k_base". *)
Lemma tokenizer_fallbacks :
  get_tokenizer (Some "o3") = get_tokenizer (Some "gpt-4o")
  /\ get_tokenizer None = cl100k_base
  /\ get_tokenizer (Some "") = cl100k_base
  /\ forall slug,
       slug <> "o3" -> encoding_for_model slug = None ->
       get_tokenizer (Some slug) = cl100k_base.
Proof.
  repeat split; try reflexivity.
  intros slug Hne Hunknown. unfold get_tokenizer.
  apply String.eqb_neq in Hne. rewrite Hne, Hunknown.
  by destruct (truthy slug).
Qed.

End WithTiktoken.

(** The thoughts message of the samples, whose count is the float 22. *)
Lemma extractor_float_only_from_thought_content_witness :
  @message_tokens Samples.one_token_per_char Samples.thoughts_node true = PFloat 22
  /\ exists msg thoughts thought,
       message Samples.thoughts_node = Some msg
       /\ content msg = Thoughts thoughts
       /\ In thought thoughts
       /\ truthy (thought_content thought) = true.
Proof.
  split; [vm_compute; reflexivity |].
  apply (proj2 (@extractor_float_only_from_thought_content
                  Samples.one_token_per_char Samples.thoughts_node) 22%float).
  vm_compute. reflexivity.
Defined.

End ExtractorExtras.

(* ===================================================================== *)
(** * Further properties of the linearizer *)
(* ===================================================================== *)

Module LinearizerExtras.
Import LinearizerFacts.

Lemma has_message_lookup (conversation_mapping : gmap string MessageNode) i :
  has_message conversation_mapping i = true ->
  exists msg_data msg,
    conversation_mapping !! i = Some msg_data /\ message msg_data = Some msg.
Proof.
  unfold has_message.
  destruct (conversation_mapping !! i) as [msg_data|]; [| discriminate].
  intros H. apply bool_decide_eq_true in H as [msg Hmsg]. eauto.
Qed.

(** What the loop appends: ids that were not visited, each once, all of them
    keys of the mapping. *)
Lemma follow_first_children_appends (conversation_mapping : gmap string MessageNode)
    fuel :
  forall visited_ids ordered current_id r,
    follow_first_children fuel conversation_mapping visited_ids ordered current_id
      = Some r ->
    exists added,
      r = ordered ++ added
      /\ NoDup added
      /\ forall x, x ∈ added ->
           (x ∉ visited_ids) /\ (x ∈ dom conversation_mapping).
Proof.
  induction fuel as [|fuel IH]; intros V o c r Hr; [discriminate |].
  assert (Hstop : Some o = Some r ->
            exists added, r = o ++ added /\ NoDup added
              /\ forall x, x ∈ added ->
                   (x ∉ V) /\ (x ∈ dom conversation_mapping)).
  { intros [= <-]. exists []. rewrite app_nil_r.
    split; [reflexivity | split; [constructor | intros x Hx; by inversion Hx]]. }
  simpl in Hr.
  destruct (negb (truthy c)); [by apply Hstop |].
  destruct (conversation_mapping !! c) as [msg_node|]; [| by apply Hstop].
  destruct (children msg_node) as [|next_id rest]; [by apply Hstop |].
  destruct (bool_decide (next_id ∈ V)) eqn:Hin; [by apply Hstop |].
  apply bool_decide_eq_false in Hin.
  apply IH in Hr as (added & -> & Hnd & Hadded).
  destruct (has_message conversation_mapping next_id) eqn:Hmsg.
  - exists (next_id :: added). rewrite <- app_assoc. split; [reflexivity |].
    split.
    + constructor; [| exact Hnd]. intros Hx. apply Hadded in Hx. set_solver.
    + intros x Hx. apply elem_of_cons in Hx as [-> | Hx].
      * split; [exact Hin |].
        destruct (has_message_lookup _ _ Hmsg) as (nd & msg & Hnd' & _).
        apply elem_of_dom. eauto.
      * apply Hadded in Hx. set_solver.
  - exists added. split; [reflexivity |]. split; [exact Hnd |].
    intros x Hx. apply Hadded in Hx. set_solver.
Qed.

Lemma nodup_keys_length (conversation_mapping : gmap string MessageNode)
    (l : list string) :
  NoDup l ->
  (forall x, x ∈ l -> x ∈ dom conversation_mapping) ->
  (length l <= size conversation_mapping)%nat.
Proof.
  intros Hnd Hsub. rewrite <- size_dom.
  rewrite <- (size_list_to_set (C := gset string) l Hnd).
  apply subseteq_size. intros x Hx. apply elem_of_list_to_set in Hx. auto.
Qed.

Section WithOrder.
Context {so : SetOrder}.
Implicit Types conversation_mapping : gmap string MessageNode.

(** X2.  Every id the linearizer returns is a key of the mapping whose node
    carries a message: placeholders and ids that the links name but the
    mapping does not hold are never returned. *)
Theorem linearizer_returns_message_nodes :
  forall conversation_mapping i,
    In i (get_message_chronological_order conversation_mapping) ->
    exists msg_data msg,
      conversation_mapping !! i = Some msg_data /\ message msg_data = Some msg.
Proof.
  intros conversation_mapping i Hin.
  apply has_message_lookup. by apply linearizer_only_messages.
Qed.

(** X3.  The linearizer returns at most one id more than the mapping has
    nodes, whatever the links. *)
Theorem linearizer_length_bound :
  forall conversation_mapping,
    (length (get_message_chronological_order conversation_mapping)
     <= size conversation_mapping + 1)%nat.
Proof.
  intros conversation_mapping.
  pose proof (linearizer_run conversation_mapping) as Hrun.
  destruct (start_node conversation_mapping) as [start|];
    [| rewrite Hrun; simpl; lia].
  destruct Hrun as (o & Hrun & Ho).
  assert (Hlen : (length o <= 1)%nat) by (destruct Ho as [-> | [-> _]]; simpl; lia).
  unfold walk_from in Hrun.
  destruct (_ && _) eqn:Hcond.
  - apply andb_true_iff in Hcond as [Hnotin Hmsg].
    apply negb_true_iff, bool_decide_eq_false in Hnotin.
    destruct Ho as [-> | [-> _]]; [| set_solver].
    apply follow_first_children_appends in Hrun as (added & -> & Hnd & Hadded).
    cbn [app length].
    assert (length (start :: added) <= size conversation_mapping)%nat; [| simpl in *; lia].
    apply nodup_keys_length.
    + constructor; [| exact Hnd]. intros Hx. apply Hadded in Hx. set_solver.
    + intros x Hx. apply elem_of_cons in Hx as [-> | Hx];
        [| by apply Hadded].
      destruct (has_message_lookup _ _ Hmsg) as (nd & msg & Hnd' & _).
      apply elem_of_dom. eauto.
  - apply follow_first_children_appends in Hrun as (added & -> & Hnd & Hadded).
    rewrite length_app.
    assert (length added <= size conversation_mapping)%nat; [| lia].
    apply nodup_keys_length; [exact Hnd |]. intros x Hx. by apply Hadded.
Qed.

(** X4.  The linearizer repeats no id when the mapping holds the synthetic
    root "client-created-root", and more generally unless the root it infers
    carries a message; cycles in the links do not matter. *)
Theorem linearizer_no_repeat_from_synthetic_root :
  forall conversation_mapping,
    ("client-created-root" ∈ dom conversation_mapping
     \/ forall root_id,
          find_root conversation_mapping = Some root_id ->
          has_message conversation_mapping root_id = false) ->
    NoDup (get_message_chronological_order conversation_mapping).
Proof.
  intros conversation_mapping Hcase.
  apply linearizer_nodup_unless_root_message. intros root_id Hroot.
  destruct Hcase as [Hccr | Hno]; [left | right; by apply Hno].
  unfold find_root in Hroot. rewrite bool_decide_eq_true_2 in Hroot by exact Hccr.
  congruence.
Qed.

(** X5.  On a well-formed thread, where the first-child path from the start
    node ends after [n] nodes, repeats no id and holds no empty id, the
    linearizer returns exactly the nodes of that path that carry a message,
    in the order of the path: siblings off the path are left out and nothing
    of the path is lost. *)
Theorem linearizer_follows_whole_path :
  forall conversation_mapping start n,
    start_node conversation_mapping = Some start ->
    first_child_walk conversation_mapping (S n) start
      = first_child_walk conversation_mapping n start ->
    NoDup (first_child_walk conversation_mapping n start) ->
    (forall x, In x (first_child_walk conversation_mapping n start) -> x <> "") ->
    get_message_chronological_order conversation_mapping
    = List.filter (has_message conversation_mapping)
        (first_child_walk conversation_mapping n start).
Proof.
  intros conversation_mapping start n Hstart Hend Hnd Hne.
  apply linearizer_whole_path; try assumption.
  intros x Hx. unfold truthy. apply negb_true_iff, String.eqb_neq.
  apply Hne. by apply list_elem_of_In.
Qed.

End WithOrder.

(** X6.  When the mapping holds the synthetic root, the result of the
    linearizer does not depend on the order in which Python iterates over
    sets: only the search for a root in a mapping without synthetic root
    does. *)
Theorem linearizer_independent_of_set_order :
  forall (so1 so2 : SetOrder) (conversation_mapping : gmap string MessageNode),
    "client-created-root" ∈ dom conversation_mapping ->
    @get_message_chronological_order so1 conversation_mapping
    = @get_message_chronological_order so2 conversation_mapping.
Proof.
  intros so1 so2 conversation_mapping Hccr.
  unfold get_message_chronological_order, get_message_chronological_order_fuel,
    find_root.
  by rewrite !(bool_decide_eq_true_2
                 ("client-created-root" ∈ dom conversation_mapping) Hccr).
Qed.

(** ** At the sample conversations *)

Lemma linearizer_returns_message_nodes_witness :
  In "B" (@get_message_chronological_order Samples.elements_order Samples.hi_hello)
  /\ exists msg_data msg,
       Samples.hi_hello !! "B" = Some msg_data /\ message msg_data = Some msg.
Proof.
  assert (Hin : In "B" (@get_message_chronological_order Samples.elements_order
                          Samples.hi_hello))
    by (vm_compute; auto).
  split; [exact Hin |].
  exact (@linearizer_returns_message_nodes Samples.elements_order
           Samples.hi_hello "B" Hin).
Defined.

Lemma linearizer_no_repeat_from_synthetic_root_witness :
  "client-created-root" ∈ dom Samples.two_turns
  /\ NoDup (@get_message_chronological_order Samples.elements_order Samples.two_turns).
Proof.
  assert (Hccr : "client-created-root" ∈ dom Samples.two_turns)
    by (apply elem_of_dom; vm_compute; eauto).
  split; [exact Hccr |].
  apply (@linearizer_no_repeat_from_synthetic_root Samples.elements_order).
  by left.
Defined.

(** The path of [hi_hello] from "A" is "A", "B" and ends there. *)
Lemma linearizer_follows_whole_path_witness :
  @get_message_chronological_order Samples.elements_order Samples.hi_hello
  = List.filter (has_message Samples.hi_hello)
      (first_child_walk Samples.hi_hello 2 "A").
Proof.
  apply (@linearizer_follows_whole_path Samples.elements_order Samples.hi_hello "A" 2).
  - vm_compute. reflexivity.
  - vm_compute. reflexivity.
  - replace (first_child_walk Samples.hi_hello 2 "A") with ["A"; "B"]
      by (vm_compute; reflexivity).
    repeat constructor; set_solver.
  - replace (first_child_walk Samples.hi_hello 2 "A") with ["A"; "B"]
      by (vm_compute; reflexivity).
    intros x [<- | [<- | []]]; discriminate.
Defined.

Lemma linearizer_independent_of_set_order_witness :
  @get_message_chronological_order Samples.elements_order Samples.two_turns
  = @get_message_chronological_order MoreSamples.reversed_order Samples.two_turns.
Proof.
  apply linearizer_independent_of_set_order.
  apply elem_of_dom. vm_compute. eauto.
Defined.

End LinearizerExtras.

(* ===================================================================== *)
(** * Further properties of the accrual engine *)
(* ===================================================================== *)

Module AnalyzerExtras.
Import TokenizerFacts AnalyzerFacts.

(** ** Turn counts and labels *)

(** X7.  The count of real turns adds up over the ids: the count of a
    sequence is the sum of the counts of its parts, and it lies between 0 and
    the number of ids. *)
Theorem count_real_turns_additive :
  forall (mapping : gmap string MessageNode) (ids1 ids2 : list string),
    count_real_turns mapping (ids1 ++ ids2)
    = count_real_turns mapping ids1 + count_real_turns mapping ids2
    /\ 0 <= count_real_turns mapping ids1 <= Z.of_nat (length ids1).
Proof.
  intros mapping ids1 ids2. split.
  - induction ids1 as [|i ids1 IH]; [reflexivity |].
    cbn [app].
    rewrite (count_real_turns_cons mapping i (ids1 ++ ids2)),
      (count_real_turns_cons mapping i ids1), IH. lia.
  - split; [apply count_real_turns_nonneg |].
    induction ids1 as [|i ids1 IH]; [reflexivity |].
    rewrite count_real_turns_cons, count_real_turns_one. cbn [length].
    destruct (message_at mapping i) as [[? msg]|]; [destruct (ends_turn msg) |]; lia.
Qed.

Lemma append_nonempty (s t : string) : t <> "" -> s +:+ t <> "".
Proof. destruct s; [done | discriminate]. Qed.

(** X8.  The display label of a message is never the empty string, and it
    is the message's own model slug whenever that slug is not empty, whatever
    the other metadata. *)
Theorem model_label_never_empty :
  forall message,
    identify_model_from_metadata message <> ""
    /\ forall slug,
         model_slug message = Some slug -> slug <> "" ->
         identify_model_from_metadata message = slug.
Proof.
  intros message. unfold identify_model_from_metadata. split.
  - destruct (model_slug message) as [s|] eqn:Hs; cbn [truthy_opt default from_option id].
    + unfold truthy at 1. destruct (String.eqb_spec s ""); cbn [negb]; [| done].
      clear.
      destruct (truthy_opt (default_model_slug message));
        [by apply append_nonempty |].
      destruct (finish_details message); [done |].
      destruct (recipient message) as [r|]; [| done].
      by destruct (truthy r && negb (String.eqb r "all")).
    + destruct (truthy_opt (default_model_slug message));
        [by apply append_nonempty |].
      destruct (finish_details message); [done |].
      destruct (recipient message) as [r|]; [| done].
      by destruct (truthy r && negb (String.eqb r "all")).
  - intros slug -> Hne. cbn [truthy_opt default from_option id].
    unfold truthy. apply String.eqb_neq in Hne. by rewrite Hne.
Qed.

(** The assistant's message of the samples is labelled with its slug. *)
Lemma model_label_never_empty_witness :
  identify_model_from_metadata
    (Samples.text_message "assistant" (Some "o3") "Hello" (Some true)) = "o3".
Proof.
  destruct (model_label_never_empty
              (Samples.text_message "assistant" (Some "o3") "Hello" (Some true)))
    as [_ Hslug].
  apply (Hslug "o3"); [reflexivity | discriminate].
Defined.

(** ** The rates of a message *)

(** X9.  The search for the rates of a message always finds an entry and
    never raises: an entry of the given table when the table is not empty
    (that of "o3" when the message's slug is not in the table and the "o3"
    entry is not empty), and the "o3" entry of the default table, 10 and 40,
    only when the given table is empty. *)
Theorem resolve_model_costs_provenance :
  forall (costs_config : cost_table) (slug : option string),
  exists current_model_costs,
    resolve_model_costs costs_config slug = Ok current_model_costs
    /\ (costs_config = [] -> current_model_costs = mk_rates 10 40)
    /\ (costs_config <> [] -> exists k, In (k, current_model_costs) costs_config)
    /\ (forall o3_rates,
          (forall s, slug = Some s -> dict_get costs_config s = None) ->
          dict_get costs_config "o3" = Some o3_rates ->
          o3_rates <> [] ->
          current_model_costs = o3_rates).
Proof.
  intros costs_config slug. unfold resolve_model_costs.
  set (found := match slug with
                | Some s0 =>
                    match dict_get costs_config s0 with
                    | Some r => Some r
                    | None => dict_get costs_config "o3"
                    end
                | None => dict_get costs_config "o3"
                end).
  assert (Hfound : forall r, found = Some r -> exists k, In (k, r) costs_config).
  { subst found. intros r.
    destruct slug as [s0|]; [destruct (dict_get costs_config s0) eqn:Hs |];
      first [ intros [= <-]; eapply dict_get_In; eassumption
            | apply dict_get_In ]. }
  assert (Ho3 : forall o3_rates,
             (forall s, slug = Some s -> dict_get costs_config s = None) ->
             dict_get costs_config "o3" = Some o3_rates ->
             found = Some o3_rates).
  { subst found. intros o3_rates Hslug Hget.
    destruct slug as [s0|]; [rewrite (Hslug s0 eq_refl) |]; exact Hget. }
  destruct (usable found) eqn:Hu.
  - destruct found as [r|]; [| discriminate]. exists r. cbn.
    split; [reflexivity |]. split; [| split].
    + intros ->. destruct (Hfound r eq_refl) as [k []].
    + intros _. by apply Hfound.
    + intros o3_rates Hslug Hget _. specialize (Ho3 _ Hslug Hget). congruence.
  - destruct costs_config as [|[k r] rest].
    + exists (mk_rates 10 40). split; [reflexivity |]. split; [done |].
      split; [done |]. intros o3_rates _ Hget. discriminate.
    + exists r. split; [reflexivity |]. split; [done |]. split.
      * intros _. exists k. by left.
      * intros o3_rates Hslug Hget Hne. rewrite (Ho3 _ Hslug Hget) in Hu.
        destruct o3_rates; [done | discriminate].
Qed.

(** A slug that the table does not hold is charged the rates of "o3". *)
Lemma resolve_model_costs_provenance_witness :
  resolve_model_costs Samples.o3_only (Some "gpt-4") = Ok (mk_rates 10 40).
Proof.
  destruct (resolve_model_costs_provenance Samples.o3_only (Some "gpt-4"))
    as (current_model_costs & Hfound & _ & _ & Ho3).
  rewrite Hfound. f_equal. apply (Ho3 (mk_rates 10 40)).
  - intros s [= <-]. reflexivity.
  - reflexivity.
  - discriminate.
Defined.

(** ** Runs of the detailed-mode loop *)

Section WithTiktoken.
Context {tk : Tiktoken}.
Implicit Types mapping : gmap string MessageNode.

Lemma resolve_model_costs_ok (costs_config : cost_table) slug :
  exists current_model_costs,
    resolve_model_costs costs_config slug = Ok current_model_costs.
Proof.
  unfold resolve_model_costs. destruct (usable _); [eauto |].
  destruct costs_config as [|[k r] rest]; [| eauto].
  eexists. reflexivity.
Qed.

(** Without assistant message the loop raises nothing and leaves records and
    totals as they are. *)
Lemma detailed_loop_without_assistant mapping costs_config ids :
  assistant_count mapping ids = 0%nat ->
  forall st0,
  exists st,
    detailed_loop mapping costs_config ids st0 = Ok st
    /\ processed_turns st = processed_turns st0
    /\ conversation_total_cost st = conversation_total_cost st0
    /\ conversation_total_input_tokens st = conversation_total_input_tokens st0
    /\ conversation_total_output_tokens st = conversation_total_output_tokens st0
    /\ assistant_message_count_in_convo st = assistant_message_count_in_convo st0.
Proof.
  induction ids as [|i ids IH]; intros Hnone st0.
  - exists st0. repeat split; reflexivity.
  - rewrite assistant_count_cons in Hnone. cbn [detailed_loop].
    assert (Hstep : exists st1,
               detailed_step mapping costs_config st0 i = Ok st1
               /\ processed_turns st1 = processed_turns st0
               /\ conversation_total_cost st1 = conversation_total_cost st0
               /\ conversation_total_input_tokens st1
                  = conversation_total_input_tokens st0
               /\ conversation_total_output_tokens st1
                  = conversation_total_output_tokens st0
               /\ assistant_message_count_in_convo st1
                  = assistant_message_count_in_convo st0).
    { unfold detailed_step. unfold is_assistant, message_at in Hnone.
      destruct (mapping !! i) as [msg_data|];
        [| exists st0; repeat split; reflexivity].
      destruct (message msg_data) as [message|];
        [| exists st0; repeat split; reflexivity].
      destruct (resolve_model_costs_ok costs_config (model_slug message))
        as [rates ->].
      cbn [mbind pyresult_bind]. cbv zeta.
      destruct (String.eqb (role_of message) "assistant"); [lia |].
      eexists. split; [reflexivity |]. repeat split; reflexivity. }
    destruct Hstep as (st1 & -> & Ht & Hc & Hi & Ho & Hn).
    cbn [mbind pyresult_bind].
    destruct (IH ltac:(destruct (is_assistant mapping i); lia) st1)
      as (st & Hrun & Ht' & Hc' & Hi' & Ho' & Hn').
    exists st. split; [exact Hrun |]. repeat split; congruence.
Qed.

(** The records of a run: one per assistant message, in the order of the
    ids, each with the output tokens of its message. *)
Lemma detailed_loop_ids_outputs mapping costs_config ids :
  forall st0 st,
    detailed_loop mapping costs_config ids st0 = Ok st ->
    exists new,
      processed_turns st = processed_turns st0 ++ new
      /\ map assistant_message_id new = List.filter (is_assistant mapping) ids
      /\ map output_tokens new = assistant_outputs mapping ids.
Proof.
  induction ids as [|i ids IH]; intros st0 st Hrun.
  - injection Hrun as <-. exists []. by rewrite app_nil_r.
  - cbn [detailed_loop] in Hrun.
    destruct (detailed_step mapping costs_config st0 i) as [st1|e] eqn:Hstep;
      [| discriminate].
    cbn [mbind pyresult_bind] in Hrun.
    apply IH in Hrun as (new & Ht & Hids & Hout).
    apply detailed_step_inv in Hstep.
    unfold assistant_outputs in *. cbn [List.filter flat_map].
    unfold is_assistant at 1.
    destruct (message_at mapping i) as [[msg_data message]|].
    + cbv zeta in Hstep.
      destruct (String.eqb (role_of message) "assistant").
      * destruct Hstep as (rates & irate & orate & _ & _ & _ & ->).
        cbn [processed_turns] in Ht.
        eexists (_ :: new). rewrite Ht, <- app_assoc. split; [reflexivity |].
        cbn [map app]. rewrite Hids, Hout. split; reflexivity.
      * subst st1. exists new. cbn [processed_turns] in Ht. by rewrite app_nil_l.
    + subst st1. exists new. by rewrite app_nil_l.
Qed.

Lemma detailed_loop_records_consistent mapping costs_config ids :
  forall st0 st,
    detailed_loop mapping costs_config ids st0 = Ok st ->
    Forall record_consistent (processed_turns st0) ->
    Forall record_consistent (processed_turns st).
Proof.
  induction ids as [|i ids IH]; intros st0 st Hrun Hall.
  - by injection Hrun as <-.
  - cbn [detailed_loop] in Hrun.
    destruct (detailed_step mapping costs_config st0 i) as [st1|e] eqn:Hstep;
      [| discriminate].
    cbn [mbind pyresult_bind] in Hrun.
    apply (IH st1 st Hrun). apply detailed_step_inv in Hstep.
    destruct (message_at mapping i) as [[msg_data message]|]; [| by subst].
    cbv zeta in Hstep.
    destruct (String.eqb (role_of message) "assistant"); [| by subst].
    destruct Hstep as (? & ? & ? & _ & _ & _ & ->). cbn [processed_turns].
    apply Forall_app. split; [exact Hall |].
    constructor; [| constructor].
    unfold record_consistent, stated_turn_record, cost_of, py_mul, py_truediv.
    cbn. repeat split; eauto.
Qed.


Lemma accumulate_naturals init l :
  natural init -> Forall natural l ->
  natural (accumulate init l)
  /\ int_value init <= int_value (accumulate init l).
Proof.
  revert init. induction l as [|x l IH]; intros init Hinit Hl; [split; [done | reflexivity] |].
  inversion Hl as [|? ? (k & -> & Hk) Hl']; subst.
  destruct Hinit as (a & -> & Ha). cbn [accumulate fold_left py_add].
  destruct (IH (PInt (a + k))) as [Hn Hle]; [exists (a + k); split; [done | lia] | done |].
  split; [exact Hn |]. unfold accumulate in *. cbn [int_value] in *. lia.
Qed.

Lemma py_sum_snoc_natural l x :
  Forall natural l -> natural x ->
  int_value (py_sum l) <= int_value (py_sum (l ++ [x])).
Proof.
  intros Hl Hx. unfold py_sum. rewrite accumulate_app.
  destruct (accumulate_naturals (PInt 0) l) as [(a & -> & Ha) _];
    [exists 0; split; [done | lia] | done |].
  destruct Hx as (k & -> & Hk). cbn. lia.
Qed.

Lemma py_sum_natural l : Forall natural l -> natural (py_sum l).
Proof.
  intros Hl. apply accumulate_naturals; [exists 0; split; [done | lia] | done].
Qed.

(** Along a run, the turn index and the tokens of the history only grow, and
    so do the turn indexes and the input tokens of the records. *)
Lemma detailed_loop_sorted mapping costs_config ids :
  forall st0 st,
    detailed_loop mapping costs_config ids st0 = Ok st ->
    Forall natural (map snd (history_for_inputs st0)) ->
    Forall natural (map snd (history_for_inputs st))
    /\ current_turn_index st0 <= current_turn_index st
    /\ int_value (py_sum (map snd (history_for_inputs st0)))
       <= int_value (py_sum (map snd (history_for_inputs st)))
    /\ exists new,
         processed_turns st = processed_turns st0 ++ new
         /\ StronglySorted record_le new
         /\ Forall
              (fun r =>
                 current_turn_index st0 <= turn_index r <= current_turn_index st
                 /\ int_value (py_sum (map snd (history_for_inputs st0)))
                    <= int_value (input_tokens r))
              new.
Proof.
  induction ids as [|i ids IH]; intros st0 st Hrun Hnat.
  - injection Hrun as <-. split; [done |]. split; [lia |]. split; [lia |].
    exists []. rewrite app_nil_r. repeat split; constructor.
  - cbn [detailed_loop] in Hrun.
    destruct (detailed_step mapping costs_config st0 i) as [st1|e] eqn:Hstep;
      [| discriminate].
    cbn [mbind pyresult_bind] in Hrun.
    apply detailed_step_inv in Hstep.
    destruct (message_at mapping i) as [[msg_data message]|];
      [| subst st1; by apply IH].
    cbv zeta in Hstep.
    assert (Hnat1 : Forall natural
                      (map snd (history_for_inputs st0)
                       ++ [message_tokens msg_data false])).
    { apply Forall_app. split; [done |]. constructor; [| constructor].
      apply history_tokens_int. }
    pose proof (py_sum_snoc_natural _ _ Hnat (history_tokens_int msg_data)) as Hgrow.
    destruct (String.eqb (role_of message) "assistant").
    + destruct Hstep as (rates & irate & orate & _ & _ & _ & ->).
      destruct (IH _ _ Hrun) as (Hnat' & Hidx & Htot & new & Ht & Hsorted & Hall).
      { cbn [history_for_inputs]. by rewrite map_app. }
      cbn [history_for_inputs current_turn_index processed_turns] in *.
      rewrite map_app in Htot, Hall. cbn [map snd] in Htot, Hall.
      split; [exact Hnat' |].
      split; [destruct (ends_turn message); lia |].
      split; [lia |].
      eexists (_ :: new). rewrite Ht, <- app_assoc. split; [reflexivity |].
      split.
      * constructor; [exact Hsorted |].
        eapply Forall_impl; [exact Hall |]. intros r [Hr1 Hr2].
        unfold record_le. cbn [stated_turn_record turn_index input_tokens].
        split; [destruct (ends_turn message); lia | lia].
      * constructor.
        -- cbn [stated_turn_record turn_index input_tokens].
           split; [destruct (ends_turn message); lia | lia].
        -- eapply Forall_impl; [exact Hall |]. intros r [Hr1 Hr2].
           split; [destruct (ends_turn message); lia | lia].
    + subst st1.
      destruct (IH _ _ Hrun) as (Hnat' & Hidx & Htot & new & Ht & Hsorted & Hall).
      { cbn [history_for_inputs]. by rewrite map_app. }
      cbn [history_for_inputs current_turn_index processed_turns] in *.
      rewrite map_app in Htot, Hall. cbn [map snd] in Htot, Hall.
      split; [exact Hnat' |].
      split; [destruct (ends_turn message); lia |].
      split; [lia |].
      exists new. split; [exact Ht |]. split; [exact Hsorted |].
      eapply Forall_impl; [exact Hall |]. intros r [Hr1 Hr2].
      split; [destruct (ends_turn message); lia | lia].
Qed.

Lemma StronglySorted_map {A : Type} (R : A -> A -> Prop) (f : A -> Z) (l : list A) :
  (forall a b, R a b -> f a <= f b) ->
  StronglySorted R l -> StronglySorted Z.le (map f l).
Proof.
  intros HR. induction 1 as [|a l Hs IH Hall]; cbn [map]; constructor; [exact IH |].
  apply Forall_map. eapply Forall_impl; [exact Hall |]. intros b Hb. by apply HR.
Qed.

End WithTiktoken.

(** ** The entry point *)

Section WithRuntime.
Context {tk : Tiktoken} {so : SetOrder}.

Lemma linearize_empty : get_message_chronological_order (∅ : gmap string MessageNode) = [].
Proof.
  unfold get_message_chronological_order, get_message_chronological_order_fuel.
  by rewrite bool_decide_eq_true_2.
Qed.

(** The analysis of a conversation whose linearized order is not empty, in a
    mode that is not "simple": the detailed-mode analysis of that order. *)
Lemma analyze_detailed_unfold conversation costs_config mode m :
  mapping conversation = Some m ->
  get_message_chronological_order m <> [] ->
  mode <> "simple" ->
  analyze_conversation_tokens_and_costs conversation costs_config mode
  = d ← analyze_detailed m (get_message_chronological_order m) costs_config
         (count_real_turns m (get_message_chronological_order m));
    Ok {| result_title := default "N/A" (title conversation);
          create_time_ts := create_time conversation;
          update_time_ts := update_time conversation;
          body := DetailedBody d |}.
Proof.
  intros Hm Hids Hmode. unfold analyze_conversation_tokens_and_costs. cbv zeta.
  rewrite Hm. cbn [default from_option id].
  destruct (bool_decide (m = ∅)) eqn:He.
  { apply bool_decide_eq_true in He. subst m. by destruct Hids, linearize_empty. }
  destruct (get_message_chronological_order m) as [|i0 ids]; [done |].
  apply String.eqb_neq in Hmode. by rewrite Hmode.
Qed.


(** X11.  A conversation without assistant message in its linearized order
    is analysed in detailed mode on any cost table, even one with unusable
    entries: no rate is looked up, there is no record, and all totals are
    zero. *)
Theorem detailed_mode_without_assistant :
  forall conversation costs_config mode m,
    mapping conversation = Some m ->
    get_message_chronological_order m <> [] ->
    mode <> "simple" ->
    assistant_count m (get_message_chronological_order m) = 0%nat ->
    exists res d,
      analyze_conversation_tokens_and_costs conversation costs_config mode = Ok res
      /\ body res = DetailedBody d
      /\ Detailed.turns_details d = []
      /\ Detailed.total_cost d = PFloat 0
      /\ Detailed.total_input_tokens_across_turns d = PInt 0
      /\ Detailed.total_output_tokens_for_all_assistant_msgs d = PInt 0
      /\ Detailed.assistant_messages_count d = 0.
Proof.
  intros conversation costs_config mode m Hm Hids Hmode Hnone.
  rewrite (analyze_detailed_unfold _ _ _ _ Hm Hids Hmode). unfold analyze_detailed.
  destruct (detailed_loop_without_assistant m costs_config _ Hnone initial_state)
    as (st & -> & Ht & Hc & Hi & Ho & Hn).
  cbn [mbind pyresult_bind]. eexists _, _. split; [reflexivity |].
  split; [reflexivity |]. cbn. rewrite Ht, Hc, Hi, Ho, Hn. repeat split; reflexivity.
Qed.

(** X12.  The records of a detailed-mode result are the assistant messages
    of the linearized order, one record each and in that order; messages of
    other roles get no record. *)
Theorem records_are_the_assistant_messages :
  forall conversation costs_config mode res d m,
    analyze_conversation_tokens_and_costs conversation costs_config mode = Ok res ->
    body res = DetailedBody d ->
    mapping conversation = Some m ->
    map assistant_message_id (Detailed.turns_details d)
    = List.filter (is_assistant m) (get_message_chronological_order m)
    /\ Detailed.assistant_messages_count d
       = Z.of_nat (assistant_count m (get_message_chronological_order m)).
Proof.
  intros conversation costs_config mode res d m Hres Hbody Hm.
  destruct (analyze_detailed_inv _ _ _ _ _ Hres Hbody)
    as (m' & st & Hm' & Hrun & Ht & _ & _ & _ & Hcount & _).
  rewrite Hm in Hm'. injection Hm' as <-.
  destruct (detailed_loop_ids_outputs _ _ _ _ _ Hrun) as (new & Hnew & Hids & _).
  apply detailed_loop_totals in Hrun as (new' & Hnew' & Hlen & _ & _ & _ & _ & _ & Hn).
  cbn [initial_state processed_turns app assistant_message_count_in_convo]
    in Hnew, Hnew', Hn.
  rewrite Ht, Hnew. split; [exact Hids |].
  rewrite Hcount, Hn. rewrite Hnew' in Hnew. subst new'. lia.
Qed.

(** X13.  Along the records of a detailed-mode result the turn index never
    decreases, and it lies between 0 and the count of real turns; so no
    record is discounted in a conversation without end of turn. *)
Theorem turn_indexes_sorted_and_bounded :
  forall conversation costs_config mode res d,
    analyze_conversation_tokens_and_costs conversation costs_config mode = Ok res ->
    body res = DetailedBody d ->
    StronglySorted Z.le (map turn_index (Detailed.turns_details d))
    /\ Forall (fun r => 0 <= turn_index r <= Detailed.real_turns_count d)
         (Detailed.turns_details d)
    /\ (Detailed.real_turns_count d = 0 ->
        Forall (fun r => input_discounted r = false) (Detailed.turns_details d)).
Proof.
  intros conversation costs_config mode res d Hres Hbody.
  destruct (analyze_detailed_inv _ _ _ _ _ Hres Hbody)
    as (m & st & _ & Hrun & Ht & _ & _ & _ & _ & Hreal).
  pose proof (detailed_loop_records_consistent _ _ _ _ _ Hrun ltac:(constructor))
    as Hcons.
  destruct (detailed_loop_sorted _ _ _ _ _ Hrun ltac:(constructor))
    as (_ & _ & _ & new & Hnew & Hsorted & Hall).
  apply detailed_loop_totals in Hrun as (_ & _ & _ & Hidx & _).
  cbn [initial_state processed_turns current_turn_index app] in Hnew, Hall, Hidx.
  rewrite Ht, Hnew in *. rewrite Hreal, <- (Z.add_0_l (count_real_turns _ _)), <- Hidx.
  assert (Hbound : Forall (fun r => 0 <= turn_index r <= current_turn_index st) new).
  { eapply Forall_impl; [exact Hall |]. by intros r [? _]. }
  split; [| split; [exact Hbound |]].
  - eapply StronglySorted_map; [| exact Hsorted]. by intros a b [? _].
  - intros Hzero. rewrite Forall_forall in Hbound, Hcons. apply Forall_forall.
    intros r Hr. destruct (Hcons r Hr) as (_ & -> & _).
    apply Z.ltb_ge. specialize (Hbound r Hr). lia.
Qed.


(** X15.  Every record of a detailed-mode result adds up: its total cost is
    its input cost plus its output cost, both of them floats, and it is
    marked as discounted exactly when its turn index is above 0. *)
Theorem records_add_up :
  forall conversation costs_config mode res d,
    analyze_conversation_tokens_and_costs conversation costs_config mode = Ok res ->
    body res = DetailedBody d ->
    Forall record_consistent (Detailed.turns_details d).
Proof.
  intros conversation costs_config mode res d Hres Hbody.
  destruct (analyze_detailed_inv _ _ _ _ _ Hres Hbody)
    as (m & st & _ & Hrun & -> & _).
  exact (detailed_loop_records_consistent _ _ _ _ _ Hrun ltac:(constructor)).
Qed.

Lemma analyze_detailed_message_count conversation costs_config mode res d m :
  analyze_conversation_tokens_and_costs conversation costs_config mode = Ok res ->
  body res = DetailedBody d ->
  mapping conversation = Some m ->
  Detailed.message_count d
  = Z.of_nat (length (get_message_chronological_order m)).
Proof.
  unfold analyze_conversation_tokens_and_costs. cbv zeta.
  intros Hres Hbody Hm. rewrite Hm in Hres. cbn [default from_option id] in Hres.
  destruct (bool_decide (m = ∅)); [injection Hres as <-; discriminate |].
  destruct (get_message_chronological_order m) as [|i0 ids] eqn:Hids;
    [injection Hres as <-; discriminate |].
  destruct (String.eqb mode "simple"); [injection Hres as <-; discriminate |].
  unfold analyze_detailed in Hres.
  destruct (detailed_loop m costs_config (i0 :: ids) initial_state) as [st|e];
    [| discriminate].
  cbn [mbind pyresult_bind] in Hres. injection Hres as <-.
  cbn [body] in Hbody. by injection Hbody as <-.
Qed.

(** What a simple-mode result holds, field by field. *)
Lemma analyze_simple_fields mapping ids costs_config real_turns_count :
  let s := analyze_simple mapping ids costs_config real_turns_count in
  Simple.message_count s = Z.of_nat (length ids)
  /\ Simple.simple_total_output_tokens s = Simple.simple_total_assistant_tokens s
  /\ Simple.simple_total_input_tokens s
     = py_add (Simple.simple_total_user_tokens s) (Simple.simple_total_system_tokens s)
  /\ Simple.simple_total_cost s
     = py_add (Simple.simple_input_cost s) (Simple.simple_output_cost s)
  /\ (exists f, Simple.simple_input_cost s = PFloat f)
  /\ (exists f, Simple.simple_output_cost s = PFloat f).
Proof.
  cbv zeta. unfold analyze_simple.
  destruct (fold_left _ _ _) as [[u a] sy].
  destruct (simple_rates costs_config) as [key found].
  destruct (complete_rates found) as [[i o]|]; cbn;
    repeat split; unfold cost_of, py_mul, py_truediv; eauto.
Qed.

(** X16.  The two modes agree on what they both report: the total of the
    assistant's output tokens (thoughts counted), whatever the number of
    assistant messages, the count of real turns and the count of messages. *)
Theorem simple_and_detailed_agree :
  forall conversation costs_config mode res_simple res_detailed s d,
    analyze_conversation_tokens_and_costs conversation costs_config "simple"
      = Ok res_simple ->
    body res_simple = SimpleBody s ->
    analyze_conversation_tokens_and_costs conversation costs_config mode
      = Ok res_detailed ->
    body res_detailed = DetailedBody d ->
    Simple.simple_total_assistant_tokens s
      = Detailed.total_output_tokens_for_all_assistant_msgs d
    /\ Simple.simple_total_output_tokens s
       = Detailed.total_output_tokens_for_all_assistant_msgs d
    /\ Simple.real_turns_count s = Detailed.real_turns_count d
    /\ Simple.message_count s = Detailed.message_count d.
Proof.
  intros conversation costs_config mode res_simple res_detailed s d
    Hsimple Hs Hdetailed Hd.
  destruct (analyze_detailed_inv _ _ _ _ _ Hdetailed Hd)
    as (m & st & Hm & Hrun & Ht & _ & _ & Hout & _ & Hreal).
  pose proof (analyze_detailed_message_count _ _ _ _ _ _ Hdetailed Hd Hm) as Hcount.
  pose proof (real_turns_count_reported _ _ _ _ _ Hsimple Hm) as Hreal_s.
  rewrite Hs in Hreal_s.
  destruct (analyze_simple_inv _ _ _ _ Hsimple Hs) as (m' & Hm' & Hs').
  rewrite Hm in Hm'. injection Hm' as <-.
  destruct (analyze_simple_fields m (get_message_chronological_order m) costs_config
              (count_real_turns m (get_message_chronological_order m)))
    as (Hmc & Hso & _).
  rewrite <- Hs' in Hmc, Hso.
  assert (Htotal : Simple.simple_total_assistant_tokens s
                   = Detailed.total_output_tokens_for_all_assistant_msgs d).
  { rewrite Hs', analyze_simple_assistant_total, Hout.
    destruct (detailed_loop_ids_outputs _ _ _ _ _ Hrun) as (new & Hnew & _ & Houts).
    apply detailed_loop_totals in Hrun
      as (new' & Hnew' & _ & _ & _ & _ & _ & Hacc & _).
    rewrite Hnew' in Hnew. apply app_inv_head in Hnew. subst new'.
    rewrite Hacc, Houts. reflexivity. }
  repeat split; congruence.
Qed.

(** X17.  A simple-mode result adds up: its input tokens are the user's plus
    the system's, its output tokens are the assistant's, and its total cost
    is its input cost plus its output cost, both of them floats, also when no
    usable rates were found and the costs are 0. *)
Theorem simple_result_adds_up :
  forall conversation costs_config res s,
    analyze_conversation_tokens_and_costs conversation costs_config "simple"
      = Ok res ->
    body res = SimpleBody s ->
    Simple.simple_total_input_tokens s
      = py_add (Simple.simple_total_user_tokens s) (Simple.simple_total_system_tokens s)
    /\ Simple.simple_total_output_tokens s = Simple.simple_total_assistant_tokens s
    /\ Simple.simple_total_cost s
       = py_add (Simple.simple_input_cost s) (Simple.simple_output_cost s)
    /\ (exists f, Simple.simple_input_cost s = PFloat f)
    /\ (exists f, Simple.simple_output_cost s = PFloat f).
Proof.
  intros conversation costs_config res s Hres Hbody.
  destruct (analyze_simple_inv _ _ _ _ Hres Hbody) as (m & _ & ->).
  destruct (analyze_simple_fields m (get_message_chronological_order m) costs_config
              (count_real_turns m (get_message_chronological_order m)))
    as (_ & Hout & Hin & Hcost & Hf & Hg).
  repeat split; assumption.
Qed.

End WithRuntime.

(** ** At the sample conversations *)

Import Samples MoreSamples.
Local Abbreviation tk := one_token_per_char.
Local Abbreviation so := elements_order.


(** A conversation of users only, on a table whose one entry is empty. *)
Lemma detailed_mode_without_assistant_witness :
  exists res d,
    @analyze_conversation_tokens_and_costs tk so (conversation_of (Some users_only))
      empty_entry "detailed" = Ok res
    /\ body res = DetailedBody d
    /\ Detailed.turns_details d = []
    /\ Detailed.total_cost d = PFloat 0
    /\ Detailed.total_input_tokens_across_turns d = PInt 0
    /\ Detailed.total_output_tokens_for_all_assistant_msgs d = PInt 0
    /\ Detailed.assistant_messages_count d = 0.
Proof.
  apply (@detailed_mode_without_assistant tk so (conversation_of (Some users_only))
           empty_entry "detailed" users_only);
    [reflexivity | vm_compute; discriminate | discriminate | vm_compute; reflexivity].
Defined.

Lemma records_are_the_assistant_messages_witness :
  exists res d,
    @analyze_conversation_tokens_and_costs tk so (conversation_of (Some two_turns))
      o3_only "detailed" = Ok res
    /\ body res = DetailedBody d
    /\ map assistant_message_id (Detailed.turns_details d)
       = List.filter (is_assistant two_turns)
           (@get_message_chronological_order so two_turns)
    /\ Detailed.assistant_messages_count d
       = Z.of_nat (assistant_count two_turns
                     (@get_message_chronological_order so two_turns)).
Proof.
  eexists _, _. split; [vm_compute; reflexivity |]. split; [reflexivity |].
  eapply (@records_are_the_assistant_messages tk so (conversation_of (Some two_turns))
            o3_only "detailed");
    [vm_compute; reflexivity | reflexivity | reflexivity].
Defined.

Lemma turn_indexes_sorted_and_bounded_witness :
  exists res d,
    @analyze_conversation_tokens_and_costs tk so (conversation_of (Some two_turns))
      o3_only "detailed" = Ok res
    /\ body res = DetailedBody d
    /\ StronglySorted Z.le (map turn_index (Detailed.turns_details d))
    /\ Forall (fun r => 0 <= turn_index r <= Detailed.real_turns_count d)
         (Detailed.turns_details d)
    /\ (Detailed.real_turns_count d = 0 ->
        Forall (fun r => input_discounted r = false) (Detailed.turns_details d)).
Proof.
  eexists _, _. split; [vm_compute; reflexivity |]. split; [reflexivity |].
  eapply (@turn_indexes_sorted_and_bounded tk so (conversation_of (Some two_turns))
            o3_only "detailed");
    [vm_compute; reflexivity | reflexivity].
Defined.


Lemma records_add_up_witness :
  exists res d,
    @analyze_conversation_tokens_and_costs tk so (conversation_of (Some two_turns))
      o3_only "detailed" = Ok res
    /\ body res = DetailedBody d
    /\ Forall record_consistent (Detailed.turns_details d).
Proof.
  eexists _, _. split; [vm_compute; reflexivity |]. split; [reflexivity |].
  eapply (@records_add_up tk so (conversation_of (Some two_turns)) o3_only "detailed");
    [vm_compute; reflexivity | reflexivity].
Defined.

Lemma simple_and_detailed_agree_witness :
  exists res_simple res_detailed s d,
    @analyze_conversation_tokens_and_costs tk so (conversation_of (Some two_turns))
      o3_only "simple" = Ok res_simple
    /\ body res_simple = SimpleBody s
    /\ @analyze_conversation_tokens_and_costs tk so (conversation_of (Some two_turns))
         o3_only "detailed" = Ok res_detailed
    /\ body res_detailed = DetailedBody d
    /\ Simple.simple_total_assistant_tokens s
       = Detailed.total_output_tokens_for_all_assistant_msgs d
    /\ Simple.simple_total_output_tokens s
       = Detailed.total_output_tokens_for_all_assistant_msgs d
    /\ Simple.real_turns_count s = Detailed.real_turns_count d
    /\ Simple.message_count s = Detailed.message_count d.
Proof.
  eexists _, _, _, _. split; [vm_compute; reflexivity |].
  split; [reflexivity |]. split; [vm_compute; reflexivity |].
  split; [reflexivity |].
  eapply (@simple_and_detailed_agree tk so (conversation_of (Some two_turns))
            o3_only "detailed");
    [vm_compute; reflexivity | reflexivity | vm_compute; reflexivity | reflexivity].
Defined.

(** Simple mode on a table without usable rates: the costs are 0 and still
    add up. *)
Lemma simple_result_adds_up_witness :
  exists res s,
    @analyze_conversation_tokens_and_costs tk so (conversation_of (Some two_turns))
      o3_without_output_rate "simple" = Ok res
    /\ body res = SimpleBody s
    /\ Simple.simple_total_input_tokens s
       = py_add (Simple.simple_total_user_tokens s) (Simple.simple_total_system_tokens s)
    /\ Simple.simple_total_output_tokens s = Simple.simple_total_assistant_tokens s
    /\ Simple.simple_total_cost s
       = py_add (Simple.simple_input_cost s) (Simple.simple_output_cost s)
    /\ (exists f, Simple.simple_input_cost s = PFloat f)
    /\ (exists f, Simple.simple_output_cost s = PFloat f).
Proof.
  eexists _, _. split; [vm_compute; reflexivity |]. split; [reflexivity |].
  eapply (@simple_result_adds_up tk so (conversation_of (Some two_turns))
            o3_without_output_rate);
    [vm_compute; reflexivity | reflexivity].
Defined.

End AnalyzerExtras.

(* ===================================================================== *)
(** * Properties of the helpers of analyzer.py *)
(* ===================================================================== *)

Module MainExtras.
Import AnalyzerFacts.

(** ** Sorting by turns *)

Lemma insert_desc_perm {A : Type} (key : A -> Z) x l :
  insert_desc key x l ≡ₚ x :: l.
Proof.
  induction l as [|y l IH]; [reflexivity |]. cbn [insert_desc].
  destruct (key x <? key y); [| reflexivity].
  rewrite IH. apply Permutation_swap.
Qed.

Lemma sorted_reverse_perm {A : Type} (key : A -> Z) l :
  sorted_reverse key l ≡ₚ l.
Proof.
  induction l as [|x l IH]; [reflexivity |]. cbn [sorted_reverse fold_right].
  fold (sorted_reverse key l). by rewrite insert_desc_perm, IH.
Qed.

Lemma insert_desc_descending {A : Type} (key : A -> Z) x l :
  descending key l -> descending key (insert_desc key x l).
Proof.
  unfold descending. induction 1 as [|y l Hs IH Hall]; cbn [insert_desc].
  - repeat constructor.
  - destruct (Z.ltb_spec (key x) (key y)).
    + constructor; [exact IH |].
      rewrite insert_desc_perm. constructor; [lia | exact Hall].
    + constructor; [by constructor |].
      constructor; [lia |]. eapply Forall_impl; [exact Hall |].
      intros z Hz. cbv beta in *. lia.
Qed.

Lemma sorted_reverse_descending {A : Type} (key : A -> Z) l :
  descending key (sorted_reverse key l).
Proof.
  induction l as [|x l IH]; [constructor |].
  by apply insert_desc_descending.
Qed.

(** Sorting keeps the elements of each key in the order of the input. *)
Lemma insert_desc_filter {A : Type} (key : A -> Z) k x l :
  descending key l ->
  List.filter (fun r => key r =? k) (insert_desc key x l)
  = List.filter (fun r => key r =? k) (x :: l).
Proof.
  unfold descending. induction 1 as [|y l Hs IH Hall]; [reflexivity |].
  cbn [insert_desc].
  destruct (Z.ltb_spec (key x) (key y)); [| reflexivity].
  cbn [List.filter] in *. rewrite IH.
  destruct (Z.eqb_spec (key x) k), (Z.eqb_spec (key y) k); try reflexivity. lia.
Qed.

Lemma sorted_reverse_filter {A : Type} (key : A -> Z) k l :
  List.filter (fun r => key r =? k) (sorted_reverse key l)
  = List.filter (fun r => key r =? k) l.
Proof.
  induction l as [|x l IH]; [reflexivity |]. cbn [sorted_reverse fold_right].
  fold (sorted_reverse key l).
  rewrite insert_desc_filter by apply sorted_reverse_descending.
  cbn [List.filter]. by rewrite IH.
Qed.

Lemma slice_to_split {A : Type} (l : list A) limit :
  exists n, slice_to l limit = take n l
            /\ (0 <= limit -> n = Z.to_nat limit).
Proof.
  unfold slice_to. destruct (Z.ltb_spec limit 0); eexists; split; eauto; lia.
Qed.

Lemma descending_split {A : Type} (key : A -> Z) (l1 l2 : list A) :
  descending key (l1 ++ l2) ->
  descending key l1
  /\ forall a b, In a l1 -> In b l2 -> key b <= key a.
Proof.
  unfold descending. induction l1 as [|x l1 IH]; cbn [app]; intros Hs.
  - split; [constructor | intros a b []].
  - inversion Hs as [|? ? Hs' Hall]; subst. destruct (IH Hs') as [Hl1 Hdom].
    apply Forall_app in Hall as [Hall1 Hall2]. split; [by constructor |].
    intros a b [<- | Ha] Hb; [| by apply Hdom].
    rewrite Forall_forall in Hall2. apply Hall2. by apply list_elem_of_In.
Qed.

(** X18.  The conversations with the most turns: the results come in
    descending order of their real turns and none has an error marker; they
    are the first of the valid results so ordered, so every valid result
    that is left out has at most as many turns as each one that is returned;
    and a limit that is not negative is the number returned, if there are so
    many valid results. *)
Theorem most_turns_are_the_top_results :
  forall (analysis_results : list AnalysisResult) (limit : Z),
    let top := find_conversations_with_most_turns analysis_results limit in
    descending turns_key top
    /\ Forall (fun r => has_error r = false) top
    /\ (exists left_out,
          top ++ left_out ≡ₚ valid_results analysis_results
          /\ forall a b, In a top -> In b left_out -> turns_key b <= turns_key a)
    /\ (0 <= limit ->
        length top
        = Nat.min (Z.to_nat limit) (length (valid_results analysis_results))).
Proof.
  intros analysis_results limit top. subst top.
  unfold find_conversations_with_most_turns. cbv zeta.
  set (valid := valid_results analysis_results).
  set (sorted := sorted_reverse turns_key valid).
  destruct (slice_to_split sorted limit) as (n & -> & Hn).
  pose proof (sorted_reverse_descending turns_key valid) as Hdesc.
  fold sorted in Hdesc. rewrite <- (take_drop n sorted) in Hdesc.
  apply descending_split in Hdesc as [Htop Hdom].
  assert (Hperm : take n sorted ++ drop n sorted ≡ₚ valid).
  { rewrite take_drop. apply sorted_reverse_perm. }
  split; [exact Htop |]. split; [| split].
  - apply Forall_forall. intros r Hr.
    assert (Hin : r ∈ valid).
    { rewrite <- Hperm. apply elem_of_app. left. exact Hr. }
    apply list_elem_of_In, filter_In in Hin as [_ Hok].
    by apply negb_true_iff in Hok.
  - exists (drop n sorted). split; [exact Hperm | exact Hdom].
  - intros Hlimit. rewrite (Hn Hlimit), length_take.
    subst sorted. by rewrite (Permutation_length (sorted_reverse_perm _ _)).
Qed.

(** X19.  Results with the same number of turns are returned in the order
    in which they were given: the sort is stable. *)
Theorem most_turns_keep_input_order_on_ties :
  forall (analysis_results : list AnalysisResult) (limit k : Z),
    List.filter (fun r => turns_key r =? k)
      (find_conversations_with_most_turns analysis_results limit)
    `prefix_of`
    List.filter (fun r => turns_key r =? k) (valid_results analysis_results).
Proof.
  intros analysis_results limit k.
  unfold find_conversations_with_most_turns. cbv zeta.
  destruct (slice_to_split (sorted_reverse turns_key (valid_results analysis_results))
              limit) as (n & -> & _).
  rewrite <- (sorted_reverse_filter turns_key k (valid_results analysis_results)).
  set (sorted := sorted_reverse turns_key (valid_results analysis_results)).
  rewrite <- (take_drop n sorted) at 2. rewrite List.filter_app.
  by apply prefix_app_r.
Qed.

Section WithOrder.
Context {so : SetOrder}.

Lemma count_in_conversation_is_count_real_turns conversation :
  count_real_turns_in_conversation conversation
  = count_real_turns (default ∅ (mapping conversation))
      (get_message_chronological_order (default ∅ (mapping conversation))).
Proof.
  unfold count_real_turns_in_conversation. cbv zeta.
  set (m := default ∅ (mapping conversation)).
  destruct (bool_decide (m = ∅)) eqn:He.
  { apply bool_decide_eq_true in He. rewrite He.
    unfold get_message_chronological_order, get_message_chronological_order_fuel.
    by rewrite bool_decide_eq_true_2. }
  destruct (get_message_chronological_order m) as [|i0 ids]; [reflexivity |].
  unfold count_real_turns. generalize (i0 :: ids) 0. clear.
  induction l as [|i l IH]; intros a; [reflexivity |]. cbn [fold_left].
  rewrite IH. f_equal. unfold ends_turn.
  destruct (m !! i) as [nd|]; [| reflexivity].
  destruct (message nd) as [msg|]; [| reflexivity].
  by destruct (end_turn msg) as [[]|].
Qed.

(** X20.  The turn count that the browsing helpers compute from the
    original conversation is the one the analysis reports in either mode, and
    it is 0 for a conversation whose analysis carries the error marker. *)
Theorem conversation_turn_count_agrees {tk : Tiktoken} :
  forall conversation costs_config mode res,
    analyze_conversation_tokens_and_costs conversation costs_config mode = Ok res ->
    count_real_turns_in_conversation conversation
    = match body res with
      | ErrorBody _ _ => 0
      | SimpleBody s => Simple.real_turns_count s
      | DetailedBody d => Detailed.real_turns_count d
      end.
Proof.
  intros conversation costs_config mode res Hres.
  rewrite count_in_conversation_is_count_real_turns.
  destruct (mapping conversation) as [m|] eqn:Hm.
  - pose proof (real_turns_count_reported _ _ _ _ _ Hres Hm) as Hreal.
    cbn [default from_option id].
    destruct (body res) as [reason md|s|d] eqn:Hbody; [| done | done].
    revert Hres Hbody. unfold analyze_conversation_tokens_and_costs. cbv zeta.
    rewrite Hm. cbn [default from_option id].
    destruct (bool_decide (m = ∅)) eqn:He.
    { apply bool_decide_eq_true in He. subst m. intros _ _.
      unfold get_message_chronological_order, get_message_chronological_order_fuel.
      by rewrite bool_decide_eq_true_2. }
    destruct (get_message_chronological_order m) as [|i0 ids]; [done |].
    destruct (String.eqb mode "simple"); [intros [= <-]; discriminate |].
    destruct (analyze_detailed _ _ _ _); [| discriminate].
    cbn [mbind pyresult_bind]. intros [= <-]. discriminate.
  - cbn [default from_option id].
    unfold get_message_chronological_order, get_message_chronological_order_fuel.
    rewrite bool_decide_eq_true_2 by reflexivity. cbn.
    revert Hres. unfold analyze_conversation_tokens_and_costs. cbv zeta.
    rewrite Hm. cbn [default from_option id].
    rewrite bool_decide_eq_true_2 by reflexivity. by intros [= <-].
Qed.

Lemma first_model_among_found (m : gmap string MessageNode) ids s :
  first_model_among m ids = s ->
  s <> "unknown" ->
  exists i msg_data msg,
    In i ids
    /\ m !! i = Some msg_data
    /\ message msg_data = Some msg
    /\ author_role msg = Some "assistant"
    /\ model_slug msg = Some s.
Proof.
  intros Hs Hne. induction ids as [|i ids IH]; [by destruct Hne |].
  cbn [first_model_among] in Hs.
  assert (Hrest : first_model_among m ids = s ->
                  exists i0 msg_data msg,
                    In i0 (i :: ids) /\ m !! i0 = Some msg_data
                    /\ message msg_data = Some msg
                    /\ author_role msg = Some "assistant"
                    /\ model_slug msg = Some s).
  { intros H. destruct (IH H) as (i0 & nd & msg & Hin & ?).
    exists i0, nd, msg. split; [by right | done]. }
  destruct (m !! i) as [nd|] eqn:Hi; [| by apply Hrest].
  destruct (message nd) as [msg|] eqn:Hmsg; [| by apply Hrest].
  destruct (bool_decide (author_role msg = Some "assistant")) eqn:Hrole;
    cbn [negb] in Hs; [| by apply Hrest].
  apply bool_decide_eq_true in Hrole.
  destruct (model_slug msg) as [slug|] eqn:Hslug; cbn [default from_option id] in Hs.
  - destruct (truthy slug); [| by apply Hrest].
    subst slug. exists i, nd, msg. split; [by left | done].
  - cbn in Hs. by apply Hrest.
Qed.

(** X21.  The first model of a conversation, when one is found, is the model
    slug of an assistant message of its mapping, so the conversation passes
    the model filter for it. *)
Theorem first_model_passes_the_model_filter :
  forall conversation s,
    get_first_model_used conversation = s ->
    s <> "unknown" ->
    s <> ""
    /\ (exists m i msg_data msg,
          mapping conversation = Some m
          /\ m !! i = Some msg_data
          /\ message msg_data = Some msg
          /\ author_role msg = Some "assistant"
          /\ model_slug msg = Some s)
    /\ filter_conversations_by_model [conversation] (Some s) = [conversation].
Proof.
  intros conversation s Hs Hne.
  unfold get_first_model_used in Hs. cbv zeta in Hs.
  destruct (bool_decide (default ∅ (mapping conversation) = ∅)) eqn:He;
    [congruence |].
  apply bool_decide_eq_false in He.
  destruct (mapping conversation) as [m|] eqn:Hm; [| done].
  cbn [default from_option id] in Hs, He.
  assert (Hfirst : first_model_among m (get_message_chronological_order m) = s).
  { destruct (get_message_chronological_order m); [congruence | exact Hs]. }
  destruct (first_model_among_found _ _ _ Hfirst Hne)
    as (i & nd & msg & _ & Hi & Hmsg & Hrole & Hslug).
  assert (Htruthy : truthy s = true).
  { clear - Hfirst Hne. induction (get_message_chronological_order m) as [|i ids IH];
      [by destruct Hne |].
    cbn [first_model_among] in Hfirst.
    destruct (m !! i) as [nd|]; [| by apply IH].
    destruct (message nd) as [msg|]; [| by apply IH].
    destruct (negb _); [by apply IH |].
    destruct (truthy (default "" (model_slug msg))) eqn:Ht; [| by apply IH].
    by rewrite <- Hfirst. }
  split; [by intros -> |]. split; [by exists m, i, nd, msg |].
  unfold filter_conversations_by_model. rewrite Htruthy. cbn [List.filter].
  assert (Hused : assistant_used_model s conversation = true); [| by rewrite Hused].
  unfold assistant_used_model. rewrite Hm. cbn [default from_option id].
  apply existsb_exists. exists (i, nd). split.
  - apply list_elem_of_In, elem_of_map_to_list. exact Hi.
  - unfold uses_model. cbn [snd]. rewrite Hmsg, Hrole, Hslug.
    by rewrite !String.eqb_refl.
Qed.

End WithOrder.

(** ** At the sample data *)

Lemma conversation_turn_count_agrees_witness :
  exists res,
    @analyze_conversation_tokens_and_costs Samples.one_token_per_char
      Samples.elements_order (Samples.conversation_of (Some Samples.two_turns))
      Samples.o3_only "simple" = Ok res
    /\ @count_real_turns_in_conversation Samples.elements_order
         (Samples.conversation_of (Some Samples.two_turns))
       = match body res with
         | ErrorBody _ _ => 0
         | SimpleBody s => Simple.real_turns_count s
         | DetailedBody d => Detailed.real_turns_count d
         end.
Proof.
  eexists. split; [vm_compute; reflexivity |].
  eapply (@conversation_turn_count_agrees Samples.elements_order
            Samples.one_token_per_char
            (Samples.conversation_of (Some Samples.two_turns)) Samples.o3_only "simple").
  vm_compute. reflexivity.
Defined.

Lemma first_model_passes_the_model_filter_witness :
  @get_first_model_used Samples.elements_order
    (Samples.conversation_of (Some Samples.two_turns)) = "o3"
  /\ filter_conversations_by_model
       [Samples.conversation_of (Some Samples.two_turns)] (Some "o3")
     = [Samples.conversation_of (Some Samples.two_turns)].
Proof.
  assert (Hfirst : @get_first_model_used Samples.elements_order
                     (Samples.conversation_of (Some Samples.two_turns)) = "o3")
    by (vm_compute; reflexivity).
  split; [exact Hfirst |].
  apply (@first_model_passes_the_model_filter Samples.elements_order
           (Samples.conversation_of (Some Samples.two_turns)) "o3" Hfirst).
  discriminate.
Defined.

(** The three valid results of [batch], two at a time. *)
Lemma most_turns_are_the_top_results_witness :
  find_conversations_with_most_turns MoreSamples.batch 2
  = [MoreSamples.simple_result "c" 5; MoreSamples.simple_result "a" 3]
  /\ length (find_conversations_with_most_turns MoreSamples.batch 2)
     = Nat.min (Z.to_nat 2) (length (valid_results MoreSamples.batch)).
Proof.
  split; [vm_compute; reflexivity |].
  apply (most_turns_are_the_top_results MoreSamples.batch 2). lia.
Defined.

End MainExtras.

(* ===================================================================== *)
(** * Properties of the model filter and of the report *)
(* ===================================================================== *)

Module FilterExtras.

Lemma assistant_used_model_spec model_slug_filter conv :
  assistant_used_model model_slug_filter conv = true <->
  exists m i msg_data msg,
    mapping conv = Some m
    /\ m !! i = Some msg_data
    /\ message msg_data = Some msg
    /\ author_role msg = Some "assistant"
    /\ model_slug msg = Some model_slug_filter.
Proof.
  unfold assistant_used_model. rewrite existsb_exists. split.
  - intros ([i nd] & Hin & Huses). cbn [snd] in Huses.
    apply list_elem_of_In, elem_of_map_to_list in Hin.
    destruct (mapping conv) as [m|]; cbn [default from_option id] in Hin;
      [| rewrite lookup_empty in Hin; discriminate Hin].
    unfold uses_model in Huses.
    destruct (message nd) as [msg|] eqn:Hmsg; [| discriminate].
    destruct (author_role msg) as [role|] eqn:Hrole; [| discriminate].
    apply andb_true_iff in Huses as [Hr Hs].
    apply String.eqb_eq in Hr. subst role.
    destruct (model_slug msg) as [s|] eqn:Hslug; [| discriminate].
    apply String.eqb_eq in Hs. subst s.
    exists m, i, nd, msg. repeat split; assumption.
  - intros (m & i & nd & msg & Hm & Hi & Hmsg & Hrole & Hslug).
    exists (i, nd). rewrite Hm. cbn [default from_option id snd]. split.
    + apply list_elem_of_In, elem_of_map_to_list. exact Hi.
    + unfold uses_model. rewrite Hmsg, Hrole, Hslug.
      rewrite !String.eqb_refl. reflexivity.
Qed.

Lemma filter_sublist {A : Type} (f : A -> bool) (l : list A) :
  List.filter f l `sublist_of` l.
Proof.
  induction l as [|x l IH]; [constructor |]. cbn [List.filter].
  destruct (f x); by constructor.
Qed.

Lemma filter_twice {A : Type} (f : A -> bool) (l : list A) :
  List.filter f (List.filter f l) = List.filter f l.
Proof.
  induction l as [|x l IH]; [reflexivity |]. cbn [List.filter].
  destruct (f x) eqn:Hx; [| exact IH]. cbn [List.filter]. rewrite Hx, IH.
  reflexivity.
Qed.

(** X22.  The model filter keeps, in the order of the input, exactly the
    conversations whose mapping holds a message of the assistant with that
    model slug, on any node of the mapping; filtering a second time changes
    nothing, and without a filter (none or the empty string) all
    conversations are kept. *)
Theorem model_filter_keeps_the_users_of_the_model :
  forall (conversations : list Conversation) (model_slug_filter : string),
    filter_conversations_by_model conversations None = conversations
    /\ filter_conversations_by_model conversations (Some "") = conversations
    /\ (model_slug_filter <> "" ->
        let kept :=
          filter_conversations_by_model conversations (Some model_slug_filter) in
        kept `sublist_of` conversations
        /\ filter_conversations_by_model kept (Some model_slug_filter) = kept
        /\ forall conv,
             In conv kept <->
             In conv conversations
             /\ exists m i msg_data msg,
                  mapping conv = Some m
                  /\ m !! i = Some msg_data
                  /\ message msg_data = Some msg
                  /\ author_role msg = Some "assistant"
                  /\ model_slug msg = Some model_slug_filter).
Proof.
  intros conversations model_slug_filter.
  split; [reflexivity |]. split; [reflexivity |].
  intros Hne. cbv zeta. unfold filter_conversations_by_model.
  assert (Ht : truthy model_slug_filter = true).
  { unfold truthy. apply negb_true_iff, String.eqb_neq. exact Hne. }
  rewrite Ht. split; [apply filter_sublist |]. split; [apply filter_twice |].
  intros conv. rewrite filter_In, assistant_used_model_spec. reflexivity.
Qed.

Lemma model_filter_keeps_the_users_of_the_model_witness :
  filter_conversations_by_model
    [Samples.conversation_of (Some MoreSamples.users_only);
     Samples.conversation_of (Some Samples.two_turns);
     Samples.conversation_of None] (Some "o3")
  = [Samples.conversation_of (Some Samples.two_turns)]
  /\ filter_conversations_by_model
       (filter_conversations_by_model
          [Samples.conversation_of (Some MoreSamples.users_only);
           Samples.conversation_of (Some Samples.two_turns);
           Samples.conversation_of None] (Some "o3")) (Some "o3")
     = filter_conversations_by_model
         [Samples.conversation_of (Some MoreSamples.users_only);
          Samples.conversation_of (Some Samples.two_turns);
          Samples.conversation_of None] (Some "o3").
Proof.
  split; [vm_compute; reflexivity |].
  destruct (model_filter_keeps_the_users_of_the_model
              [Samples.conversation_of (Some MoreSamples.users_only);
               Samples.conversation_of (Some Samples.two_turns);
               Samples.conversation_of None] "o3") as (_ & _ & Hkept).
  assert (Hne : "o3" <> "") by discriminate.
  destruct (Hkept Hne) as (_ & Hagain & _). exact Hagain.
Defined.

End FilterExtras.

Module ReportingExtras.
Import LinearizerFacts.

Lemma filter_partition_perm {A : Type} (f : A -> bool) (l : list A) :
  l ≡ₚ List.filter f l ++ List.filter (fun x => negb (f x)) l.
Proof.
  induction l as [|x l IH]; [reflexivity |]. cbn [List.filter].
  destruct (f x); cbn [negb app].
  - by constructor.
  - rewrite <- Permutation_middle. by constructor.
Qed.

(** X23.  A report splits the results it is given in two: those with the
    error marker, listed under "errors", and the valid ones that its sums
    run over; every result is in exactly one of the two, and the count of
    conversations in the metadata is the sum of their numbers. *)
Theorem report_partitions_the_results {bi : Builtins} :
  forall (all_analysis_results : list AnalysisResult) (mode : string),
    let report := generate_comprehensive_report all_analysis_results mode in
    all_analysis_results ≡ₚ errors report ++ valid_results all_analysis_results
    /\ Forall (fun r => has_error r = true) (errors report)
    /\ Forall (fun r => has_error r = false) (valid_results all_analysis_results)
    /\ total_conversations report
       = Z.of_nat (length (errors report))
         + Z.of_nat (length (valid_results all_analysis_results)).
Proof.
  intros all_analysis_results mode report. subst report.
  unfold generate_comprehensive_report, error_conversations, valid_results.
  cbn [errors total_conversations].
  pose proof (filter_partition_perm has_error all_analysis_results) as Hperm.
  split; [exact Hperm |]. split; [| split].
  - apply Forall_forall. intros r Hr.
    apply list_elem_of_In, filter_In in Hr as [_ Hr]. exact Hr.
  - apply Forall_forall. intros r Hr.
    apply list_elem_of_In, filter_In in Hr as [_ Hr]. apply negb_true_iff, Hr.
  - rewrite (Permutation_length Hperm) at 1. rewrite length_app. lia.
Qed.

End ReportingExtras.

(* ===================================================================== *)
(** * A thread that cannot be ordered *)
(* ===================================================================== *)

Module StructuralErrorExtras.

Section WithRuntime.
Context {tk : Tiktoken} {so : SetOrder}.

(** X24.  A mapping whose synthetic root has no children has an empty
    linearized order, whatever other nodes it holds, and its analysis is the
    result with the error "Could not determine message order or no
    messages" in either mode. *)
Theorem childless_synthetic_root_is_an_error :
  forall conversation costs_config mode m root,
    mapping conversation = Some m ->
    m !! "client-created-root" = Some root ->
    children root = [] ->
    get_message_chronological_order m = []
    /\ exists res,
         analyze_conversation_tokens_and_costs conversation costs_config mode = Ok res
         /\ body res
            = ErrorBody "Could not determine message order or no messages" mode.
Proof.
  intros conversation costs_config mode m root Hm Hroot Hchildren.
  assert (Hne : m <> ∅).
  { intros ->. rewrite lookup_empty in Hroot. discriminate Hroot. }
  assert (Hids : get_message_chronological_order m = []).
  { unfold get_message_chronological_order, get_message_chronological_order_fuel,
      find_root.
    rewrite bool_decide_eq_false_2 by exact Hne.
    rewrite bool_decide_eq_true_2 by (apply elem_of_dom; eauto).
    cbn. unfold children_of. rewrite Hroot, Hchildren. reflexivity. }
  split; [exact Hids |].
  unfold analyze_conversation_tokens_and_costs. cbv zeta.
  rewrite Hm. cbn [default from_option id].
  rewrite bool_decide_eq_false_2 by exact Hne. rewrite Hids.
  eexists. split; reflexivity.
Qed.

End WithRuntime.

Lemma childless_synthetic_root_is_an_error_witness :
  @get_message_chronological_order Samples.elements_order MoreSamples.childless_root
  = []
  /\ exists res,
       @analyze_conversation_tokens_and_costs Samples.one_token_per_char
         Samples.elements_order
         (Samples.conversation_of (Some MoreSamples.childless_root))
         Samples.o3_only "detailed" = Ok res
       /\ body res
          = ErrorBody "Could not determine message order or no messages" "detailed".
Proof.
  apply (@childless_synthetic_root_is_an_error Samples.one_token_per_char
           Samples.elements_order
           (Samples.conversation_of (Some MoreSamples.childless_root))
           Samples.o3_only "detailed" MoreSamples.childless_root
           (Samples.node None [] None));
    [reflexivity | vm_compute; reflexivity | reflexivity].
Defined.

End StructuralErrorExtras.
